(** * Cart normalization engine: a shallow embedding and its properties

    The development follows [cart_engine.py], [menu_data.py] and the
    scenario loop of [evaluate.py].

    Conventions of the embedding.
    - A Python [str] is a [string] whose characters are the code points
      below 256 (Latin-1); on these [\w], [\s], [str.lower], [str.split],
      [str.isdigit] and [int] are the functions of [PyStr] below.
    - A Python [int] is a [Z]; offsets into a text are [nat].
    - A Python [float] is an IEEE 754 binary64 number, here a [spec_float]
      with precision 53 and maximal exponent 1024.
    - A [dict] is an association list in insertion order; assigning to a
      key that is present keeps its position.
    - Code that can raise lives in the error monad [sum exn]. *)

From Stdlib Require Import ZArith List String Ascii Bool Arith Lia.
From Stdlib Require Import Sorting.Sorted Sorting.Permutation.
From Stdlib Require Import Floats.SpecFloat.
From ExtLib Require Import Structures.Monad Structures.MonadExc.
From ExtLib Require Import Data.Monads.EitherMonad.
From Equations Require Import Equations.
From Equations.Prop Require Import Logic.
Import ListNotations.
Import MonadNotation.

Local Open Scope string_scope.
Local Open Scope list_scope.
Local Open Scope nat_scope.
Local Open Scope monad_scope.

(** ** Exceptions *)

Inductive exn : Type :=
| OverflowError
| ZeroDivisionError
| TypeError
| ValueError
| NameError (name : string).

(** Computations that return a value or raise. *)
Definition py : Type -> Type := sum exn.

#[global] Instance Monad_py : Monad py := Monad_either exn.
#[global] Instance Exception_py : MonadExc exn py := Exception_either exn.

(** ** Strings *)

Module PyStr.

Definition code (c : ascii) : nat := nat_of_ascii c.

Definition between (a b : nat) (c : ascii) : bool :=
  (a <=? code c) && (code c <=? b).

(** The characters that [str.lower] changes: A-Z and the accented
    capitals. *)
Definition is_upper (c : ascii) : bool :=
  between 65 90 c || between 192 214 c || between 216 222 c.

(** [c.isdecimal()]: 0-9 *)
Definition is_decimal (c : ascii) : bool := between 48 57 c.

(** [c.isdigit()]: 0-9 and the superscripts 1, 2, 3 *)
Definition is_digit (c : ascii) : bool :=
  is_decimal c || between 178 179 c || (code c =? 185).

(** [\w]: letters, digits, vulgar fractions and the underscore *)
Definition is_word (c : ascii) : bool :=
  between 48 57 c || between 65 90 c || (code c =? 95) || between 97 122 c
  || (code c =? 170) || between 178 179 c || (code c =? 181)
  || between 185 186 c || between 188 190 c || between 192 214 c
  || between 216 246 c || between 248 255 c.

(** [\s], and the separators of [str.split()] *)
Definition is_space (c : ascii) : bool :=
  between 9 13 c || between 28 32 c || (code c =? 133) || (code c =? 160).

Definition lower_char (c : ascii) : ascii :=
  if is_upper c then ascii_of_nat (code c + 32) else c.

(** [s.lower()] *)
Fixpoint lower (s : string) : string :=
  match s with
  | EmptyString => EmptyString
  | String c s' => String (lower_char c) (lower s')
  end.

Definition is_empty (s : string) : bool :=
  match s with EmptyString => true | _ => false end.

Definition head (s : string) : option ascii :=
  match s with EmptyString => None | String c _ => Some c end.

Fixpoint split_go (s : string) : string * list string :=
  match s with
  | EmptyString => (EmptyString, [])
  | String c s' =>
      let '(w, ws) := split_go s' in
      if is_space c
      then (EmptyString, if is_empty w then ws else w :: ws)
      else (String c w, ws)
  end.

(** [s.split()] *)
Definition split (s : string) : list string :=
  let '(w, ws) := split_go s in
  if is_empty w then ws else w :: ws.

(** [' '.join(ws)] *)
Fixpoint join_space (ws : list string) : string :=
  match ws with
  | [] => EmptyString
  | [w] => w
  | w :: ws' => (w ++ " " ++ join_space ws')%string
  end.

Fixpoint find_from (sub s : string) (pos : nat) : option nat :=
  if prefix sub s then Some pos
  else match s with
       | EmptyString => None
       | String _ s' => find_from sub s' (S pos)
       end.

(** [s.find(sub)]; [None] stands for [-1] *)
Definition find (s sub : string) : option nat := find_from sub s 0.

(** [sub in s] *)
Definition contains (s sub : string) : bool :=
  match find s sub with Some _ => true | None => false end.

(** [s[a:b]] for [0 <= a] *)
Definition slice (s : string) (a b : nat) : string := substring a (b - a) s.

Fixpoint all_digits (s : string) : bool :=
  match s with
  | EmptyString => true
  | String c s' => is_digit c && all_digits s'
  end.

(** [s.isdigit()] *)
Definition isdigit (s : string) : bool := negb (is_empty s) && all_digits s.

Fixpoint all_decimal (s : string) : bool :=
  match s with
  | EmptyString => true
  | String c s' => is_decimal c && all_decimal s'
  end.

Fixpoint int_acc (s : string) (acc : Z) : Z :=
  match s with
  | EmptyString => acc
  | String c s' => int_acc s' (10 * acc + Z.of_nat (code c - 48))
  end.

(** [int(s)] for an [s] with [s.isdigit()]: a superscript digit is not
    a valid literal. *)
Definition int (s : string) : py Z :=
  if all_decimal s then ret (int_acc s 0%Z) else raise ValueError.

(** [a < b] on strings *)
Definition ltb (a b : string) : bool := String.ltb a b.

Definition mem (x : string) (l : list string) : bool :=
  existsb (String.eqb x) l.

End PyStr.

(** ** The regular expressions of the engine

    The engine only builds patterns of the form [\b] literal [\b]; the
    literal is matched here character by character. *)

Module PyRe.
Import PyStr.

Definition is_word_opt (c : option ascii) : bool :=
  match c with Some c => is_word c | None => false end.

(** [\b] between the characters [prev] and [next] ([None] at either end
    of the text). *)
Definition at_boundary (prev next : option ascii) : bool :=
  xorb (is_word_opt prev) (is_word_opt next).

Section Literal.
(** Equality of a pattern character and a text character. *)
Variable same : ascii -> ascii -> bool.

Fixpoint strip_literal (pat rest : string) : option string :=
  match pat, rest with
  | EmptyString, _ => Some rest
  | String p pat', String c rest' =>
      if same p c then strip_literal pat' rest' else None
  | String _ _, EmptyString => None
  end.

(** The character before the closing [\b]: the last one consumed. *)
Fixpoint last_consumed (prev : option ascii) (n : nat) (rest : string)
  : option ascii :=
  match n, rest with
  | S n', String c rest' => last_consumed (Some c) n' rest'
  | _, _ => prev
  end.

(** Does [\b pat \b] match at the current position? *)
Definition word_match_here (pat : string) (prev : option ascii)
           (rest : string) : bool :=
  match strip_literal pat rest with
  | Some after =>
      at_boundary prev (head rest) &&
      at_boundary (last_consumed prev (String.length pat) rest) (head after)
  | None => false
  end.

(** The spans of [re.finditer]: leftmost first, not overlapping;
    [skip] counts the characters still covered by the last match. *)
Fixpoint finditer_from (pat : string) (prev : option ascii) (rest : string)
         (pos skip : nat) : list (nat * nat) :=
  let here := match skip with
              | 0 => word_match_here pat prev rest
              | S _ => false
              end in
  let hit := if here then [(pos, pos + String.length pat)] else [] in
  match rest with
  | EmptyString => hit
  | String c rest' =>
      hit ++ finditer_from pat (Some c) rest' (S pos)
               (if here then pred (String.length pat) else pred skip)
  end.

(** [re.sub(r'\b' + pat + r'\b', '', text)] for a non-empty [pat] *)
Fixpoint delete_from (pat : string) (prev : option ascii) (rest : string)
         (skip : nat) : string :=
  match rest with
  | EmptyString => EmptyString
  | String c rest' =>
      match skip with
      | S k => delete_from pat (Some c) rest' k
      | 0 =>
          if word_match_here pat prev rest
          then delete_from pat (Some c) rest' (pred (String.length pat))
          else String c (delete_from pat (Some c) rest' 0)
      end
  end.
End Literal.

Definition same_case (p c : ascii) : bool := Ascii.eqb p c.
Definition same_nocase (p c : ascii) : bool :=
  Ascii.eqb (lower_char p) (lower_char c).

(** [re.finditer(r'\b' + re.escape(pat) + r'\b', text)], as spans *)
Definition finditer_word (pat text : string) : list (nat * nat) :=
  finditer_from same_case pat None text 0 0.

(** [re.search(r'\b' + re.escape(pat) + r'\b', text)], as a truth value *)
Definition search_word (pat text : string) : bool :=
  match finditer_word pat text with [] => false | _ :: _ => true end.

(** [re.sub(r'\b' + pat + r'\b', '', text, flags=re.IGNORECASE)] *)
Definition delete_word_nocase (pat text : string) : string :=
  delete_from same_nocase pat None text 0.

End PyRe.

(** ** Binary64 arithmetic *)

Module F64.

Definition prec : Z := 53.
Definition emax : Z := 1024.

Definition float : Type := spec_float.

Definition zero : float := S754_zero false.
Definition add : float -> float -> float := SFadd prec emax.
Definition mul : float -> float -> float := SFmul prec emax.
Definition div : float -> float -> float := SFdiv prec emax.
Definition sub : float -> float -> float := SFsub prec emax.
Definition ltb : float -> float -> bool := SFltb.

(** The quotient [a / b] of two positive integers, rounded to the
    nearest float (ties to even), with sign [s]. *)
Definition ratio (s : bool) (a b : positive) : float :=
  let '(q, e, l) := SFdiv_core_binary prec emax (Zpos a) 0 (Zpos b) 0 in
  binary_round_aux prec emax s q e l.

(** A decimal literal such as [1.79], written [lit 179 100]. *)
Definition lit (n d : positive) : float := ratio false n d.

Definition one : float := lit 1 1.
Definition two : float := lit 2 1.

Definition checked (f : float) : py float :=
  match f with
  | S754_infinity _ => raise OverflowError
  | _ => ret f
  end.

(** [float(z)], the conversion applied to the [int] operand of a mixed
    operation; it raises when [z] is out of range. *)
Definition of_int (z : Z) : py float :=
  checked (binary_normalize prec emax z 0 false).

(** [x * z] for a float [x] and an int [z] *)
Definition mul_int (x : float) (z : Z) : py float :=
  fz <- of_int z ;; ret (mul x fz).

(** [a / b] for two ints *)
Definition int_truediv (a b : Z) : py float :=
  match a, b with
  | _, Z0 => raise ZeroDivisionError
  | Z0, Zpos _ => ret (S754_zero false)
  | Z0, Zneg _ => ret (S754_zero true)
  | Zpos p, Zpos q => checked (ratio false p q)
  | Zneg p, Zneg q => checked (ratio false p q)
  | Zpos p, Zneg q => checked (ratio true p q)
  | Zneg p, Zpos q => checked (ratio true p q)
  end.

Definition round_half_even_div (a b : Z) : Z :=
  let q := (a / b)%Z in
  match (2 * (a mod b) ?= b)%Z with
  | Lt => q
  | Gt => (q + 1)%Z
  | Eq => if Z.even q then q else (q + 1)%Z
  end.

(** [round(x, 2)]: the exact value of [x] is rounded to a multiple of
    1/100 (ties to even) and the float nearest to that is returned. *)
Definition round2 (x : float) : float :=
  match x with
  | S754_finite s m e =>
      let n := match e with
               | Zneg p => round_half_even_div (Zpos m * 100) (2 ^ Zpos p)
               | _ => (Zpos m * 2 ^ e * 100)%Z
               end in
      match n with
      | Zpos p => ratio s p 100
      | _ => S754_zero s
      end
  | _ => x
  end.

(** [sum(xs)]: the accumulator starts at the int [0] and the terms are
    added from left to right.  (CPython 3.12 and later also carry the
    rounding errors along and add them at the end; for up to two terms
    the result is the same.) *)
Definition sum (xs : list float) : float := fold_left add xs zero.

End F64.

(** ** Dictionaries and sorting *)

Module PyDict.
Section Dict.
Context {K V : Type}.
Variable eqb : K -> K -> bool.

Definition dict : Type := list (K * V).

(** [d.get(k)] *)
Fixpoint get (k : K) (d : dict) : option V :=
  match d with
  | [] => None
  | (k', v) :: d' => if eqb k' k then Some v else get k d'
  end.

(** [k in d] *)
Definition mem (k : K) (d : dict) : bool :=
  match get k d with Some _ => true | None => false end.

(** [d[k] = v] *)
Fixpoint set (k : K) (v : V) (d : dict) : dict :=
  match d with
  | [] => [(k, v)]
  | (k', v') :: d' =>
      if eqb k' k then (k', v) :: d' else (k', v') :: set k v d'
  end.

(** A dictionary display [{k1: v1, k2: v2, ...}] *)
Definition of_list (kvs : list (K * V)) : dict :=
  fold_left (fun d kv => set (fst kv) (snd kv) d) kvs [].
End Dict.
Arguments dict : clear implicits.
End PyDict.

Module PySort.
Section Sort.
Context {A : Type}.
(** [lt a b] is [key(a) < key(b)]. *)
Variable lt : A -> A -> bool.

(** The pivot [x] goes in front of the first element it is less than. *)
Fixpoint insert (x : A) (l : list A) : list A :=
  match l with
  | [] => [x]
  | y :: l' => if lt x y then x :: y :: l' else y :: insert x l'
  end.

(** [sorted(l, key=...)] and [l.sort(key=...)]: a stable sort; the
    elements are inserted from left to right. *)
Definition sorted (l : list A) : list A :=
  fold_left (fun acc x => insert x acc) l [].
End Sort.

Section SortM.
Context {A : Type}.
(** A comparison of keys that may raise.  The sort of CPython may
    compare other pairs than this insertion sort does; on lists whose keys
    are pairwise comparable both return the stable sort. *)
Variable lt : A -> A -> py bool.

Fixpoint insertM (x : A) (l : list A) : py (list A) :=
  match l with
  | [] => ret [x]
  | y :: l' =>
      b <- lt x y ;;
      if b then ret (x :: y :: l') else (r <- insertM x l' ;; ret (y :: r))
  end.

Fixpoint sortedM_from (acc l : list A) : py (list A) :=
  match l with
  | [] => ret acc
  | x :: l' => acc' <- insertM x acc ;; sortedM_from acc' l'
  end.

Definition sortedM (l : list A) : py (list A) := sortedM_from [] l.
End SortM.
End PySort.

(** ** The menu catalog ([menu_data.py]) *)

Module MenuItem.
Record t : Type := mk {
  sku : string;
  name : string;
  category : string;
  price : F64.float;
  base_price : F64.float;
  aliases : list string;
  size_variations : PyDict.dict string F64.float;
  modifiers : list string;
  modifier_synonyms : PyDict.dict string string
}.
End MenuItem.

Module Menu.
Record t : Type := mk {
  name : string;
  items : list MenuItem.t;
  size_synonyms : PyDict.dict string string;
  default_sizes : PyDict.dict string string
}.
End Menu.

Definition dict_of {V : Type} (kvs : list (string * V)) : PyDict.dict string V :=
  PyDict.of_list String.eqb kvs.

Definition sget {V : Type} (k : string) (d : PyDict.dict string V) : option V :=
  PyDict.get String.eqb k d.

Definition sset {V : Type} (k : string) (v : V) (d : PyDict.dict string V)
  : PyDict.dict string V :=
  PyDict.set String.eqb k v d.

Import F64(lit, zero).

Definition SMALL_MENU : Menu.t :=
  Menu.mk "Small Menu"
    [ MenuItem.mk "DON001" "Pumpkin Spice Iced Doughnut" "donuts" (lit 129 100) (lit 129 100)
        ["pumpkin spice donut"; "pumpkin donut"; "ps donut"; "pumpkin iced"]
        (dict_of [])
        []
        (dict_of []);
      MenuItem.mk "DON002" "Chocolate Iced Doughnut" "donuts" (lit 109 100) (lit 109 100)
        ["chocolate donut"; "choc donut"; "chocolate glazed"]
        (dict_of [])
        ["sprinkles"]
        (dict_of [("with sprinkles", "sprinkles");
                  ("sprinkled", "sprinkles")]);
      MenuItem.mk "DON003" "Raspberry Filled Doughnut" "donuts" (lit 109 100) (lit 109 100)
        ["raspberry donut"; "raspberry filled"; "rasp filled"]
        (dict_of [])
        []
        (dict_of []);
      MenuItem.mk "COF001" "Regular Brewed Coffee" "coffee" (lit 179 100) (lit 179 100)
        ["coffee"; "regular coffee"; "brewed coffee"; "black coffee"]
        (dict_of [("small", zero); ("medium", (lit 3 10));
                  ("large", (lit 6 10))])
        ["cream"; "sugar"; "milk"]
        (dict_of [("with cream", "cream"); ("creamer", "cream");
                  ("sweet", "sugar")]);
      MenuItem.mk "COF002" "Pumpkin Spice Latte" "coffee" (lit 459 100) (lit 459 100)
        ["pumpkin spice latte"; "psl"; "pumpkin latte"; "ps latte"]
        (dict_of [("small", zero); ("medium", (lit 5 10));
                  ("large", (lit 10 10))])
        ["extra shot"; "whip"; "no whip"; "almond milk"; "oat milk"]
        (dict_of [("whipped cream", "whip");
                  ("no whipped cream", "no whip")]) ]
    (dict_of [("small", "small"); ("s", "small"); ("sm", "small");
              ("regular", "small"); ("medium", "medium"); ("m", "medium");
              ("med", "medium"); ("large", "large"); ("l", "large");
              ("lg", "large"); ("big", "large")])
    (dict_of [("donuts", "regular"); ("coffee", "medium")]).

Definition LARGE_MENU : Menu.t :=
  Menu.mk "Large Menu"
    [ MenuItem.mk "DON001" "Pumpkin Spice Iced Doughnut" "donuts" (lit 129 100) (lit 129 100)
        ["pumpkin spice donut"; "pumpkin donut"; "ps donut";
         "pumpkin iced"; "pumpkin spice"; "pumpkin glazed"; "ps iced"]
        (dict_of [])
        []
        (dict_of []);
      MenuItem.mk "DON002" "Pumpkin Spice Cake Doughnut" "donuts" (lit 129 100) (lit 129 100)
        ["pumpkin cake donut"; "pumpkin cake"; "ps cake";
         "pumpkin spice cake"; "cake donut pumpkin"]
        (dict_of [])
        []
        (dict_of []);
      MenuItem.mk "DON003" "Old Fashioned Doughnut" "donuts" (lit 129 100) (lit 129 100)
        ["old fashioned"; "old fashioned donut"; "old fashioned doughnut";
         "old fashion"; "plain cake donut"]
        (dict_of [])
        []
        (dict_of []);
      MenuItem.mk "DON004" "Chocolate Iced Doughnut" "donuts" (lit 109 100) (lit 109 100)
        ["chocolate donut"; "choc donut"; "chocolate glazed";
         "chocolate iced"; "choc iced"; "chocolate"; "choc"]
        (dict_of [])
        ["sprinkles"]
        (dict_of [("with sprinkles", "sprinkles");
                  ("sprinkled", "sprinkles");
                  ("rainbow sprinkles", "sprinkles");
                  ("colored sprinkles", "sprinkles")]);
      MenuItem.mk "DON005" "Raspberry Filled Doughnut" "donuts" (lit 109 100) (lit 109 100)
        ["raspberry donut"; "raspberry filled"; "rasp filled";
         "raspberry jelly"; "raspberry jam"; "rasp"; "raspberry"]
        (dict_of [])
        []
        (dict_of []);
      MenuItem.mk "DON006" "Blueberry Cake Doughnut" "donuts" (lit 109 100) (lit 109 100)
        ["blueberry donut"; "blueberry cake"; "blueberry";
         "blueberry cake donut"]
        (dict_of [])
        []
        (dict_of []);
      MenuItem.mk "DON007" "Strawberry Iced Doughnut with Sprinkles" "donuts" (lit 109 100) (lit 109 100)
        ["strawberry donut"; "strawberry iced"; "strawberry glazed";
         "strawberry"; "strawberry with sprinkles"; "strawberry sprinkled"]
        (dict_of [])
        ["sprinkles"]
        (dict_of [("with sprinkles", "sprinkles");
                  ("sprinkled", "sprinkles")]);
      MenuItem.mk "DON008" "Lemon Filled Doughnut" "donuts" (lit 109 100) (lit 109 100)
        ["lemon donut"; "lemon filled"; "lemon jelly"; "lemon jam"; "lemon"]
        (dict_of [])
        []
        (dict_of []);
      MenuItem.mk "DON009" "Doughnut Holes" "donuts" (lit 399 100) (lit 399 100)
        ["donut holes"; "donut holes dozen"; "holes"; "munchkins";
         "donut munchkins"]
        (dict_of [])
        []
        (dict_of []);
      MenuItem.mk "COF001" "Pumpkin Spice Coffee" "coffee" (lit 259 100) (lit 259 100)
        ["pumpkin spice coffee"; "ps coffee"; "pumpkin coffee";
         "pumpkin brew"]
        (dict_of [("small", zero); ("medium", (lit 3 10));
                  ("large", (lit 6 10))])
        ["cream"; "sugar"; "milk"; "extra shot"]
        (dict_of [("with cream", "cream"); ("creamer", "cream");
                  ("sweet", "sugar")]);
      MenuItem.mk "COF002" "Pumpkin Spice Latte" "coffee" (lit 459 100) (lit 459 100)
        ["pumpkin spice latte"; "psl"; "pumpkin latte"; "ps latte";
         "pumpkin spice latte"]
        (dict_of [("small", zero); ("medium", (lit 5 10));
                  ("large", (lit 10 10))])
        ["extra shot"; "whip"; "no whip"; "almond milk"; "oat milk"]
        (dict_of [("whipped cream", "whip");
                  ("no whipped cream", "no whip")]);
      MenuItem.mk "COF003" "Regular Brewed Coffee" "coffee" (lit 179 100) (lit 179 100)
        ["coffee"; "regular coffee"; "brewed coffee"; "black coffee";
         "regular"; "house coffee"; "drip coffee"]
        (dict_of [("small", zero); ("medium", (lit 3 10));
                  ("large", (lit 6 10))])
        ["cream"; "sugar"; "milk"]
        (dict_of [("with cream", "cream"); ("creamer", "cream");
                  ("sweet", "sugar")]);
      MenuItem.mk "COF004" "Decaf Brewed Coffee" "coffee" (lit 179 100) (lit 179 100)
        ["decaf"; "decaf coffee"; "decaffeinated"; "decaf brewed"]
        (dict_of [("small", zero); ("medium", (lit 3 10));
                  ("large", (lit 6 10))])
        ["cream"; "sugar"; "milk"]
        (dict_of [("with cream", "cream"); ("creamer", "cream");
                  ("sweet", "sugar")]);
      MenuItem.mk "COF005" "Latte" "coffee" (lit 349 100) (lit 349 100)
        ["latte"; "cafe latte"; "coffee latte"]
        (dict_of [("small", zero); ("medium", (lit 4 10));
                  ("large", (lit 8 10))])
        ["extra shot"; "decaf"; "almond milk"; "oat milk"; "skim milk";
         "whole milk"]
        (dict_of [("almond", "almond milk"); ("oat", "oat milk");
                  ("skim", "skim milk")]);
      MenuItem.mk "COF006" "Cappuccino" "coffee" (lit 349 100) (lit 349 100)
        ["cappuccino"; "capp"; "cappucino"]
        (dict_of [("small", zero); ("medium", (lit 4 10));
                  ("large", (lit 8 10))])
        ["extra shot"; "decaf"; "almond milk"; "oat milk"; "skim milk"]
        (dict_of [("almond", "almond milk"); ("oat", "oat milk");
                  ("skim", "skim milk")]);
      MenuItem.mk "COF007" "Caramel Macchiato" "coffee" (lit 349 100) (lit 349 100)
        ["caramel macchiato"; "caramel mac"; "caramel mach"; "macchiato"]
        (dict_of [("small", zero); ("medium", (lit 4 10));
                  ("large", (lit 8 10))])
        ["extra shot"; "decaf"; "almond milk"; "oat milk"; "extra caramel"]
        (dict_of [("almond", "almond milk"); ("oat", "oat milk")]);
      MenuItem.mk "COF008" "Mocha Latte" "coffee" (lit 349 100) (lit 349 100)
        ["mocha"; "mocha latte"; "chocolate latte"; "choc latte"]
        (dict_of [("small", zero); ("medium", (lit 4 10));
                  ("large", (lit 8 10))])
        ["extra shot"; "decaf"; "almond milk"; "oat milk"; "whip";
         "no whip"]
        (dict_of [("almond", "almond milk"); ("oat", "oat milk");
                  ("whipped cream", "whip")]);
      MenuItem.mk "COF009" "Caramel Mocha Latte" "coffee" (lit 349 100) (lit 349 100)
        ["caramel mocha"; "caramel mocha latte"; "caramel choc latte"]
        (dict_of [("small", zero); ("medium", (lit 4 10));
                  ("large", (lit 8 10))])
        ["extra shot"; "decaf"; "almond milk"; "oat milk"; "whip";
         "no whip"]
        (dict_of [("almond", "almond milk"); ("oat", "oat milk");
                  ("whipped cream", "whip")]) ]
    (dict_of [("small", "small"); ("s", "small"); ("sm", "small");
              ("regular", "small"); ("short", "small");
              ("medium", "medium"); ("m", "medium"); ("med", "medium");
              ("grande", "medium"); ("large", "large"); ("l", "large");
              ("lg", "large"); ("big", "large"); ("venti", "large");
              ("extra large", "large"); ("xl", "large");
              ("x-large", "large")])
    (dict_of [("donuts", "regular"); ("coffee", "medium")]).

(** [get_menu(menu_name)] *)
Definition get_menu (menu_name : string) : Menu.t :=
  match sget (PyStr.lower menu_name)
             (dict_of [("small", SMALL_MENU); ("large", LARGE_MENU)]) with
  | Some m => m
  | None => SMALL_MENU
  end.

(** [get_all_items(menu)] *)
Definition get_all_items (menu : Menu.t) : list MenuItem.t := Menu.items menu.

(** [find_item_by_sku(menu, sku)] *)
Definition find_item_by_sku (menu : Menu.t) (sku : string)
  : option MenuItem.t :=
  find (fun item => String.eqb (MenuItem.sku item) sku) (Menu.items menu).

(** ** Cart items and carts ([cart_engine.py]) *)

Definition option_eqb (a b : option string) : bool :=
  match a, b with
  | None, None => true
  | Some x, Some y => String.eqb x y
  | _, _ => false
  end.

Fixpoint list_eqb (a b : list string) : bool :=
  match a, b with
  | [], [] => true
  | x :: a', y :: b' => String.eqb x y && list_eqb a' b'
  | _, _ => false
  end.

Module CartItem.
Record t : Type := mk {
  sku : string;
  name : string;
  quantity : Z;
  size : option string;
  modifiers : list string;
  price : F64.float
}.

(** [(item.sku, item.size, tuple(sorted(item.modifiers)))] *)
Definition key_t : Type := string * option string * list string.

Definition key (item : t) : key_t :=
  (sku item, size item, PySort.sorted PyStr.ltb (modifiers item)).

Definition key_eqb (a b : key_t) : bool :=
  let '(s1, z1, m1) := a in
  let '(s2, z2, m2) := b in
  String.eqb s1 s2 && option_eqb z1 z2 && list_eqb m1 m2.

(** [set(a) == set(b)] on lists of modifiers *)
Definition same_set (a b : list string) : bool :=
  forallb (fun x => PyStr.mem x b) a && forallb (fun x => PyStr.mem x a) b.

(** [a == b], the [__eq__] of the class *)
Definition eqb (a b : t) : bool :=
  String.eqb (sku a) (sku b) && option_eqb (size a) (size b)
  && same_set (modifiers a) (modifiers b).

Definition with_quantity (item : t) (q : Z) : t :=
  mk (sku item) (name item) q (size item) (modifiers item) (price item).
End CartItem.

Module Cart.
Record t : Type := mk {
  items : list CartItem.t;
  total : F64.float
}.

(** [Cart()] *)
Definition empty : t := mk [] F64.zero.

(** [item.price * item.quantity] *)
Definition line_total (item : CartItem.t) : py F64.float :=
  F64.mul_int (CartItem.price item) (CartItem.quantity item).

Definition add_item (cart : t) (item : CartItem.t) : py t :=
  p <- line_total item ;;
  ret (mk (items cart ++ [item]) (F64.add (total cart) p)).

(** [0 <= index < len(self.items)] *)
Definition in_range (cart : t) (index : Z) : bool :=
  (0 <=? index)%Z && (index <? Z.of_nat (List.length (items cart)))%Z.

(** [remove_item]: the item is popped, then its line total is taken off
    the total.  (When the product raises, the item has already left the
    list; the model then gives the exception alone.) *)
Definition remove_item (cart : t) (index : Z) : py t :=
  if in_range cart index then
    match nth_error (items cart) (Z.to_nat index) with
    | Some item =>
        p <- line_total item ;;
        ret (mk (firstn (Z.to_nat index) (items cart)
                 ++ skipn (S (Z.to_nat index)) (items cart))
                (F64.sub (total cart) p))
    | None => ret cart
    end
  else ret cart.

Definition update_item (cart : t) (index : Z) (item : CartItem.t) : py t :=
  if in_range cart index then
    match nth_error (items cart) (Z.to_nat index) with
    | Some old_item =>
        p_old <- line_total old_item ;;
        p <- line_total item ;;
        ret (mk (firstn (Z.to_nat index) (items cart)
                 ++ item :: skipn (S (Z.to_nat index)) (items cart))
                (F64.add (F64.sub (total cart) p_old) p))
    | None => ret cart
    end
  else ret cart.

Definition merged_t : Type := PyDict.dict CartItem.key_t CartItem.t.

(** One turn of the loop of [merge_duplicates]. *)
Definition merge_step (merged : merged_t) (item : CartItem.t) : merged_t :=
  let key := CartItem.key item in
  match PyDict.get CartItem.key_eqb key merged with
  | Some m =>
      PyDict.set CartItem.key_eqb key
        (CartItem.with_quantity m (CartItem.quantity m + CartItem.quantity item))
        merged
  | None =>
      PyDict.set CartItem.key_eqb key
        (CartItem.mk (CartItem.sku item) (CartItem.name item)
           (CartItem.quantity item) (CartItem.size item)
           (CartItem.modifiers item) (CartItem.price item))
        merged
  end.

Definition merged_items (l : list CartItem.t) : list CartItem.t :=
  map snd (fold_left merge_step l []).

Fixpoint line_totals (l : list CartItem.t) : py (list F64.float) :=
  match l with
  | [] => ret []
  | item :: l' =>
      p <- line_total item ;; ps <- line_totals l' ;; ret (p :: ps)
  end.

Definition merge_duplicates (cart : t) : py t :=
  let items' := merged_items (items cart) in
  ps <- line_totals items' ;;
  ret (mk items' (F64.sum ps)).

(** The value of [to_dict()]. *)
Record item_json : Type := mk_item_json {
  j_sku : string;
  j_name : string;
  j_quantity : Z;
  j_size : option string;
  j_modifiers : list string;
  j_price : F64.float
}.

Record json : Type := mk_json {
  j_items : list item_json;
  j_total : F64.float
}.

Definition to_dict (cart : t) : json :=
  mk_json
    (map (fun item =>
            mk_item_json (CartItem.sku item) (CartItem.name item)
              (CartItem.quantity item) (CartItem.size item)
              (CartItem.modifiers item) (CartItem.price item))
         (items cart))
    (F64.round2 (total cart)).
End Cart.

(** ** The normalizer ([CartNormalizer]) *)

(** A mention [(start, end, alias, item)]. *)
Record mention : Type := mk_mention {
  m_start : nat;
  m_end : nat;
  m_alias : string;
  m_item : MenuItem.t
}.

(** Equality of two mention tuples.  Both carry [alias_map[alias]] as
    their last component, one and the same object, which the comparison
    of tuples accepts by identity; the first three components decide. *)
Definition mention_eqb (a b : mention) : bool :=
  (m_start a =? m_start b) && (m_end a =? m_end b) &&
  String.eqb (m_alias a) (m_alias b).

(** [not (end <= prev_start or start >= prev_end)] *)
Definition intersects (m prev : mention) : bool :=
  negb ((m_end m <=? m_start prev) || (m_end prev <=? m_start m)).

(** [l.remove(x)] for an [x] that occurs in [l] *)
Fixpoint remove_first (x : mention) (l : list mention) : list mention :=
  match l with
  | [] => []
  | y :: l' => if mention_eqb y x then l' else y :: remove_first x l'
  end.

(** The inner loop of [_find_all_items]: [for prev in filtered_mentions].
    The iterator of a list is an index into it; [filtered] is the list as
    the loop body has mutated it so far and [i] the index of the next
    element to visit.  The result is the list after the loop and the flag
    [overlaps]. *)
Equations? scan_previous (m : mention) (filtered : list mention) (i : nat)
  : list mention * bool by wf (List.length filtered - i) lt :=
  scan_previous m filtered i with inspect (nth_error filtered i) => {
    | exist _ None _ => (filtered, false);
    | exist _ (Some prev) Hnth =>
        if intersects m prev then
          if String.length (m_alias prev) <? String.length (m_alias m)
          then scan_previous m (remove_first prev filtered) (S i)
          else (filtered, true)
        else scan_previous m filtered (S i) }.
Proof.
  all: assert (i < List.length filtered)
    by (apply nth_error_Some; congruence).
  - assert (Hle : forall l, List.length (remove_first prev l) <= List.length l).
    { induction l as [|y l IH]; simpl; [lia|].
      destruct (mention_eqb y prev); simpl; lia. }
    specialize (Hle filtered). lia.
  - lia.
Qed.

Module CartNormalizer.
Import PyStr PyRe.

Record t : Type := mk {
  menu : Menu.t;
  alias_map : PyDict.dict string MenuItem.t;
  size_map : PyDict.dict string string;
  modifier_map : PyDict.dict string string
}.

Definition index_item (amap : PyDict.dict string MenuItem.t)
           (item : MenuItem.t) : PyDict.dict string MenuItem.t :=
  fold_left (fun d alias => sset (lower alias) item d)
            (MenuItem.aliases item)
            (sset (lower (MenuItem.name item)) item amap).

Definition index_synonyms (mmap : PyDict.dict string string)
           (item : MenuItem.t) : PyDict.dict string string :=
  fold_left (fun d kv => sset (lower (fst kv)) (snd kv) d)
            (MenuItem.modifier_synonyms item) mmap.

Definition _build_indexes (menu : Menu.t) : t :=
  mk menu
     (fold_left index_item (Menu.items menu) [])
     (Menu.size_synonyms menu)
     (fold_left index_synonyms (Menu.items menu) []).

(** [CartNormalizer(menu)] *)
Definition new (menu : Menu.t) : t := _build_indexes menu.

Definition keep_char (c : ascii) : ascii :=
  if is_word c || is_space c || Ascii.eqb c "-" || Ascii.eqb c "'"
  then c else " "%char.

Fixpoint blank_punctuation (s : string) : string :=
  match s with
  | EmptyString => EmptyString
  | String c s' => String (keep_char c) (blank_punctuation s')
  end.

Definition normalize_text (text : string) : string :=
  lower (join_space (split (blank_punctuation text))).

Definition corrections : list string :=
  ["actually"; "instead"; "change"; "make that"; "switch"].

Definition _handle_corrections (text : string) : string :=
  fold_left (fun text pattern => delete_word_nocase pattern text)
            corrections text.

Definition number_words : PyDict.dict string Z :=
  dict_of [("one", 1); ("two", 2); ("three", 3); ("four", 4); ("five", 5);
           ("six", 6); ("seven", 7); ("eight", 8); ("nine", 9); ("ten", 10);
           ("a", 1); ("an", 1)]%Z.

(** [for word in reversed(words[-5:])] *)
Fixpoint first_quantity (words : list string) : py Z :=
  match words with
  | [] => ret 1%Z
  | word :: words' =>
      match sget word number_words with
      | Some n => ret n
      | None => if isdigit word then int word else first_quantity words'
      end
  end.

(** [words[-5:]] *)
Definition last_five (words : list string) : list string :=
  skipn (List.length words - 5) words.

Definition _extract_quantity (context alias : string) : py Z :=
  match find context alias with
  | None => ret 1%Z
  | Some alias_pos =>
      let before_alias := slice context 0 alias_pos in
      let words := split before_alias in
      first_quantity (rev (last_five words))
  end.

Fixpoint first_size (context : string) (sizes : PyDict.dict string string)
  : option string :=
  match sizes with
  | [] => None
  | (size_word, canonical_size) :: sizes' =>
      if search_word size_word context then Some canonical_size
      else first_size context sizes'
  end.

Definition _extract_size (self : t) (context : string) (item : MenuItem.t)
  : option string :=
  match MenuItem.size_variations item with
  | [] => None
  | _ :: _ =>
      match first_size context (size_map self) with
      | Some canonical_size => Some canonical_size
      | None =>
          match sget (MenuItem.category item)
                     (Menu.default_sizes (menu self)) with
          | Some d => Some d
          | None => Some "medium"
          end
      end
  end.

(** The list [modifiers] and the set [found] of the source receive the
    same elements; the list stands for both. *)
Definition _extract_modifiers (self : t) (context : string)
           (item : MenuItem.t) : list string :=
  let modifiers :=
    fold_left (fun modifiers kv =>
                 if contains context (fst kv) && negb (mem (snd kv) modifiers)
                 then modifiers ++ [snd kv] else modifiers)
              (modifier_map self) [] in
  fold_left (fun modifiers modifier =>
               if contains context (lower modifier)
                  && negb (mem modifier modifiers)
               then modifiers ++ [modifier] else modifiers)
            (MenuItem.modifiers item) modifiers.

Definition _calculate_price (item : MenuItem.t) (size : option string)
           (modifiers : list string) : F64.float :=
  match size with
  | Some size =>
      if negb (is_empty size) then
        match sget size (MenuItem.size_variations item) with
        | Some delta => F64.add (MenuItem.base_price item) delta
        | None => MenuItem.base_price item
        end
      else MenuItem.base_price item
  | None => MenuItem.base_price item
  end.

(** The matches of every alias, in the order of the index. *)
Definition found_mentions (self : t) (text : string) : list mention :=
  flat_map (fun kv =>
              map (fun span => mk_mention (fst span) (snd span) (fst kv) (snd kv))
                  (finditer_word (fst kv) text))
           (alias_map self).

(** [found_mentions.sort(key=lambda x: x[0])] *)
Definition sort_mentions (l : list mention) : list mention :=
  PySort.sorted (fun a b => m_start a <? m_start b) l.

(** One turn of the loop that removes overlapping mentions. *)
Definition filter_step (filtered : list mention) (m : mention)
  : list mention :=
  let '(filtered', overlaps) := scan_previous m filtered 0 in
  if overlaps then filtered' else filtered' ++ [m].

Definition filter_mentions (found : list mention) : list mention :=
  fold_left filter_step found [].

(** The body of the last loop of [_find_all_items]. *)
Definition make_item (self : t) (text : string) (m : mention)
  : py CartItem.t :=
  let context_start := m_start m - 50 in
  let context_end := Nat.min (String.length text) (m_end m + 100) in
  let context := slice text context_start context_end in
  quantity <- _extract_quantity context (m_alias m) ;;
  let size := _extract_size self context (m_item m) in
  let modifiers := _extract_modifiers self context (m_item m) in
  let price := _calculate_price (m_item m) size modifiers in
  ret (CartItem.mk (MenuItem.sku (m_item m)) (MenuItem.name (m_item m))
                   quantity size modifiers price).

Fixpoint make_items (self : t) (text : string) (l : list mention)
  : py (list CartItem.t) :=
  match l with
  | [] => ret []
  | m :: l' =>
      item <- make_item self text m ;;
      items <- make_items self text l' ;;
      ret (item :: items)
  end.

Definition _find_all_items (self : t) (text : string)
  : py (list CartItem.t) :=
  make_items self text
    (filter_mentions (sort_mentions (found_mentions self text))).

Fixpoint add_items (cart : Cart.t) (l : list CartItem.t) : py Cart.t :=
  match l with
  | [] => ret cart
  | item :: l' => cart' <- Cart.add_item cart item ;; add_items cart' l'
  end.

Definition parse_order (self : t) (text : string) : py Cart.t :=
  let text := _handle_corrections text in
  let normalized := normalize_text text in
  items_found <- _find_all_items self normalized ;;
  cart <- add_items Cart.empty items_found ;;
  Cart.merge_duplicates cart.
End CartNormalizer.

(** ** The evaluator ([CartEvaluator]) *)

(** Sets of item keys, kept as lists without repetition. *)
Module KeySet.
Import CartItem.

Definition t : Type := list key_t.

Definition mem (k : key_t) (s : t) : bool := existsb (key_eqb k) s.

(** [s.add(k)] *)
Definition add (k : key_t) (s : t) : t := if mem k s then s else s ++ [k].

(** [a & b] *)
Definition inter (a b : t) : t := filter (fun k => mem k b) a.

(** [a - b] *)
Definition diff (a b : t) : t := filter (fun k => negb (mem k b)) a.

(** [len(s)] *)
Definition len (s : t) : Z := Z.of_nat (List.length s).
End KeySet.

Module CartEvaluator.
Import PyStr.

(** [a < b] on tuples of strings *)
Fixpoint tuple_ltb (a b : list string) : bool :=
  match a, b with
  | [], [] => false
  | [], _ :: _ => true
  | _ :: _, [] => false
  | x :: a', y :: b' => if String.eqb x y then tuple_ltb a' b' else ltb x y
  end.

(** [key(a) < key(b)] for the key [(x.sku, x.size, tuple(x.modifiers))];
    [None] and a string are not ordered. *)
Definition sort_key_lt (a b : CartItem.t) : py bool :=
  if negb (String.eqb (CartItem.sku a) (CartItem.sku b))
  then ret (ltb (CartItem.sku a) (CartItem.sku b))
  else match CartItem.size a, CartItem.size b with
       | None, None =>
           ret (tuple_ltb (CartItem.modifiers a) (CartItem.modifiers b))
       | Some x, Some y =>
           if String.eqb x y
           then ret (tuple_ltb (CartItem.modifiers a) (CartItem.modifiers b))
           else ret (ltb x y)
       | _, _ => raise TypeError
       end.

(** The test of the comparison loop of [exact_match]. *)
Definition differ (a e : CartItem.t) : bool :=
  negb (String.eqb (CartItem.sku a) (CartItem.sku e))
  || negb (Z.eqb (CartItem.quantity a) (CartItem.quantity e))
  || negb (option_eqb (CartItem.size a) (CartItem.size e))
  || negb (CartItem.same_set (CartItem.modifiers a) (CartItem.modifiers e)).

Definition exact_match (actual expected : Cart.t) : py bool :=
  if negb (List.length (Cart.items actual) =? List.length (Cart.items expected))
  then ret false
  else
    actual_items <- PySort.sortedM sort_key_lt (Cart.items actual) ;;
    expected_items <- PySort.sortedM sort_key_lt (Cart.items expected) ;;
    ret (negb (existsb (fun ae => differ (fst ae) (snd ae))
                       (combine actual_items expected_items))).

(** The set built by the two nested loops of [calculate_f1]:
    [range(item.quantity)] is empty unless the quantity is positive. *)
Definition entries (cart : Cart.t) : KeySet.t :=
  fold_left (fun s item =>
               if (0 <? CartItem.quantity item)%Z
               then KeySet.add (CartItem.key item) s else s)
            (Cart.items cart) [].

Definition calculate_f1 (actual expected : Cart.t) : py F64.float :=
  let actual_items := entries actual in
  let expected_items := entries expected in
  match expected_items with
  | [] => ret (match actual_items with [] => F64.one | _ :: _ => F64.zero end)
  | _ :: _ =>
      let true_positives := KeySet.len (KeySet.inter actual_items expected_items) in
      let false_positives := KeySet.len (KeySet.diff actual_items expected_items) in
      let false_negatives := KeySet.len (KeySet.diff expected_items actual_items) in
      precision <-
        (if (0 <? true_positives + false_positives)%Z
         then F64.int_truediv true_positives (true_positives + false_positives)
         else ret F64.zero) ;;
      recall <-
        (if (0 <? true_positives + false_negatives)%Z
         then F64.int_truediv true_positives (true_positives + false_negatives)
         else ret F64.zero) ;;
      ret (if F64.ltb F64.zero (F64.add precision recall)
           then F64.div (F64.mul F64.two (F64.mul precision recall))
                        (F64.add precision recall)
           else F64.zero)
  end.

(** [[item.sku] * item.quantity] for every item, concatenated *)
Definition skus (cart : Cart.t) : list string :=
  flat_map (fun item => repeat (CartItem.sku item)
                               (Z.to_nat (CartItem.quantity item)))
           (Cart.items cart).

Definition calculate_item_accuracy (actual expected : Cart.t) : py F64.float :=
  let actual_skus := skus actual in
  let expected_skus := skus expected in
  match expected_skus with
  | [] => ret (match actual_skus with [] => F64.one | _ :: _ => F64.zero end)
  | _ :: _ =>
      let correct :=
        List.length
          (filter (fun ae => String.eqb (fst ae) (snd ae))
                  (combine (PySort.sorted ltb actual_skus)
                           (PySort.sorted ltb expected_skus))) in
      F64.int_truediv (Z.of_nat correct)
                      (Z.of_nat (List.length expected_skus))
  end.
End CartEvaluator.

(** ** The evaluation harness ([evaluate.py]) *)

Module Evaluate.

(** A [TestScenario]. *)
Record TestScenario : Type := mk_scenario {
  id : string;
  description : string;
  menu : string;
  input_text : string;
  expected_cart : Cart.t
}.

Record metrics : Type := mk_metrics {
  exact_match : bool;
  f1 : F64.float;
  item_accuracy : F64.float
}.

(** An entry of [EvaluationReport.results]. *)
Record result_row : Type := mk_row {
  r_scenario_id : string;
  r_description : string;
  r_menu : string;
  r_input_text : string;
  r_expected : Cart.json;
  r_actual : Cart.json;
  r_metrics : metrics
}.

Definition add_result (results : list result_row) (scenario : TestScenario)
           (actual_cart : Cart.t) (m : metrics) : list result_row :=
  results ++ [mk_row (id scenario) (description scenario) (menu scenario)
                     (input_text scenario)
                     (Cart.to_dict (expected_cart scenario))
                     (Cart.to_dict actual_cart) m].

(** The names bound at the top level of [evaluate.py]: its imports
    and its own definitions. *)
Definition module_globals : list string :=
  ["argparse"; "json"; "logging"; "sys"; "datetime"; "Dict"; "List";
   "CartEvaluator"; "CartNormalizer"; "get_menu"; "TestScenario";
   "get_all_scenarios"; "get_scenarios_by_menu"; "logger";
   "EvaluationReport"; "run_evaluation"; "main"].

(** Evaluating a global name: [NameError] unless the module binds it. *)
Definition load_global (name : string) : py unit :=
  if PyStr.mem name module_globals then ret tt else raise (NameError name).

(** The body of the [for scenario in scenarios] loop. *)
Definition run_scenario (results : list result_row) (scenario : TestScenario)
  : py (list result_row) :=
  let menu := get_menu (menu scenario) in
  let normalizer := CartNormalizer.new menu in
  actual_cart <-
    catch (CartNormalizer.parse_order normalizer (input_text scenario))
          (fun e => load_global "Cart" ;; ret Cart.empty) ;;
  exact <- CartEvaluator.exact_match actual_cart (expected_cart scenario) ;;
  f1_score <- CartEvaluator.calculate_f1 actual_cart (expected_cart scenario) ;;
  accuracy <-
    CartEvaluator.calculate_item_accuracy actual_cart (expected_cart scenario) ;;
  ret (add_result results scenario actual_cart
                  (mk_metrics exact f1_score accuracy)).

Fixpoint run_scenarios (results : list result_row)
         (scenarios : list TestScenario) : py (list result_row) :=
  match scenarios with
  | [] => ret results
  | scenario :: rest =>
      results' <- run_scenario results scenario ;;
      run_scenarios results' rest
  end.

(** [run_evaluation], from the selected scenarios to [report.results];
    the summary and the report file are produced after the loop. *)
Definition run_evaluation (scenarios : list TestScenario)
  : py (list result_row) :=
  run_scenarios [] scenarios.


(** *** [EvaluationReport] *)

Record menu_summary : Type := mk_menu_summary {
  ms_total : Z;
  ms_exact_matches : Z;
  ms_average_f1 : F64.float
}.

(** [EvaluationReport.summary] *)
Record summary : Type := mk_summary {
  total_scenarios : Z;
  exact_matches : Z;
  exact_match_rate : F64.float;
  average_f1 : F64.float;
  average_item_accuracy : F64.float;
  small_menu : menu_summary;
  large_menu : menu_summary
}.

(** [sum(1 for r in rows if r["metrics"]["exact_match"])] *)
Definition count_exact (rows : list result_row) : Z :=
  Z.of_nat (List.length (filter (fun r => exact_match (r_metrics r)) rows)).

(** [a / b if b > 0 else 0] on ints *)
Definition rate (a b : Z) : py F64.float :=
  if (0 <? b)%Z then F64.int_truediv a b else ret F64.zero.

(** [sum(xs) / len(xs) if xs else 0] *)
Definition average (xs : list F64.float) : py F64.float :=
  match xs with
  | [] => ret F64.zero
  | _ :: _ =>
      n <- F64.of_int (Z.of_nat (List.length xs)) ;;
      ret (F64.div (F64.sum xs) n)
  end.

(** [[r for r in self.results if r["menu"] == name]] *)
Definition rows_of_menu (name : string) (rows : list result_row)
  : list result_row :=
  filter (fun r => String.eqb (r_menu r) name) rows.

Definition summarize_menu (rows : list result_row) : py menu_summary :=
  avg <- average (map (fun r => f1 (r_metrics r)) rows) ;;
  ret (mk_menu_summary (Z.of_nat (List.length rows)) (count_exact rows) avg).

Definition calculate_summary (rows : list result_row) : py summary :=
  let total := Z.of_nat (List.length rows) in
  let exact := count_exact rows in
  match_rate <- rate exact total ;;
  avg_f1 <- average (map (fun r => f1 (r_metrics r)) rows) ;;
  avg_accuracy <- average (map (fun r => item_accuracy (r_metrics r)) rows) ;;
  small <- summarize_menu (rows_of_menu "small" rows) ;;
  large <- summarize_menu (rows_of_menu "large" rows) ;;
  ret (mk_summary total exact match_rate avg_f1 avg_accuracy small large).

(** [x / y * 100] on ints, as in the lines printed for each menu *)
Definition percentage (x y : Z) : py F64.float :=
  r <- F64.int_truediv x y ;; F64.mul_int r 100.

(** The expressions that [print_summary] evaluates, in the order of its
    [print] calls; the printing itself is left out. *)
Definition print_summary (s : summary) : py unit :=
  _ <- F64.mul_int (exact_match_rate s) 100 ;;
  _ <- percentage (ms_exact_matches (small_menu s)) (ms_total (small_menu s)) ;;
  _ <- percentage (ms_exact_matches (large_menu s)) (ms_total (large_menu s)) ;;
  ret tt.

(** [[r for r in self.results if not r["metrics"]["exact_match"]]], the
    rows that [print_failures] lists *)
Definition failures (rows : list result_row) : list result_row :=
  filter (fun r => negb (exact_match (r_metrics r))) rows.

(** [run_evaluation] up to the printed summary: the loop, then
    [calculate_summary] and [print_summary]. *)
Definition run_and_summarize (scenarios : list TestScenario)
  : py (list result_row * summary) :=
  rows <- run_evaluation scenarios ;;
  s <- calculate_summary rows ;;
  _ <- print_summary s ;;
  ret (rows, s).
End Evaluate.

(** ** The parser of agent replies ([smart_cart_parser.py]) *)

Module SmartCartParser.
Import PyStr.

Definition quantity_map : PyDict.dict string Z :=
  dict_of [("zero", 0); ("no", 0); ("none", 0);
           ("one", 1); ("a", 1); ("an", 1); ("single", 1);
           ("two", 2); ("three", 3); ("four", 4); ("five", 5);
           ("six", 6); ("seven", 7); ("eight", 8); ("nine", 9); ("ten", 10);
           ("eleven", 11); ("twelve", 12); ("dozen", 12)]%Z.

(** An entry of [item_patterns]: the regular expression, whether it has
    two capturing groups (quantity and size) or one (quantity), and the
    name of the item. *)
Record item_pattern : Type := mk_pattern {
  regex : string;
  two_groups : bool;
  item_name : string
}.

Definition quantity_group : string :=
  "(zero|no|none|one|a|an|single|two|three|four|five|six|seven|eight|nine|ten|eleven|twelve|\d+)?".

Definition item_patterns : list item_pattern :=
  [ mk_pattern
      (quantity_group ++ "\s*(large|medium|small)?\s*regular\s+brewed\s+coffee[s]?")
      true "Regular Brewed Coffee";
    mk_pattern
      (quantity_group ++ "\s*(large|medium|small)?\s*pumpkin\s+spice\s+latte[s]?")
      true "Pumpkin Spice Latte";
    mk_pattern
      (quantity_group
       ++ "\s*(large|medium|small)?\s*latte[s]?(?!\s*(?:pumpkin|spice))")
      true "Latte";
    mk_pattern
      (quantity_group ++ "\s*pumpkin\s+spice\s+iced\s+doughnut[s]?")
      false "Pumpkin Spice Iced Doughnut";
    mk_pattern
      (quantity_group ++ "\s*chocolate\s+iced\s+doughnut[s]?")
      false "Chocolate Iced Doughnut";
    mk_pattern
      (quantity_group ++ "\s*raspberry\s+filled\s+doughnut[s]?")
      false "Raspberry Filled Doughnut" ]%string.

(** An element of the list that [re.findall] returns: a tuple of the two
    groups of a match, or the string of its group when the pattern has
    one group only. *)
Inductive findall_match : Type :=
| Tuple (quantity size : string)
| Str (quantity : string).

(** A dictionary appended to [items]. *)
Record parsed_item : Type := mk_parsed {
  name : string;
  quantity : Z;
  price : F64.float;
  size : string;
  modifiers : list string
}.

Definition removal_phrases : list string :=
  ["removed"; "removing"; "taking out"; "now you just have"; "only have";
   "took off"; "deleted"].

Definition final_state_phrases : list string :=
  ["now you just have"; "now you have"; "your order is now";
   "you only have"; "that leaves you with"].

(** [text.split(phrase)[1]] for a [phrase] found at offset [pos]: the
    text after that occurrence, up to the next one. *)
Definition second_piece (text phrase : string) (pos : nat) : string :=
  let rest := slice text (pos + String.length phrase) (String.length text) in
  match find rest phrase with
  | Some next => slice rest 0 next
  | None => rest
  end.

Section Matches.
(** The groups of the matches of a regular expression in a text, as
    [re.findall] finds them: pairs for a pattern with two groups, strings
    for a pattern with one.  The properties below hold whatever the
    matches are. *)
Variable findall_pairs : string -> string -> list (string * string).
Variable findall_single : string -> string -> list string.

(** [re.findall(pattern, text)] *)
Definition findall (pattern : item_pattern) (text : string)
  : list findall_match :=
  if two_groups pattern
  then map (fun m => Tuple (fst m) (snd m)) (findall_pairs (regex pattern) text)
  else map Str (findall_single (regex pattern) text).

(** [quantity_str] and [size] of a match *)
Definition quantity_and_size (m : findall_match) : string * string :=
  match m with
  | Tuple q s =>
      (if is_empty q then "one" else q, if is_empty s then "regular" else s)
  | Str _ => ("one", "regular")
  end.

Definition to_quantity (quantity_str : string) : py Z :=
  if isdigit quantity_str then int quantity_str
  else ret (match sget quantity_str quantity_map with
            | Some n => n
            | None => 1%Z
            end).

(** The first item of the menu whose name contains [item_name], both in
    lower case. *)
Definition find_menu_item (menu : Menu.t) (item_name : string)
  : option MenuItem.t :=
  List.find (fun menu_item =>
               contains (lower (MenuItem.name menu_item)) (lower item_name))
            (Menu.items menu).

(** The body of the loop over the matches of a pattern: the list
    [items] after the match [m]. *)
Definition add_match (menu : Menu.t) (item_name : string)
           (items : list parsed_item) (m : findall_match)
  : py (list parsed_item) :=
  let '(quantity_str, size) := quantity_and_size m in
  quantity <- to_quantity quantity_str ;;
  if (quantity <=? 0)%Z then ret items
  else
    match find_menu_item menu item_name with
    | Some menu_item =>
        ret (items ++ [mk_parsed (MenuItem.name menu_item) quantity
                                 (MenuItem.price menu_item)
                                 (if mem size ["small"; "medium"; "large"]
                                  then size else "regular")
                                 []])
    | None => ret items
    end.

Fixpoint add_matches (menu : Menu.t) (item_name : string)
         (items : list parsed_item) (ms : list findall_match)
  : py (list parsed_item) :=
  match ms with
  | [] => ret items
  | m :: ms' =>
      items' <- add_match menu item_name items m ;;
      add_matches menu item_name items' ms'
  end.

(** One turn of the loop over [item_patterns]. *)
Definition add_pattern (menu : Menu.t) (text : string)
           (items : list parsed_item) (pattern : item_pattern)
  : py (list parsed_item) :=
  add_matches menu (item_name pattern) items (findall pattern text).

Fixpoint add_patterns (menu : Menu.t) (text : string)
         (items : list parsed_item) (patterns : list item_pattern)
  : py (list parsed_item) :=
  match patterns with
  | [] => ret items
  | pattern :: patterns' =>
      items' <- add_pattern menu text items pattern ;;
      add_patterns menu text items' patterns'
  end.

Definition _extract_items_from_text (menu : Menu.t) (text : string)
  : py (list parsed_item) :=
  add_patterns menu text [] item_patterns.

(** The loop over the phrases of a final state: the first phrase that
    occurs in the text decides. *)
Fixpoint final_state_items (menu : Menu.t) (text_lower : string)
         (phrases : list string) : py (list parsed_item) :=
  match phrases with
  | [] => ret []
  | phrase :: phrases' =>
      match find text_lower phrase with
      | Some pos =>
          _extract_items_from_text menu (second_piece text_lower phrase pos)
      | None => final_state_items menu text_lower phrases'
      end
  end.

Definition parse_agent_text (menu : Menu.t) (text : string)
  : py (list parsed_item * bool) :=
  let text_lower := lower text in
  let is_removal := existsb (contains text_lower) removal_phrases in
  let is_final_state := existsb (contains text_lower) final_state_phrases in
  items <- (if is_final_state
            then final_state_items menu text_lower final_state_phrases
            else _extract_items_from_text menu text_lower) ;;
  ret (items, is_removal).
End Matches.
End SmartCartParser.

(** ** The cart of a voice session ([web_app.py]) *)

Module UltravoxVoiceSession.
Import PyStr.

(** [CartItem(...)]: the dataclass has no default for [sku], and a call
    that gives none raises. *)
Definition new_cart_item (sku : option string) (name : string) (quantity : Z)
           (price : F64.float) (size : option string)
           (modifiers : list string) : py CartItem.t :=
  match sku with
  | Some sku => ret (CartItem.mk sku name quantity size modifiers price)
  | None => raise TypeError
  end.

(** The loop [for item_data in items] of
    [_update_cart_from_agent_confirmation]: the cart when the loop ends,
    and the exception that ended it, if any. *)
Fixpoint append_items (cart : Cart.t)
         (items : list SmartCartParser.parsed_item)
  : Cart.t * option exn :=
  match items with
  | [] => (cart, None)
  | item_data :: items' =>
      match new_cart_item None
              (SmartCartParser.name item_data)
              (SmartCartParser.quantity item_data)
              (SmartCartParser.price item_data)
              (Some (SmartCartParser.size item_data))
              (SmartCartParser.modifiers item_data) with
      | inl e => (cart, Some e)
      | inr cart_item =>
          append_items (Cart.mk (Cart.items cart ++ [cart_item])
                                (Cart.total cart)) items'
      end
  end.

(** [sum(item.price * item.quantity for item in self.cart.items)] *)
Definition recalculated_total (cart : Cart.t) : py F64.float :=
  ps <- Cart.line_totals (Cart.items cart) ;; ret (F64.sum ps).

(** The cart of the session after a call, and the carts sent to the
    client by [socketio.emit('cart_update', ...)]. *)
Record outcome : Type := mk_outcome {
  cart_after : Cart.t;
  emitted : list Cart.json
}.

(** The last steps of both update methods: the total is recalculated
    and the cart is sent; an exception ends the method (it is caught and
    logged). *)
Definition recalculate_and_emit (cart : Cart.t) : outcome :=
  match recalculated_total cart with
  | inl _ => mk_outcome cart []
  | inr total =>
      let cart' := Cart.mk (Cart.items cart) total in
      mk_outcome cart' [Cart.to_dict cart']
  end.

Section Matches.
Variable findall_pairs : string -> string -> list (string * string).
Variable findall_single : string -> string -> list string.

Definition _update_cart_from_agent_confirmation (menu : Menu.t)
           (cart : Cart.t) (text : string) : outcome :=
  match SmartCartParser.parse_agent_text findall_pairs findall_single
          menu text with
  | inl _ => mk_outcome cart []
  | inr (items, is_removal) =>
      if is_removal && (contains (lower text) "now you just have"
                        || contains (lower text) "now you have")
      then
        match append_items Cart.empty items with
        | (cart', Some _) => mk_outcome cart' []
        | (cart', None) => recalculate_and_emit cart'
        end
      else recalculate_and_emit cart
  end.
End Matches.

(** The test of the loop that looks a new item up in the cart of the
    session: same name, same size, same set of modifiers. *)
Definition same_line (existing new_item : CartItem.t) : bool :=
  String.eqb (CartItem.name existing) (CartItem.name new_item)
  && option_eqb (CartItem.size existing) (CartItem.size new_item)
  && CartItem.same_set (CartItem.modifiers existing)
                       (CartItem.modifiers new_item).

(** [existing_item.quantity += new_item.quantity] for the first line of
    the cart that passes the test; [None] when no line does. *)
Fixpoint add_to_existing (items : list CartItem.t) (new_item : CartItem.t)
  : option (list CartItem.t) :=
  match items with
  | [] => None
  | existing :: rest =>
      if same_line existing new_item
      then Some (CartItem.with_quantity existing
                   (CartItem.quantity existing + CartItem.quantity new_item)
                 :: rest)
      else match add_to_existing rest new_item with
           | Some rest' => Some (existing :: rest')
           | None => None
           end
  end.

(** The body of the loop [for new_item in new_items_cart.items]. *)
Definition merge_new_item (items : list CartItem.t) (new_item : CartItem.t)
  : list CartItem.t :=
  match add_to_existing items new_item with
  | Some items' => items'
  | None => items ++ [new_item]
  end.

Definition merge_new_items (items new_items : list CartItem.t)
  : list CartItem.t :=
  fold_left merge_new_item new_items items.

(** [_update_cart_from_transcript] on a transcript whose intent is
    "add" or unknown: the order is parsed, its lines are merged into
    the cart of the session, the total is recalculated and the cart is
    sent.  An exception ends the method (it is caught and logged). *)
Definition add_from_transcript (cart_normalizer : CartNormalizer.t)
           (cart : Cart.t) (text : string) : outcome :=
  match CartNormalizer.parse_order cart_normalizer text with
  | inl _ => mk_outcome cart []
  | inr new_items_cart =>
      recalculate_and_emit
        (Cart.mk (merge_new_items (Cart.items cart)
                                  (Cart.items new_items_cart))
                 (Cart.total cart))
  end.
End UltravoxVoiceSession.

(** * Vocabulary of the properties *)

(** ** Mentions *)

Definition by_start (a b : mention) : Prop := m_start a <= m_start b.

Definition apart (a b : mention) : Prop := intersects a b = false.

Abbreviation start_lt := (fun a b : mention => m_start a <? m_start b).

(** The policy of the specification, one candidate at a time: accept a
    candidate that intersects no accepted mention; let it replace the
    accepted mention it intersects when its alias is strictly longer;
    discard it otherwise. *)
Definition longest_alias_wins (accepted : list mention) (candidate : mention)
  : list mention :=
  match find (intersects candidate) accepted with
  | None => accepted ++ [candidate]
  | Some hit =>
      if String.length (m_alias hit) <? String.length (m_alias candidate)
      then remove_first hit accepted ++ [candidate]
      else accepted
  end.

(** The mentions accepted before the candidate of index [k]. *)
Definition accepted_before (k : nat) (candidates : list mention)
  : list mention :=
  fold_left longest_alias_wins (firstn k candidates) [].

Record accepted_for (m : mention) (accepted : list mention) : Prop := {
  af_apart : ForallOrdPairs apart accepted;
  af_start : forall x, In x accepted -> by_start x m
}.

Definition span_alias_sku (m : mention) : nat * nat * string * string :=
  (m_start m, m_end m, m_alias m, MenuItem.sku (m_item m)).

(** ** Merged carts *)

Definition has_key (k : CartItem.key_t) (item : CartItem.t) : bool :=
  CartItem.key_eqb (CartItem.key item) k.

(** The sum of the quantities of the lines of [l] with key [k]. *)
Definition quantity_of (k : CartItem.key_t) (l : list CartItem.t) : Z :=
  fold_right Z.add 0%Z (map CartItem.quantity (filter (has_key k) l)).

(** The keys of a list in the order of their first occurrence. *)
Fixpoint first_keys (ks : list CartItem.key_t) : list CartItem.key_t :=
  match ks with
  | [] => []
  | k :: ks' =>
      k :: filter (fun k' => negb (CartItem.key_eqb k' k)) (first_keys ks')
  end.

(** What the dictionary [merged] holds after the lines of [l]. *)
Record merged_of (l : list CartItem.t) (d : Cart.merged_t) : Prop := {
  mo_keys : map fst d = first_keys (map CartItem.key l);
  mo_nodup : NoDup (map fst d);
  mo_entry : forall k v, In (k, v) d ->
      exists first, find (has_key k) l = Some first
                    /\ v = CartItem.with_quantity first (quantity_of k l)
}.

(** ** Scores *)

Definition disjoint_skus (actual expected : Cart.t) : Prop :=
  forall a e, In a (Cart.items actual) -> In e (Cart.items expected) ->
              CartItem.sku a <> CartItem.sku e.

(** ** The order of [exact_match] *)

(** [(x.sku, x.size, tuple(x.modifiers))] *)
Definition sort_key (item : CartItem.t)
  : string * option string * list string :=
  (CartItem.sku item, CartItem.size item, CartItem.modifiers item).

(** Two lines can be ordered unless they have the same SKU and only one
    of them has a size. *)
Definition comparable (a b : CartItem.t) : Prop :=
  CartItem.sku a = CartItem.sku b ->
  (CartItem.size a = None <-> CartItem.size b = None).

(** The order of the sort keys, with [None] put before every string. *)
Definition sort_key_ltb (a b : CartItem.t) : bool :=
  if negb (String.eqb (CartItem.sku a) (CartItem.sku b))
  then PyStr.ltb (CartItem.sku a) (CartItem.sku b)
  else match CartItem.size a, CartItem.size b with
       | None, None =>
           CartEvaluator.tuple_ltb (CartItem.modifiers a) (CartItem.modifiers b)
       | Some x, Some y =>
           if String.eqb x y
           then CartEvaluator.tuple_ltb (CartItem.modifiers a)
                                        (CartItem.modifiers b)
           else PyStr.ltb x y
       | None, Some _ => true
       | Some _, None => false
       end.

(** * Sample data *)

Definition small_normalizer : CartNormalizer.t :=
  CartNormalizer.new (get_menu "small").

Definition large_normalizer : CartNormalizer.t :=
  CartNormalizer.new (get_menu "large").

(** The float literals [2.09] and [4.18]. *)
Definition price_2_09 : F64.float := lit 209 100.
Definition price_4_18 : F64.float := lit 418 100.

(** The cart that the scenario of the small menu expects. *)
Definition two_medium_coffees_with_cream : Cart.t :=
  Cart.mk [CartItem.mk "COF001" "Regular Brewed Coffee" 2 (Some "medium")
                       ["cream"] price_2_09]
          price_4_18.

(** The transcript "(superscript two) coffee". *)
Definition superscript_two_coffee : string :=
  String (ascii_of_nat 178) " coffee".

Definition scenario_a_coffee : Evaluate.TestScenario :=
  Evaluate.mk_scenario "ok" "one coffee" "small" "a coffee"
    (Cart.mk [CartItem.mk "COF001" "Regular Brewed Coffee" 1 (Some "medium")
                          [] price_2_09] price_2_09).

Definition scenario_superscript : Evaluate.TestScenario :=
  Evaluate.mk_scenario "bad" "superscript quantity" "small"
    superscript_two_coffee Cart.empty.

Definition two_lines_of_one_item : list CartItem.t :=
  [CartItem.mk "DON001" "Pumpkin Spice Iced Doughnut" 1 None [] (lit 129 100);
   CartItem.mk "DON001" "Pumpkin Spice Iced Doughnut" 2 None [] (lit 129 100)].

(** A menu whose size table has an entry for the empty size name. *)
Definition tea_menu : Menu.t :=
  Menu.mk "Tea Menu"
    [ MenuItem.mk "TEA001" "Tea" "tea" (lit 10 10) (lit 10 10)
        ["tea"]
        (dict_of [("", lit 5 10); ("large", lit 10 10)])
        []
        (dict_of []) ]
    (dict_of [("plain", ""); ("large", "large")])
    (dict_of []).

Definition tea : MenuItem.t :=
  MenuItem.mk "TEA001" "Tea" "tea" (lit 10 10) (lit 10 10)
    ["tea"] (dict_of [("", lit 5 10); ("large", lit 10 10)]) [] (dict_of []).

Definition zero_coffees : Cart.t :=
  Cart.mk [CartItem.mk "COF001" "Regular Brewed Coffee" 0 (Some "medium")
                       [] price_2_09]
          F64.zero.

Definition zero_donuts : Cart.t :=
  Cart.mk [CartItem.mk "DON001" "Pumpkin Spice Iced Doughnut" 0 None []
                       (lit 129 100)]
          F64.zero.

Definition sprinkles_once : CartItem.t :=
  CartItem.mk "DON002" "Chocolate Iced Doughnut" 1 None ["sprinkles"]
              (lit 109 100).

Definition sprinkles_twice : CartItem.t :=
  CartItem.mk "DON002" "Chocolate Iced Doughnut" 1 None
              ["sprinkles"; "sprinkles"] (lit 109 100).

Definition unmerged_order : Cart.t :=
  Cart.mk [CartItem.mk "DON002" "Chocolate Iced Doughnut" 1 None
                       ["sprinkles"] (lit 109 100);
           CartItem.mk "COF001" "Regular Brewed Coffee" 2 (Some "medium")
                       ["sugar"; "cream"] price_2_09;
           CartItem.mk "DON002" "Chocolate Iced Doughnut" 3 None
                       ["sprinkles"] (lit 109 100);
           CartItem.mk "COF001" "Regular Brewed Coffee" 1 (Some "medium")
                       ["cream"; "sugar"] price_2_09]
          (lit 1063 100).

(** A cart with one chocolate doughnut, and a medium coffee to add. *)
Definition one_donut : Cart.t :=
  Cart.mk [CartItem.mk "DON002" "Chocolate Iced Doughnut" 1 None []
                       (lit 109 100)]
          (lit 109 100).

Definition medium_coffee : CartItem.t :=
  CartItem.mk "COF001" "Regular Brewed Coffee" 1 (Some "medium") [] price_2_09.

(** ** Rows of the report *)

(** The row that the loop of [run_evaluation] records for a scenario. *)
Definition row_of (scenario : Evaluate.TestScenario)
           (row : Evaluate.result_row) : Prop :=
  exists actual_cart : Cart.t,
    match CartNormalizer.parse_order
            (CartNormalizer.new (get_menu (Evaluate.menu scenario)))
            (Evaluate.input_text scenario) with
    | inr cart => actual_cart = cart
    | inl _ => False
    end
    /\ Evaluate.r_scenario_id row = Evaluate.id scenario
    /\ Evaluate.r_description row = Evaluate.description scenario
    /\ Evaluate.r_menu row = Evaluate.menu scenario
    /\ Evaluate.r_input_text row = Evaluate.input_text scenario
    /\ Evaluate.r_expected row = Cart.to_dict (Evaluate.expected_cart scenario)
    /\ Evaluate.r_actual row = Cart.to_dict actual_cart
    /\ CartEvaluator.exact_match actual_cart (Evaluate.expected_cart scenario)
       = inr (Evaluate.exact_match (Evaluate.r_metrics row))
    /\ CartEvaluator.calculate_f1 actual_cart (Evaluate.expected_cart scenario)
       = inr (Evaluate.f1 (Evaluate.r_metrics row))
    /\ CartEvaluator.calculate_item_accuracy actual_cart
         (Evaluate.expected_cart scenario)
       = inr (Evaluate.item_accuracy (Evaluate.r_metrics row)).

(** A scenario of the large menu. *)
Definition scenario_a_latte : Evaluate.TestScenario :=
  Evaluate.mk_scenario "latte" "one latte" "large" "a pumpkin spice latte"
    (Cart.mk [CartItem.mk "COF002" "Pumpkin Spice Latte" 1 (Some "medium")
                          [] (lit 509 100)] (lit 509 100)).

(** A scenario whose menu name is written with a capital. *)
Definition scenario_capital_small : Evaluate.TestScenario :=
  Evaluate.mk_scenario "capital" "one coffee" "Small" "a coffee"
    (Cart.mk [CartItem.mk "COF001" "Regular Brewed Coffee" 1 (Some "medium")
                          [] price_2_09] price_2_09).

(** The rows of a menu name other than "small" and "large". *)
Definition other_menu_rows (rows : list Evaluate.result_row)
  : list Evaluate.result_row :=
  filter (fun r => negb (String.eqb (Evaluate.r_menu r) "small")
                   && negb (String.eqb (Evaluate.r_menu r) "large")) rows.

(** The rows of a run of one scenario that passed. *)
Definition one_passed_row : list Evaluate.result_row :=
  Evaluate.add_result [] scenario_a_coffee
    (Evaluate.expected_cart scenario_a_coffee)
    (Evaluate.mk_metrics true F64.one F64.one).

(** ** Carts that the scores do not tell apart *)

(** Every line of positive quantity of [a] has the key of a line of
    positive quantity of [e]. *)
Definition keys_within (a e : Cart.t) : Prop :=
  forall x, In x (Cart.items a) -> (0 < CartItem.quantity x)%Z ->
    exists y, In y (Cart.items e) /\ (0 < CartItem.quantity y)%Z
              /\ CartItem.key y = CartItem.key x.

(** One medium coffee, and five of them. *)
Definition one_coffee : Cart.t := Cart.mk [medium_coffee] price_2_09.

Definition five_coffees : Cart.t :=
  Cart.mk [CartItem.with_quantity medium_coffee 5] (lit 1045 100).


(** Two lines of one SKU, one of them without a size. *)
Definition sized_and_unsized : Cart.t :=
  Cart.mk [CartItem.mk "DON001" "Pumpkin Spice Iced Doughnut" 1 None []
                       (lit 129 100);
           CartItem.mk "DON001" "Pumpkin Spice Iced Doughnut" 1 (Some "large")
                       [] (lit 129 100)]
          (lit 258 100).

(** ** The names of a menu item *)

(** The keys under which [_build_indexes] files an item: its name and its
    aliases, in lower case. *)
Definition labels (item : MenuItem.t) : list string :=
  PyStr.lower (MenuItem.name item) :: map PyStr.lower (MenuItem.aliases item).

(** The assignments [alias_map[label] = item] in the order in which
    [_build_indexes] makes them. *)
Definition label_assignments (items : list MenuItem.t)
  : list (string * MenuItem.t) :=
  flat_map (fun item => map (fun label => (label, item)) (labels item)) items.

(** ** Texts *)

(** [p] holds of every character of [s]. *)
Fixpoint string_forall (p : ascii -> bool) (s : string) : bool :=
  match s with
  | EmptyString => true
  | String c s' => p c && string_forall p s'
  end.



(** The last character of [s], or [prev] when [s] is empty. *)
Fixpoint last_from (prev : option ascii) (s : string) : option ascii :=
  match s with
  | EmptyString => prev
  | String c s' => last_from (Some c) s'
  end.

(** [alias] occurs in [text] at offset [start] as a whole word: the
    regular expression [\b alias \b] matches there. *)
Definition occurs_at (alias text : string) (start : nat) : Prop :=
  exists pre post : string,
    text = (pre ++ alias ++ post)%string
    /\ String.length pre = start
    /\ PyRe.at_boundary (last_from None pre)
                        (PyStr.head (alias ++ post)%string) = true
    /\ PyRe.at_boundary (last_from (last_from None pre) alias)
                        (PyStr.head post) = true.

(** ** Lines of a parsed cart *)

(** A cart line that stems from an item of [menu] named in the
    normalized text. *)
Definition line_of_menu (menu : Menu.t) (normalized : string)
           (line : CartItem.t) : Prop :=
  exists (item : MenuItem.t) (alias : string) (start : nat),
    In item (Menu.items menu)
    /\ In alias (labels item)
    /\ occurs_at alias normalized start
    /\ CartItem.sku line = MenuItem.sku item
    /\ CartItem.name line = MenuItem.name item
    /\ (CartItem.size line = None <-> MenuItem.size_variations item = [])
    /\ CartItem.price line
       = CartNormalizer._calculate_price item (CartItem.size line)
           (CartItem.modifiers line)
    /\ NoDup (CartItem.modifiers line)
    /\ (0 <= CartItem.quantity line)%Z.

(** The mentions that [_find_all_items] turns into lines. *)
Definition kept_mentions (self : CartNormalizer.t) (text : string)
  : list mention :=
  CartNormalizer.filter_mentions
    (CartNormalizer.sort_mentions (CartNormalizer.found_mentions self text)).

(** ** Items read off an agent reply *)

(** An item with a quantity of at least one, one of the four sizes, no
    modifiers, and the name and price of an item of the menu. *)
Definition parsed_from_menu (menu : Menu.t)
           (item : SmartCartParser.parsed_item) : Prop :=
  (1 <= SmartCartParser.quantity item)%Z
  /\ In (SmartCartParser.size item) ["small"; "medium"; "large"; "regular"]
  /\ SmartCartParser.modifiers item = []
  /\ exists menu_item, In menu_item (Menu.items menu)
                       /\ SmartCartParser.name item = MenuItem.name menu_item
                       /\ SmartCartParser.price item
                          = MenuItem.price menu_item.

(** The matches in the reply "Removed. Now you just have two large
    regular brewed coffees and 3 chocolate iced doughnuts". *)
Definition sample_reply : string :=
  "Removed. Now you just have two large regular brewed coffees and 3 chocolate iced doughnuts".

Definition sample_pairs (regex text : string) : list (string * string) :=
  if String.eqb regex
       (SmartCartParser.quantity_group
        ++ "\s*(large|medium|small)?\s*regular\s+brewed\s+coffee[s]?")
  then [("two", "large")] else [].

Definition sample_single (regex text : string) : list string :=
  if String.eqb regex
       (SmartCartParser.quantity_group
        ++ "\s*chocolate\s+iced\s+doughnut[s]?")
  then ["3"] else [].

(** ** Quantities of a cart *)

(** The number of articles of a list of lines. *)
Definition total_quantity (items : list CartItem.t) : Z :=
  fold_right Z.add 0%Z (map CartItem.quantity items).



(** * Properties *)

(** ** Running the engine on concrete transcripts *)

(** C3. On the small menu the transcript "two medium regular brewed
    coffees with cream" yields the empty cart with total 0, not the cart
    with two medium coffees with cream: the plural "coffees" is no
    whole-word occurrence of any alias of the menu. *)
Theorem plural_coffees_scenario_yields_empty_cart :
  CartNormalizer.parse_order small_normalizer
    "two medium regular brewed coffees with cream"
  = inr (Cart.mk [] F64.zero)
  /\ CartNormalizer.found_mentions small_normalizer
       "two medium regular brewed coffees with cream" = []
  /\ CartNormalizer.parse_order small_normalizer
       "two medium regular brewed coffees with cream"
     <> inr two_medium_coffees_with_cream.
Proof.
  repeat split; try (vm_compute; reflexivity).
  vm_compute. discriminate.
Qed.

(** With the singular "coffee" the item is found with quantity 2 and the
    modifier cream, but the size word "regular" is tried before "medium",
    so the size is small and the unit price 1.79. *)
Example singular_coffee_scenario :
  CartNormalizer.parse_order small_normalizer
    "two medium regular brewed coffee with cream"
  = inr (Cart.mk [CartItem.mk "COF001" "Regular Brewed Coffee" 2 (Some "small")
                              ["cream"] (lit 179 100)]
                 (lit 358 100)).
Proof. vm_compute. reflexivity. Qed.

(** The arithmetic of the expected cart is exact in binary64:
    1.79 + 0.3 is the float 2.09 and twice that is the float 4.18. *)
Example expected_prices_in_binary64 :
  F64.add (lit 179 100) (lit 3 10) = price_2_09
  /\ F64.mul_int price_2_09 2 = inr price_4_18.
Proof. split; vm_compute; reflexivity. Qed.

(** C4. The transcript "0 coffee" puts an item of quantity 0 in the
    cart: an all-digit word is converted as it stands. *)
Theorem zero_quantity_item_in_cart :
  CartNormalizer.parse_order small_normalizer "0 coffee" = inr zero_coffees
  /\ map CartItem.quantity (Cart.items zero_coffees) = [0%Z]
  /\ CartNormalizer._extract_quantity "0 coffee" "coffee" = inr 0%Z.
Proof. repeat split; vm_compute; reflexivity. Qed.

(** ** The harness does not recover from a parse error *)

Example superscript_two_raises :
  CartNormalizer.parse_order small_normalizer superscript_two_coffee
  = inl ValueError.
Proof. vm_compute. reflexivity. Qed.

Lemma run_scenario_parse_error results scenario e :
  CartNormalizer.parse_order
    (CartNormalizer.new (get_menu (Evaluate.menu scenario)))
    (Evaluate.input_text scenario) = inl e ->
  Evaluate.run_scenario results scenario = inl (NameError "Cart").
Proof.
  intros H. unfold Evaluate.run_scenario. rewrite H. reflexivity.
Qed.

Lemma run_scenarios_app results before rows rest :
  Evaluate.run_scenarios results before = inr rows ->
  Evaluate.run_scenarios results (before ++ rest)
  = Evaluate.run_scenarios rows rest.
Proof.
  revert results. induction before as [|s before IH]; simpl; intros results H.
  - now inversion H.
  - destruct (Evaluate.run_scenario results s) as [e|results']; simpl in *.
    + discriminate.
    + now apply IH.
Qed.

(** C2. When parsing a scenario raises, the handler evaluates [Cart()],
    a name that [evaluate.py] does not import: the run ends there with
    [NameError], whatever scenarios remain; no empty cart is substituted
    and no failed scenario recorded. *)
Theorem run_evaluation_aborts_on_parse_error :
  forall (before rest : list Evaluate.TestScenario)
         (scenario : Evaluate.TestScenario)
         (rows : list Evaluate.result_row) (e : exn),
    Evaluate.run_evaluation before = inr rows ->
    CartNormalizer.parse_order
      (CartNormalizer.new (get_menu (Evaluate.menu scenario)))
      (Evaluate.input_text scenario) = inl e ->
    Evaluate.run_evaluation (before ++ scenario :: rest)
    = inl (NameError "Cart").
Proof.
  intros before rest scenario rows e Hbefore Hparse.
  unfold Evaluate.run_evaluation in *.
  rewrite (run_scenarios_app _ _ _ _ Hbefore). simpl.
  now rewrite (run_scenario_parse_error rows scenario e Hparse).
Qed.

Lemma run_evaluation_aborts_on_parse_error_witness :
  Evaluate.run_evaluation
    ([scenario_a_coffee] ++ scenario_superscript :: [scenario_a_coffee])
  = inl (NameError "Cart").
Proof.
  apply (run_evaluation_aborts_on_parse_error
           [scenario_a_coffee] [scenario_a_coffee] scenario_superscript
           (Evaluate.add_result [] scenario_a_coffee
              (Evaluate.expected_cart scenario_a_coffee)
              (Evaluate.mk_metrics true F64.one F64.one))
           ValueError).
  - vm_compute. reflexivity.
  - vm_compute. reflexivity.
Defined.

(** ** Input without mentions *)

Lemma search_word_false pat text :
  PyRe.search_word pat text = false -> PyRe.finditer_word pat text = [].
Proof.
  unfold PyRe.search_word.
  destruct (PyRe.finditer_word pat text); [reflexivity | discriminate].
Qed.

Lemma found_mentions_nil self text :
  forallb (fun kv => negb (PyRe.search_word (fst kv) text))
          (CartNormalizer.alias_map self) = true ->
  CartNormalizer.found_mentions self text = [].
Proof.
  unfold CartNormalizer.found_mentions.
  induction (CartNormalizer.alias_map self) as [|kv d IH]; simpl; intros H.
  - reflexivity.
  - apply andb_true_iff in H. destruct H as [Hkv Hd].
    apply negb_true_iff in Hkv.
    rewrite (search_word_false _ _ Hkv). simpl. now apply IH.
Qed.

(** C8. When no alias of the index occurs as a whole word in the
    normalized text, [parse_order] returns (it does not raise) the cart
    with no item and total 0. *)
Theorem parse_order_without_mentions :
  forall (self : CartNormalizer.t) (text : string),
    forallb (fun kv =>
               negb (PyRe.search_word (fst kv)
                       (CartNormalizer.normalize_text
                          (CartNormalizer._handle_corrections text))))
            (CartNormalizer.alias_map self) = true ->
    CartNormalizer.parse_order self text = inr (Cart.mk [] F64.zero).
Proof.
  intros self text H.
  unfold CartNormalizer.parse_order, CartNormalizer._find_all_items.
  rewrite (found_mentions_nil _ _ H). reflexivity.
Qed.

Lemma parse_order_without_mentions_witness :
  CartNormalizer.parse_order large_normalizer
    "Umm... actually, do you sell bagels?!"
  = inr (Cart.mk [] F64.zero).
Proof.
  apply (parse_order_without_mentions large_normalizer
           "Umm... actually, do you sell bagels?!").
  vm_compute. reflexivity.
Defined.

(** ** Unit prices *)

(** The size [""] is resolved for "plain tea" and has the delta 0.5 in the
    size table of the item, yet the unit price is the base price 1.0: the
    test [if size and ...] takes an empty size for no size. *)
Lemma empty_size_name_gets_base_price :
  sget "" (MenuItem.size_variations tea) = Some (lit 5 10)
  /\ CartNormalizer.parse_order (CartNormalizer.new tea_menu) "plain tea"
     = inr (Cart.mk [CartItem.mk "TEA001" "Tea" 1 (Some "") [] (lit 10 10)]
                    (lit 10 10))
  /\ CartNormalizer._calculate_price tea (Some "") [] = MenuItem.base_price tea
  /\ CartNormalizer._calculate_price tea (Some "") []
     <> F64.add (MenuItem.base_price tea) (lit 5 10).
Proof.
  repeat split; try (vm_compute; reflexivity).
  vm_compute. discriminate.
Qed.

Lemma make_item_price self text m item :
  CartNormalizer.make_item self text m = inr item ->
  CartItem.sku item = MenuItem.sku (m_item m)
  /\ CartItem.price item
     = CartNormalizer._calculate_price (m_item m) (CartItem.size item)
         (CartItem.modifiers item).
Proof.
  unfold CartNormalizer.make_item.
  destruct (CartNormalizer._extract_quantity _ _) as [e|q]; simpl.
  - discriminate.
  - intros H. inversion H; subst; simpl. split; reflexivity.
Qed.

(** C7, amended.  The unit price is the base price plus the delta of the
    size, one float addition with no rounding to decimals, when the size
    is a non-empty name with an entry in the size table of the item; it is
    the base price when there is no size, when the size is the empty
    string, or when the table has no entry for it.  Every item built for
    a mention carries this price, and [to_dict] hands the prices on as
    they are and rounds only the total to two decimals. *)
Theorem unit_price_is_base_plus_delta :
  forall (item : MenuItem.t) (modifiers : list string),
    (forall size delta,
        size <> "" ->
        sget size (MenuItem.size_variations item) = Some delta ->
        CartNormalizer._calculate_price item (Some size) modifiers
        = F64.add (MenuItem.base_price item) delta)
    /\ (forall size,
           sget size (MenuItem.size_variations item) = None ->
           CartNormalizer._calculate_price item (Some size) modifiers
           = MenuItem.base_price item)
    /\ CartNormalizer._calculate_price item (Some "") modifiers
       = MenuItem.base_price item
    /\ CartNormalizer._calculate_price item None modifiers
       = MenuItem.base_price item
    /\ (forall self text m built,
           m_item m = item ->
           CartNormalizer.make_item self text m = inr built ->
           CartItem.price built
           = CartNormalizer._calculate_price item (CartItem.size built)
               (CartItem.modifiers built))
    /\ (forall cart,
           map Cart.j_price (Cart.j_items (Cart.to_dict cart))
           = map CartItem.price (Cart.items cart)
           /\ Cart.j_total (Cart.to_dict cart) = F64.round2 (Cart.total cart)).
Proof.
  intros item modifiers. repeat split.
  - intros size delta Hne Hget. unfold CartNormalizer._calculate_price.
    destruct size as [|c size]; [congruence|]. simpl PyStr.is_empty. simpl negb.
    cbv iota. now rewrite Hget.
  - intros size Hget. unfold CartNormalizer._calculate_price.
    rewrite Hget. now destruct (negb (PyStr.is_empty size)).
  - intros self text m built Hitem Hmake. subst item.
    now apply (make_item_price self text m built).
  - unfold Cart.to_dict. simpl. rewrite map_map. reflexivity.
Qed.

Lemma unit_price_is_base_plus_delta_witness :
  CartNormalizer._calculate_price tea (Some "large") []
  = F64.add (MenuItem.base_price tea) (lit 10 10)
  /\ Cart.j_total (Cart.to_dict (Cart.mk [] (lit 4185 1000))) = lit 418 100.
Proof.
  pose proof (unit_price_is_base_plus_delta tea []) as (Hsome & _ & _ & _ & _ & Hdict).
  split.
  - apply (Hsome "large" (lit 10 10)); [discriminate | vm_compute; reflexivity].
  - destruct (Hdict (Cart.mk [] (lit 4185 1000))) as [_ Ht]. rewrite Ht.
    vm_compute. reflexivity.
Defined.

(** ** Keys and sets of keys *)

Lemma option_eqb_eq a b : option_eqb a b = true <-> a = b.
Proof.
  destruct a as [x|], b as [y|]; simpl; try (split; congruence).
  rewrite String.eqb_eq. split; congruence.
Qed.

Lemma list_eqb_eq a b : list_eqb a b = true <-> a = b.
Proof.
  revert b. induction a as [|x a IH]; intros [|y b]; simpl;
    try (split; congruence).
  rewrite andb_true_iff, String.eqb_eq, IH. split.
  - intros [-> ->]. reflexivity.
  - intros H. inversion H. auto.
Qed.

Lemma key_eqb_eq a b : CartItem.key_eqb a b = true <-> a = b.
Proof.
  destruct a as [[s1 z1] m1], b as [[s2 z2] m2]. unfold CartItem.key_eqb.
  rewrite !andb_true_iff, String.eqb_eq, option_eqb_eq, list_eqb_eq.
  split.
  - intros [[-> ->] ->]. reflexivity.
  - intros H. inversion H. auto.
Qed.

Lemma key_eqb_refl k : CartItem.key_eqb k k = true.
Proof. now apply key_eqb_eq. Qed.

Lemma key_eqb_neq a b : CartItem.key_eqb a b = false <-> a <> b.
Proof.
  rewrite <- key_eqb_eq. destruct (CartItem.key_eqb a b); split; congruence.
Qed.

Lemma keyset_mem_In k s : KeySet.mem k s = true <-> In k s.
Proof.
  unfold KeySet.mem. rewrite existsb_exists. split.
  - intros (x & Hin & Heq). apply key_eqb_eq in Heq. now subst.
  - intros Hin. exists k. split; [assumption | apply key_eqb_refl].
Qed.

Lemma keyset_add_In k k' s : In k (KeySet.add k' s) <-> k = k' \/ In k s.
Proof.
  unfold KeySet.add. destruct (KeySet.mem k' s) eqn:Hmem.
  - apply keyset_mem_In in Hmem. split; [auto | intros [->|]; auto].
  - rewrite in_app_iff. simpl. intuition congruence.
Qed.

Lemma inter_self s : KeySet.inter s s = s.
Proof.
  unfold KeySet.inter. apply forallb_filter_id.
  apply forallb_forall. intros k Hk. now apply keyset_mem_In.
Qed.

Lemma diff_self s : KeySet.diff s s = [].
Proof.
  unfold KeySet.diff.
  assert (H : forall l, (forall k, In k l -> In k s) ->
                   filter (fun k => negb (KeySet.mem k s)) l = []).
  { induction l as [|k l IH]; simpl; intros Hl; [reflexivity|].
    assert (Hk : KeySet.mem k s = true) by (apply keyset_mem_In; auto).
    rewrite Hk. simpl. apply IH. auto. }
  apply H. auto.
Qed.

Lemma inter_disjoint a b :
  (forall k, In k a -> ~ In k b) -> KeySet.inter a b = [].
Proof.
  unfold KeySet.inter. induction a as [|k a IH]; simpl; intros H.
  - reflexivity.
  - destruct (KeySet.mem k b) eqn:Hk.
    + apply keyset_mem_In in Hk. exfalso. apply (H k); auto.
    + apply IH. intros k' Hk'. apply H. auto.
Qed.

Lemma diff_disjoint a b :
  (forall k, In k a -> ~ In k b) -> KeySet.diff a b = a.
Proof.
  unfold KeySet.diff. intros H. apply forallb_filter_id.
  apply forallb_forall. intros k Hk. apply negb_true_iff.
  destruct (KeySet.mem k b) eqn:Hm; [|reflexivity].
  apply keyset_mem_In in Hm. exfalso. now apply (H k).
Qed.

(** The keys of [entries] are those of the items of positive quantity. *)
Lemma entries_from_In l s k :
  In k (fold_left (fun s item =>
                     if (0 <? CartItem.quantity item)%Z
                     then KeySet.add (CartItem.key item) s else s) l s)
  <-> In k s
      \/ exists item, In item l /\ (0 < CartItem.quantity item)%Z
                      /\ k = CartItem.key item.
Proof.
  revert s. induction l as [|item l IH]; simpl; intros s.
  - split; [auto | intros [H|(i & [] & _)]; assumption].
  - rewrite IH. destruct (Z.ltb_spec 0 (CartItem.quantity item)) as [Hq|Hq].
    + rewrite keyset_add_In. split.
      * intros [[->|H]|(i & Hi & Hqi & ->)]; eauto 6.
      * intros [H|(i & [->|Hi] & Hqi & ->)]; eauto 6.
    + split.
      * intros [H|(i & Hi & Hqi & ->)]; eauto 6.
      * intros [H|(i & [->|Hi] & Hqi & ->)]; eauto 6. lia.
Qed.

Lemma entries_In cart k :
  In k (CartEvaluator.entries cart)
  <-> exists item, In item (Cart.items cart)
                   /\ (0 < CartItem.quantity item)%Z /\ k = CartItem.key item.
Proof.
  unfold CartEvaluator.entries. rewrite entries_from_In. simpl. tauto.
Qed.

(** ** The F1 score *)

Lemma div_eucl_shift p :
  Z.div_eucl (Z.shiftl (Zpos p) 53) (Zpos p) = ((2 ^ 53)%Z, 0%Z).
Proof.
  pose proof (Z.div_eucl_eq (Z.shiftl (Zpos p) 53) (Zpos p)) as Heq.
  pose proof (Z.mod_pos_bound (Z.shiftl (Zpos p) 53) (Zpos p)) as Hb.
  unfold Z.modulo in Hb.
  destruct (Z.div_eucl (Z.shiftl (Zpos p) 53) (Zpos p)) as [q r].
  rewrite Z.shiftl_mul_pow2 in Heq by lia.
  specialize (Heq ltac:(lia)). specialize (Hb ltac:(lia)).
  assert (q = (2 ^ 53)%Z) by nia.
  subst q. f_equal. lia.
Qed.

(** An integer divided by itself is the float 1.0, whatever its size. *)
Lemma ratio_self p : F64.ratio false p p = F64.one.
Proof.
  unfold F64.ratio, SFdiv_core_binary.
  replace (Zdigits2 (Zpos p) + 0 - (Zdigits2 (Zpos p) + 0))%Z with 0%Z by lia.
  change (Z.min (fexp F64.prec F64.emax 0) (0 - 0)) with (-53)%Z.
  change (0 - 0 - -53)%Z with 53%Z.
  cbv iota. rewrite div_eucl_shift.
  assert (Hl : new_location (Zpos p) 0 = loc_Exact).
  { unfold new_location. destruct (Z.even (Zpos p)); reflexivity. }
  rewrite Hl. vm_compute. reflexivity.
Qed.

Lemma int_truediv_self n : (0 < n)%Z -> F64.int_truediv n n = inr F64.one.
Proof.
  destruct n as [|p|p]; try lia. intros _. simpl.
  rewrite ratio_self. reflexivity.
Qed.

Lemma int_truediv_zero n : (0 < n)%Z -> F64.int_truediv 0 n = inr F64.zero.
Proof. destruct n as [|p|p]; try lia. reflexivity. Qed.

Lemma f1_same cart : CartEvaluator.calculate_f1 cart cart = inr F64.one.
Proof.
  unfold CartEvaluator.calculate_f1.
  destruct (CartEvaluator.entries cart) as [|k s] eqn:Hs; [reflexivity|].
  rewrite inter_self, diff_self.
  assert (Hlen : (0 < KeySet.len (k :: s))%Z)
    by (unfold KeySet.len; simpl List.length; lia).
  change (KeySet.len []) with 0%Z. rewrite Z.add_0_r.
  destruct (Z.ltb_spec 0 (KeySet.len (k :: s))) as [_|]; [|lia].
  rewrite (int_truediv_self _ Hlen). vm_compute. reflexivity.
Qed.

Lemma disjoint_entries actual expected :
  disjoint_skus actual expected ->
  forall k, In k (CartEvaluator.entries actual) ->
            ~ In k (CartEvaluator.entries expected).
Proof.
  intros Hd k Ha He.
  apply entries_In in Ha. destruct Ha as (a & Ha & _ & ->).
  apply entries_In in He. destruct He as (e & He & _ & Hk).
  apply (Hd a e Ha He). unfold CartItem.key in Hk. congruence.
Qed.

Lemma f1_disjoint actual expected :
  disjoint_skus actual expected ->
  CartEvaluator.entries actual <> [] \/ CartEvaluator.entries expected <> [] ->
  CartEvaluator.calculate_f1 actual expected = inr F64.zero.
Proof.
  intros Hd Hne. unfold CartEvaluator.calculate_f1.
  pose proof (disjoint_entries _ _ Hd) as Hdis.
  destruct (CartEvaluator.entries expected) as [|k s] eqn:Hs.
  - destruct (CartEvaluator.entries actual); [tauto | reflexivity].
  - rewrite (inter_disjoint _ _ Hdis), (diff_disjoint _ _ Hdis).
    rewrite (diff_disjoint (k :: s) (CartEvaluator.entries actual))
      by (intros k' H1 H2; now apply (Hdis k')).
    change (KeySet.len []) with 0%Z. rewrite !Z.add_0_l.
    assert (Hlen : (0 < KeySet.len (k :: s))%Z)
      by (unfold KeySet.len; simpl List.length; lia).
    destruct (Z.ltb_spec 0 (KeySet.len (k :: s))) as [_|]; [|lia].
    rewrite (int_truediv_zero _ Hlen).
    destruct (Z.ltb_spec 0 (KeySet.len (CartEvaluator.entries actual)))
      as [Hpos|_].
    + rewrite (int_truediv_zero _ Hpos). reflexivity.
    + reflexivity.
Qed.

Lemma entries_nonempty cart item :
  In item (Cart.items cart) -> (0 < CartItem.quantity item)%Z ->
  CartEvaluator.entries cart <> [].
Proof.
  intros Hin Hq Hnil.
  assert (H : In (CartItem.key item) (CartEvaluator.entries cart))
    by (apply entries_In; eauto).
  rewrite Hnil in H. destruct H.
Qed.

(** Two empty carts have no SKU in common, and their score is 1.0; so
    is the score of the cart of "0 coffee" against a cart with a line of
    quantity 0 of another item. *)
Lemma f1_of_empty_carts_is_one :
  (disjoint_skus Cart.empty Cart.empty
   /\ CartEvaluator.calculate_f1 Cart.empty Cart.empty = inr F64.one
   /\ CartEvaluator.calculate_f1 Cart.empty Cart.empty <> inr F64.zero)
  /\ (disjoint_skus zero_coffees zero_donuts
      /\ CartNormalizer.parse_order small_normalizer "0 coffee"
         = inr zero_coffees
      /\ CartEvaluator.calculate_f1 zero_coffees zero_donuts = inr F64.one
      /\ CartEvaluator.calculate_f1 zero_coffees zero_donuts <> inr F64.zero).
Proof.
  split; [split; [|split] | split; [|split; [|split]]].
  - intros a e [].
  - reflexivity.
  - vm_compute. discriminate.
  - intros a e [<-|[]] [<-|[]]. discriminate.
  - vm_compute. reflexivity.
  - vm_compute. reflexivity.
  - vm_compute. discriminate.
Qed.

(** C6, amended.  The score of a cart against itself is 1.0.  The score
    of two carts with no SKU in common is 0.0 when one of them has an item
    of positive quantity, and 1.0 when neither has (both sets of entries
    are empty, as for two empty carts). *)
Theorem f1_same_cart_and_disjoint_carts :
  (forall cart, CartEvaluator.calculate_f1 cart cart = inr F64.one)
  /\ (forall actual expected item,
         disjoint_skus actual expected ->
         In item (Cart.items actual ++ Cart.items expected) ->
         (0 < CartItem.quantity item)%Z ->
         CartEvaluator.calculate_f1 actual expected = inr F64.zero)
  /\ (forall actual expected,
         (forall item, In item (Cart.items actual ++ Cart.items expected) ->
                       (CartItem.quantity item <= 0)%Z) ->
         CartEvaluator.calculate_f1 actual expected = inr F64.one).
Proof.
  split; [exact f1_same | split].
  - intros actual expected item Hd Hin Hq. apply (f1_disjoint _ _ Hd).
    apply in_app_iff in Hin. destruct Hin as [Hin|Hin];
      [left | right]; now apply (entries_nonempty _ item).
  - intros actual expected Hall. unfold CartEvaluator.calculate_f1.
    assert (Hnil : forall cart,
               (forall item, In item (Cart.items cart) ->
                             (CartItem.quantity item <= 0)%Z) ->
               CartEvaluator.entries cart = []).
    { intros cart Hc. destruct (CartEvaluator.entries cart) as [|k s] eqn:Hs;
        [reflexivity|].
      assert (Hk : In k (CartEvaluator.entries cart))
        by (rewrite Hs; now left).
      apply entries_In in Hk. destruct Hk as (i & Hi & Hq & _).
      specialize (Hc i Hi). lia. }
    rewrite (Hnil expected), (Hnil actual); [reflexivity | |];
      intros i Hi; apply Hall; apply in_app_iff; auto.
Qed.

Lemma f1_same_cart_and_disjoint_carts_witness :
  CartEvaluator.calculate_f1
    (Cart.mk [CartItem.mk "DON001" "Pumpkin Spice Iced Doughnut" 2 None []
                          (lit 129 100)] (lit 258 100))
    (Cart.mk [CartItem.mk "COF001" "Regular Brewed Coffee" 1 (Some "medium")
                          ["cream"] price_2_09] price_2_09)
  = inr F64.zero.
Proof.
  destruct f1_same_cart_and_disjoint_carts as (_ & Hdisjoint & _).
  apply (Hdisjoint _ _
           (CartItem.mk "DON001" "Pumpkin Spice Iced Doughnut" 2 None []
                        (lit 129 100))).
  - intros a e [<-|[]] [<-|[]]. discriminate.
  - simpl. auto.
  - simpl. lia.
Defined.

(** ** Merging duplicate lines *)

Section Merge.
Import CartItem.

Lemma key_with_quantity item q : key (with_quantity item q) = key item.
Proof. reflexivity. Qed.

Lemma rebuild_item item :
  mk (sku item) (name item) (quantity item) (size item) (modifiers item)
     (price item) = item.
Proof. now destruct item. Qed.

Lemma dget_None_notin k (d : Cart.merged_t) :
  PyDict.get key_eqb k d = None <-> ~ In k (map fst d).
Proof.
  induction d as [|[k' v] d IH]; simpl.
  - tauto.
  - destruct (key_eqb k' k) eqn:Hk.
    + apply key_eqb_eq in Hk. split; [discriminate | intros H; exfalso; auto].
    + apply key_eqb_neq in Hk. rewrite IH. tauto.
Qed.

Lemma dget_Some_In k v (d : Cart.merged_t) :
  PyDict.get key_eqb k d = Some v -> In (k, v) d.
Proof.
  induction d as [|[k' v'] d IH]; simpl; [discriminate|].
  destruct (key_eqb k' k) eqn:Hk.
  - apply key_eqb_eq in Hk. intros H. inversion H. subst. now left.
  - auto.
Qed.

Lemma dset_fresh k v (d : Cart.merged_t) :
  PyDict.get key_eqb k d = None -> PyDict.set key_eqb k v d = d ++ [(k, v)].
Proof.
  induction d as [|[k' v'] d IH]; simpl; [reflexivity|].
  destruct (key_eqb k' k); [discriminate|].
  intros H. now rewrite IH.
Qed.

Lemma dset_keys_present k v v0 (d : Cart.merged_t) :
  PyDict.get key_eqb k d = Some v0 -> map fst (PyDict.set key_eqb k v d) = map fst d.
Proof.
  induction d as [|[k' v'] d IH]; simpl; [discriminate|].
  destruct (key_eqb k' k); simpl; [reflexivity|].
  intros H. now rewrite IH.
Qed.

Lemma dset_In k v (d : Cart.merged_t) k1 v1 :
  NoDup (map fst d) ->
  In (k1, v1) (PyDict.set key_eqb k v d) ->
  (k1 = k /\ v1 = v) \/ (k1 <> k /\ In (k1, v1) d).
Proof.
  induction d as [|[k' v'] d IH]; simpl; intros Hnd Hin.
  - destruct Hin as [H|[]]. inversion H. auto.
  - inversion Hnd as [|? ? Hnotin Hnd']; subst.
    destruct (key_eqb k' k) eqn:Hk.
    + apply key_eqb_eq in Hk. subst k'. destruct Hin as [H|H].
      * inversion H. auto.
      * right. split; [|auto]. intros ->. apply Hnotin.
        apply (in_map fst) in H. exact H.
    + apply key_eqb_neq in Hk. destruct Hin as [H|H].
      * inversion H; subst. right. split; [assumption | now left].
      * destruct (IH Hnd' H) as [?|[? ?]]; [now left | right; auto].
Qed.

Lemma first_keys_snoc ks k :
  first_keys (ks ++ [k])
  = if existsb (key_eqb k) ks then first_keys ks else first_keys ks ++ [k].
Proof.
  induction ks as [|k0 ks IH]; simpl; [reflexivity|].
  rewrite IH. destruct (key_eqb k k0) eqn:Hk0; simpl.
  - apply key_eqb_eq in Hk0. subst k0.
    destruct (existsb (key_eqb k) ks); [reflexivity|].
    rewrite filter_app. simpl. rewrite key_eqb_refl. simpl.
    now rewrite app_nil_r.
  - destruct (existsb (key_eqb k) ks); [reflexivity|].
    rewrite filter_app. simpl. rewrite Hk0. reflexivity.
Qed.

Lemma first_keys_In ks k : In k (first_keys ks) <-> In k ks.
Proof.
  induction ks as [|k0 ks IH]; simpl; [tauto|].
  rewrite filter_In, IH, negb_true_iff, key_eqb_neq.
  destruct (key_eqb k k0) eqn:Hk.
  - apply key_eqb_eq in Hk. subst. tauto.
  - apply key_eqb_neq in Hk. intuition congruence.
Qed.

Lemma existsb_key_In k ks : existsb (key_eqb k) ks = true <-> In k ks.
Proof. exact (keyset_mem_In k ks). Qed.

Lemma find_snoc (f : t -> bool) l x :
  find f (l ++ [x])
  = match find f l with Some y => Some y | None => if f x then Some x else None end.
Proof.
  induction l as [|y l IH]; simpl; [reflexivity|].
  destruct (f y); [reflexivity | exact IH].
Qed.

Lemma quantity_of_snoc k l x :
  quantity_of k (l ++ [x])
  = (quantity_of k l + if has_key k x then quantity x else 0)%Z.
Proof.
  unfold quantity_of. rewrite filter_app, map_app, fold_right_app. simpl.
  generalize (map quantity (filter (has_key k) l)) as qs.
  intros qs. destruct (has_key k x); simpl.
  - induction qs as [|q qs IH]; simpl; lia.
  - induction qs as [|q qs IH]; simpl; lia.
Qed.

Lemma find_none_quantity k l :
  find (has_key k) l = None -> quantity_of k l = 0%Z.
Proof.
  unfold quantity_of. induction l as [|x l IH]; simpl; [reflexivity|].
  destruct (has_key k x); [discriminate | exact IH].
Qed.

Lemma find_has_key_none k l :
  ~ In k (map key l) -> find (has_key k) l = None.
Proof.
  induction l as [|x l IH]; simpl; intros H; [reflexivity|].
  unfold has_key at 1. destruct (key_eqb (key x) k) eqn:Hk.
  - apply key_eqb_eq in Hk. exfalso. auto.
  - apply IH. auto.
Qed.

Lemma merge_step_spec l d item :
  merged_of l d -> merged_of (l ++ [item]) (Cart.merge_step d item).
Proof.
  intros [Hkeys Hnd Hentry]. unfold Cart.merge_step.
  destruct (PyDict.get key_eqb (key item) d) as [m|] eqn:Hget.
  - (* the key is present: the quantity of its line grows *)
    pose proof (dget_Some_In _ _ _ Hget) as Hin.
    assert (Hmem : existsb (key_eqb (key item)) (map key l) = true).
    { apply existsb_key_In. apply first_keys_In. rewrite <- Hkeys.
      apply (in_map fst) in Hin. exact Hin. }
    split.
    + rewrite (dset_keys_present _ _ _ _ Hget), map_app. simpl.
      now rewrite first_keys_snoc, Hmem.
    + now rewrite (dset_keys_present _ _ _ _ Hget).
    + intros k v Hkv. apply (dset_In _ _ _ _ _ Hnd) in Hkv.
      destruct Hkv as [[-> ->]|[Hne Hkv]].
      * destruct (Hentry _ _ Hin) as (first & Hfind & ->).
        exists first. rewrite find_snoc, Hfind. split; [reflexivity|].
        rewrite quantity_of_snoc.
        change (has_key (key item) item) with (key_eqb (key item) (key item)).
        rewrite key_eqb_refl. reflexivity.
      * destruct (Hentry _ _ Hkv) as (first & Hfind & ->).
        exists first. rewrite find_snoc, Hfind. split; [reflexivity|].
        rewrite quantity_of_snoc.
        assert (Hk : has_key k item = false)
          by (apply key_eqb_neq; congruence).
        rewrite Hk, Z.add_0_r. reflexivity.
  - (* a new key: a copy of the line is appended *)
    pose proof (proj1 (dget_None_notin _ _) Hget) as Hnotin.
    assert (Hmem : existsb (key_eqb (key item)) (map key l) = false).
    { destruct (existsb (key_eqb (key item)) (map key l)) eqn:He;
        [|reflexivity].
      apply existsb_key_In, first_keys_In in He. rewrite <- Hkeys in He.
      contradiction. }
    rewrite rebuild_item, (dset_fresh _ _ _ Hget).
    split.
    + rewrite !map_app. simpl. now rewrite first_keys_snoc, Hmem, Hkeys.
    + rewrite map_app. simpl. apply NoDup_app_remove_l with (l := []).
      simpl. clear - Hnd Hnotin.
      induction (map fst d) as [|k ks IH]; simpl.
      * constructor; [auto | constructor].
      * inversion Hnd; subst. constructor.
        -- rewrite in_app_iff. simpl. intros [H|[H|[]]]; [auto|].
           subst. apply Hnotin. now left.
        -- apply IH; [assumption|]. intros H. apply Hnotin. now right.
    + intros k v Hkv. apply in_app_iff in Hkv. destruct Hkv as [Hkv|[Hkv|[]]].
      * destruct (Hentry _ _ Hkv) as (first & Hfind & ->).
        exists first. rewrite find_snoc, Hfind. split; [reflexivity|].
        rewrite quantity_of_snoc.
        assert (Hk : has_key k item = false).
        { apply key_eqb_neq. intros <-. apply Hnotin.
          apply (in_map fst) in Hkv. exact Hkv. }
        rewrite Hk, Z.add_0_r. reflexivity.
      * inversion Hkv; subst k v. exists item.
        assert (Hnone : find (has_key (key item)) l = None).
        { apply find_has_key_none. intros H.
          apply existsb_key_In in H. congruence. }
        assert (Hself : has_key (key item) item = true)
          by apply key_eqb_refl.
        rewrite find_snoc, Hnone, Hself. split; [reflexivity|].
        rewrite quantity_of_snoc, (find_none_quantity _ _ Hnone), Hself.
        simpl. now destruct item.
Qed.

Lemma merged_of_fold l : merged_of l (fold_left Cart.merge_step l []).
Proof.
  induction l as [|item l IH] using rev_ind.
  - split; simpl; [reflexivity | constructor | intros k v []].
  - rewrite fold_left_app. simpl. now apply merge_step_spec.
Qed.

Lemma merged_items_keys l :
  map key (Cart.merged_items l) = first_keys (map key l).
Proof.
  destruct (merged_of_fold l) as [Hkeys _ Hentry].
  rewrite <- Hkeys. unfold Cart.merged_items. rewrite map_map.
  apply map_ext_in. intros [k v] Hin. simpl.
  destruct (Hentry _ _ Hin) as (first & Hfind & ->).
  rewrite key_with_quantity. apply find_some in Hfind.
  destruct Hfind as [_ Hk]. now apply key_eqb_eq in Hk.
Qed.

Lemma merged_items_nodup l : NoDup (map key (Cart.merged_items l)).
Proof.
  pose proof (merged_items_keys l) as Hk.
  destruct (merged_of_fold l) as [Hkeys Hnd _].
  rewrite Hk, <- Hkeys. exact Hnd.
Qed.

Lemma merged_items_entry l m :
  In m (Cart.merged_items l) ->
  exists first, find (has_key (key m)) l = Some first
                /\ m = with_quantity first (quantity_of (key m) l).
Proof.
  unfold Cart.merged_items. intros Hin. apply in_map_iff in Hin.
  destruct Hin as ([k v] & Hv & Hin). simpl in Hv. subst v.
  destruct (merged_of_fold l) as [_ _ Hentry].
  destruct (Hentry _ _ Hin) as (first & Hfind & Hm).
  assert (Hk : key m = k).
  { rewrite Hm, key_with_quantity. apply find_some in Hfind.
    destruct Hfind as [_ Hk]. now apply key_eqb_eq in Hk. }
  rewrite Hk. eauto.
Qed.

(** A list without two lines of the same key is left as it is. *)
Lemma fold_merge_distinct l d :
  NoDup (map fst d ++ map key l) ->
  fold_left Cart.merge_step l d = d ++ map (fun item => (key item, item)) l.
Proof.
  revert d. induction l as [|item l IH]; simpl; intros d Hnd.
  - now rewrite app_nil_r.
  - assert (Hget : PyDict.get key_eqb (key item) d = None).
    { apply dget_None_notin. intros Hin.
      apply NoDup_remove_2 in Hnd. apply Hnd. apply in_app_iff. now left. }
    unfold Cart.merge_step at 2. rewrite Hget, rebuild_item, (dset_fresh _ _ _ Hget).
    rewrite IH.
    + now rewrite <- app_assoc.
    + rewrite map_app. simpl. rewrite <- app_assoc. exact Hnd.
Qed.

Lemma merged_items_distinct l :
  NoDup (map key l) -> Cart.merged_items l = l.
Proof.
  intros Hnd. unfold Cart.merged_items.
  rewrite fold_merge_distinct by exact Hnd. simpl.
  rewrite map_map. simpl. apply map_id.
Qed.

Lemma merged_items_idempotent l :
  Cart.merged_items (Cart.merged_items l) = Cart.merged_items l.
Proof. apply merged_items_distinct, merged_items_nodup. Qed.

End Merge.

(** C5. Merging twice is merging once: the second merge returns the cart
    of the first, with the same items and the same total (and when the
    first raises, for a quantity beyond the range of a float, so does
    the composition). *)
Theorem merge_duplicates_idempotent :
  forall cart : Cart.t,
    (merged <- Cart.merge_duplicates cart ;; Cart.merge_duplicates merged)
    = Cart.merge_duplicates cart
    /\ Cart.merged_items (Cart.merged_items (Cart.items cart))
       = Cart.merged_items (Cart.items cart).
Proof.
  intros cart. split; [|apply merged_items_idempotent].
  unfold Cart.merge_duplicates.
  destruct (Cart.line_totals (Cart.merged_items (Cart.items cart)))
    as [e|ps] eqn:Hps; simpl.
  - reflexivity.
  - rewrite merged_items_idempotent, Hps. reflexivity.
Qed.

(** ** What a merged cart holds *)




(** ** The mention finder *)

Lemma intersects_true m p :
  intersects m p = true <-> m_start p < m_end m /\ m_start m < m_end p.
Proof.
  unfold intersects. rewrite negb_true_iff, orb_false_iff, !Nat.leb_gt. tauto.
Qed.

Lemma intersects_false m p :
  intersects m p = false <-> m_end m <= m_start p \/ m_end p <= m_start m.
Proof.
  unfold intersects. rewrite negb_false_iff, orb_true_iff, !Nat.leb_le. tauto.
Qed.

Lemma intersects_sym a b : intersects a b = intersects b a.
Proof.
  destruct (intersects a b) eqn:Hab; symmetry.
  - apply intersects_true in Hab. apply intersects_true. tauto.
  - apply intersects_false in Hab. apply intersects_false. tauto.
Qed.

Lemma mention_eqb_refl p : mention_eqb p p = true.
Proof.
  unfold mention_eqb. now rewrite !Nat.eqb_refl, String.eqb_refl.
Qed.

Lemma mention_eqb_span x p :
  mention_eqb x p = true -> m_start x = m_start p /\ m_end x = m_end p.
Proof.
  unfold mention_eqb. rewrite !andb_true_iff, !Nat.eqb_eq. tauto.
Qed.

Lemma mention_eqb_intersects m x p :
  mention_eqb x p = true -> intersects m x = intersects m p.
Proof.
  intros H. apply mention_eqb_span in H. destruct H as [Hs He].
  unfold intersects. now rewrite Hs, He.
Qed.

(** *** The loop over the accepted mentions *)

Lemma scan_previous_eq m filtered i :
  scan_previous m filtered i
  = match nth_error filtered i with
    | None => (filtered, false)
    | Some prev =>
        if intersects m prev then
          if String.length (m_alias prev) <? String.length (m_alias m)
          then scan_previous m (remove_first prev filtered) (S i)
          else (filtered, true)
        else scan_previous m filtered (S i)
    end.
Proof.
  apply (scan_previous_elim
           (fun m filtered i r =>
              r = match nth_error filtered i with
                  | None => (filtered, false)
                  | Some prev =>
                      if intersects m prev then
                        if String.length (m_alias prev)
                           <? String.length (m_alias m)
                        then scan_previous m (remove_first prev filtered) (S i)
                        else (filtered, true)
                      else scan_previous m filtered (S i)
                  end)).
  - intros m0 f0 i0 prev Hnth _ _ _. now rewrite Hnth.
  - intros m0 f0 i0 Hnth _. now rewrite Hnth.
Qed.

(** From an index after which nothing intersects, the loop runs to the
    end and changes nothing. *)
Lemma scan_previous_clear m filtered i :
  (forall j p, i <= j -> nth_error filtered j = Some p ->
               intersects m p = false) ->
  scan_previous m filtered i = (filtered, false).
Proof.
  remember (List.length filtered - i) as n eqn:Hn.
  revert i Hn. induction n as [|n IH]; intros i Hn Hclear;
    rewrite scan_previous_eq;
    destruct (nth_error filtered i) as [p|] eqn:Hnth; try reflexivity.
  - assert (i < List.length filtered)
      by (apply nth_error_Some; congruence). lia.
  - rewrite (Hclear i p (Nat.le_refl i) Hnth).
    apply IH; [lia|]. intros j q Hj. apply Hclear. lia.
Qed.

(** Up to the first mention that intersects, the loop only advances. *)
Lemma scan_previous_hit m l1 p l2 i :
  i <= List.length l1 ->
  (forall x, In x l1 -> intersects m x = false) ->
  intersects m p = true ->
  scan_previous m (l1 ++ p :: l2) i
  = if String.length (m_alias p) <? String.length (m_alias m)
    then scan_previous m (remove_first p (l1 ++ p :: l2)) (S (List.length l1))
    else (l1 ++ p :: l2, true).
Proof.
  intros Hi Hl1 Hp.
  remember (List.length l1 - i) as n eqn:Hn.
  revert i Hi Hn. induction n as [|n IH]; intros i Hi Hn;
    rewrite scan_previous_eq.
  - assert (i = List.length l1) by lia. subst i.
    rewrite nth_error_app2, Nat.sub_diag by lia. simpl. now rewrite Hp.
  - assert (Hlt : i < List.length l1) by lia.
    rewrite nth_error_app1 by exact Hlt.
    destruct (nth_error l1 i) as [x|] eqn:Hnth.
    + rewrite (Hl1 x (nth_error_In _ _ Hnth)). apply IH; lia.
    + apply nth_error_None in Hnth. lia.
Qed.

Lemma remove_first_split l1 p l2 :
  (forall x, In x l1 -> mention_eqb x p = false) ->
  remove_first p (l1 ++ p :: l2) = l1 ++ l2.
Proof.
  induction l1 as [|x l1 IH]; simpl; intros H.
  - now rewrite mention_eqb_refl.
  - rewrite (H x) by now left. f_equal. apply IH. auto.
Qed.

Lemma find_split {A} (f : A -> bool) l p :
  find f l = Some p ->
  exists l1 l2, l = l1 ++ p :: l2 /\ f p = true
                /\ forall x, In x l1 -> f x = false.
Proof.
  induction l as [|y l IH]; simpl; [discriminate|].
  destruct (f y) eqn:Hy.
  - intros H. inversion H; subst. exists [], l. simpl. tauto.
  - intros H. destruct (IH H) as (l1 & l2 & -> & Hp & Hl1).
    exists (y :: l1), l2. simpl. repeat split; auto.
    intros x [<-|Hx]; auto.
Qed.

(** *** Accepted mentions stay apart *)

Lemma apart_app l1 l2 :
  ForallOrdPairs apart (l1 ++ l2)
  <-> ForallOrdPairs apart l1 /\ ForallOrdPairs apart l2
      /\ forall a b, In a l1 -> In b l2 -> apart a b.
Proof.
  induction l1 as [|x l1 IH]; simpl.
  - split; [intros H; repeat split; [constructor | exact H | intros ? ? []]
           | tauto].
  - split.
    + intros H. inversion H as [|? ? Hx Hrest]; subst.
      apply IH in Hrest. destruct Hrest as (H1 & H2 & H12).
      rewrite Forall_app in Hx. destruct Hx as [Hx1 Hx2].
      repeat split; [now constructor | exact H2 |].
      intros a b [<-|Ha] Hb; [|auto].
      rewrite Forall_forall in Hx2. auto.
    + intros (H1 & H2 & H12). inversion H1 as [|? ? Hx Hrest]; subst.
      constructor.
      * apply Forall_app. split; [exact Hx|].
        apply Forall_forall. intros b Hb. apply H12; auto.
      * apply IH. repeat split; auto.
Qed.

Lemma apart_single a : ForallOrdPairs apart [a].
Proof. constructor; constructor. Qed.

(** A candidate that starts no earlier than every accepted mention
    intersects at most one of them. *)
Lemma one_hit_at_most accepted m a b :
  ForallOrdPairs apart accepted ->
  (forall x, In x accepted -> by_start x m) ->
  In a accepted -> In b accepted ->
  intersects m a = true -> intersects m b = true -> a = b.
Proof.
  intros Hapart Hstart Ha Hb Hma Hmb.
  destruct (ForallOrdPairs_In Hapart a b Ha Hb) as [Heq|[Hab|Hba]];
    [exact Heq| |]; exfalso.
  - apply intersects_false in Hab. apply intersects_true in Hma, Hmb.
    pose proof (Hstart a Ha). pose proof (Hstart b Hb).
    unfold by_start in *. lia.
  - apply intersects_false in Hba. apply intersects_true in Hma, Hmb.
    pose proof (Hstart a Ha). pose proof (Hstart b Hb).
    unfold by_start in *. lia.
Qed.

(** One turn of the source loop is one application of the policy. *)
Lemma filter_step_longest_alias_wins accepted m :
  accepted_for m accepted ->
  CartNormalizer.filter_step accepted m = longest_alias_wins accepted m.
Proof.
  intros [Hapart Hstart].
  unfold CartNormalizer.filter_step, longest_alias_wins.
  destruct (find (intersects m) accepted) as [p|] eqn:Hfind.
  - destruct (find_split _ _ _ Hfind) as (l1 & l2 & -> & Hp & Hl1).
    rewrite (scan_previous_hit m l1 p l2 0 (Nat.le_0_l _) Hl1 Hp).
    destruct (String.length (m_alias p) <? String.length (m_alias m));
      [|reflexivity].
    assert (Hrm : remove_first p (l1 ++ p :: l2) = l1 ++ l2).
    { apply remove_first_split. intros x Hx.
      destruct (mention_eqb x p) eqn:Hxp; [|reflexivity].
      rewrite <- (mention_eqb_intersects m x p Hxp), (Hl1 x Hx) in Hp.
      discriminate. }
    rewrite Hrm, scan_previous_clear; [reflexivity|].
    intros j q Hj Hq.
    rewrite nth_error_app2 in Hq by lia.
    apply nth_error_In in Hq.
    destruct (intersects m q) eqn:Hmq; [|reflexivity].
    assert (Hpq : p = q).
    { apply (one_hit_at_most (l1 ++ p :: l2) m); auto.
      - apply in_app_iff. right. now left.
      - apply in_app_iff. right. now right. }
    subst q.
    assert (Hs : by_start p m)
      by (apply Hstart, in_app_iff; right; now left).
    apply apart_app in Hapart. destruct Hapart as (_ & Hpl2 & _).
    inversion Hpl2 as [|? ? Hall _]; subst.
    rewrite Forall_forall in Hall. specialize (Hall p Hq).
    unfold apart in Hall. apply intersects_false in Hall.
    apply intersects_true in Hmq. unfold by_start in Hs. lia.
  - rewrite scan_previous_clear; [reflexivity|].
    intros j p _ Hp. apply nth_error_In in Hp.
    exact (find_none _ _ Hfind p Hp).
Qed.

Lemma remove_first_incl p l : incl (remove_first p l) l.
Proof.
  induction l as [|y l IH]; simpl; [apply incl_refl|].
  destruct (mention_eqb y p).
  - apply incl_tl, incl_refl.
  - intros x [<-|Hx]; [now left | right; now apply IH].
Qed.

Lemma remove_first_apart p l :
  ForallOrdPairs apart l -> ForallOrdPairs apart (remove_first p l).
Proof.
  induction l as [|y l IH]; simpl; intros H; [constructor|].
  inversion H as [|? ? Hy Hl]; subst.
  destruct (mention_eqb y p); [exact Hl|].
  constructor; [|auto].
  rewrite Forall_forall in *. intros x Hx. apply Hy.
  now apply (remove_first_incl p l).
Qed.

Lemma remove_first_other p l x :
  In x l -> mention_eqb x p = false -> In x (remove_first p l).
Proof.
  induction l as [|y l IH]; simpl; [tauto|].
  intros [<-|Hx] Hxp.
  - rewrite Hxp. now left.
  - destruct (mention_eqb y p); [exact Hx | right; auto].
Qed.

(** A mention of positive length occurs once among mentions that are
    apart, so removing it leaves no copy. *)
Lemma remove_first_gone p l :
  ForallOrdPairs apart l -> intersects p p = true ->
  ~ In p (remove_first p l).
Proof.
  intros Hl Hpp. induction l as [|y l IH]; simpl; [tauto|].
  inversion Hl as [|? ? Hy Hl']; subst.
  destruct (mention_eqb y p) eqn:Hyp.
  - intros Hin. rewrite Forall_forall in Hy. specialize (Hy p Hin).
    unfold apart in Hy. rewrite intersects_sym in Hy.
    rewrite (mention_eqb_intersects p y p Hyp) in Hy. congruence.
  - intros [->|Hin].
    + now rewrite mention_eqb_refl in Hyp.
    + now apply IH.
Qed.

Lemma longest_alias_wins_incl accepted m :
  incl (longest_alias_wins accepted m) (accepted ++ [m]).
Proof.
  unfold longest_alias_wins.
  destruct (find (intersects m) accepted) as [p|].
  - destruct (String.length (m_alias p) <? String.length (m_alias m)).
    + apply incl_app; [|apply incl_appr, incl_refl].
      apply incl_appl, remove_first_incl.
    + apply incl_appl, incl_refl.
  - apply incl_refl.
Qed.

Lemma longest_alias_wins_apart accepted m :
  accepted_for m accepted ->
  ForallOrdPairs apart (longest_alias_wins accepted m).
Proof.
  intros [Hapart Hstart]. unfold longest_alias_wins.
  destruct (find (intersects m) accepted) as [p|] eqn:Hfind.
  - destruct (String.length (m_alias p) <? String.length (m_alias m));
      [|exact Hapart].
    apply apart_app. repeat split;
      [now apply remove_first_apart | apply apart_single |].
    intros a b Ha [<-|[]]. unfold apart. rewrite intersects_sym.
    destruct (intersects m a) eqn:Hma; [exfalso | reflexivity].
    pose proof (remove_first_incl p accepted a Ha) as Ha'.
    apply find_some in Hfind. destruct Hfind as [Hp Hmp].
    assert (a = p) by (apply (one_hit_at_most accepted m); auto).
    subst a. apply (remove_first_gone p accepted Hapart); [|exact Ha].
    apply intersects_true. apply intersects_true in Hma.
    pose proof (Hstart p Ha') as Hs. unfold by_start in Hs. lia.
  - apply apart_app. repeat split; [exact Hapart | apply apart_single |].
    intros a b Ha [<-|[]]. unfold apart. rewrite intersects_sym.
    exact (find_none _ _ Hfind a Ha).
Qed.

(** *** The candidates come in ascending order of start *)

Lemma insert_In z x l : In z (PySort.insert start_lt x l) <-> z = x \/ In z l.
Proof.
  induction l as [|y l IH]; simpl; [intuition congruence|].
  destruct (m_start x <? m_start y); simpl; [intuition congruence|].
  rewrite IH. intuition congruence.
Qed.

Lemma insert_perm x l : Permutation (PySort.insert start_lt x l) (x :: l).
Proof.
  induction l as [|y l IH]; simpl; [apply Permutation_refl|].
  destruct (m_start x <? m_start y); [apply Permutation_refl|].
  apply (Permutation_trans (perm_skip y IH)), perm_swap.
Qed.

Lemma insert_sorted x l :
  StronglySorted by_start l ->
  StronglySorted by_start (PySort.insert start_lt x l).
Proof.
  induction l as [|y l IH]; simpl; intros Hl.
  - constructor; constructor.
  - inversion Hl as [|? ? Hl' Hy]; subst.
    destruct (Nat.ltb_spec (m_start x) (m_start y)) as [Hlt|Hge].
    + constructor; [exact Hl|]. constructor; [unfold by_start; lia|].
      rewrite Forall_forall in *. intros z Hz. specialize (Hy z Hz).
      unfold by_start in *. lia.
    + constructor; [auto|]. rewrite Forall_forall in *.
      intros z Hz. apply insert_In in Hz. destruct Hz as [->|Hz]; [|auto].
      exact Hge.
Qed.

Lemma sorted_from l : forall acc,
  StronglySorted by_start acc ->
  StronglySorted by_start (fold_left (fun acc x => PySort.insert start_lt x acc) l acc)
  /\ Permutation (fold_left (fun acc x => PySort.insert start_lt x acc) l acc)
                 (acc ++ l).
Proof.
  induction l as [|x l IH]; simpl; intros acc Hacc.
  - rewrite app_nil_r. split; [exact Hacc | apply Permutation_refl].
  - destruct (IH _ (insert_sorted x acc Hacc)) as [Hs Hp].
    split; [exact Hs|].
    apply (Permutation_trans Hp).
    apply (Permutation_trans (Permutation_app_tail l (insert_perm x acc))).
    apply Permutation_middle.
Qed.

Lemma sort_mentions_sorted l :
  StronglySorted by_start (CartNormalizer.sort_mentions l)
  /\ Permutation (CartNormalizer.sort_mentions l) l.
Proof. apply (sorted_from l []). constructor. Qed.

Lemma sorted_app_inv l1 l2 :
  StronglySorted by_start (l1 ++ l2) ->
  StronglySorted by_start l1
  /\ forall a b, In a l1 -> In b l2 -> by_start a b.
Proof.
  induction l1 as [|x l1 IH]; simpl; intros H.
  - split; [constructor | intros ? ? []].
  - inversion H as [|? ? Hrest Hx]; subst.
    destruct (IH Hrest) as [H1 H12].
    rewrite Forall_app in Hx. destruct Hx as [Hx1 Hx2].
    split; [now constructor|].
    intros a b [<-|Ha] Hb; [|auto]. rewrite Forall_forall in Hx2. auto.
Qed.

(** *** The whole pass *)

Lemma filter_mentions_from candidates : forall accepted,
  StronglySorted by_start candidates ->
  ForallOrdPairs apart accepted ->
  (forall x c, In x accepted -> In c candidates -> by_start x c) ->
  fold_left CartNormalizer.filter_step candidates accepted
  = fold_left longest_alias_wins candidates accepted
  /\ ForallOrdPairs apart (fold_left longest_alias_wins candidates accepted)
  /\ incl (fold_left longest_alias_wins candidates accepted)
          (accepted ++ candidates).
Proof.
  induction candidates as [|c candidates IH]; simpl;
    intros accepted Hsorted Hapart Hstart.
  - rewrite app_nil_r. repeat split; [exact Hapart | apply incl_refl].
  - inversion Hsorted as [|? ? Hrest Hc]; subst.
    assert (Hfor : accepted_for c accepted)
      by (split; [exact Hapart | intros x Hx; apply Hstart; auto]).
    rewrite (filter_step_longest_alias_wins _ _ Hfor).
    destruct (IH (longest_alias_wins accepted c) Hrest
                 (longest_alias_wins_apart _ _ Hfor)) as (Heq & Hap & Hincl).
    + intros x c' Hx Hc'. apply longest_alias_wins_incl in Hx.
      apply in_app_iff in Hx. destruct Hx as [Hx|[<-|[]]]; [auto|].
      rewrite Forall_forall in Hc. auto.
    + repeat split; [exact Heq | exact Hap |].
      intros x Hx. apply Hincl in Hx. apply in_app_iff in Hx.
      destruct Hx as [Hx|Hx].
      * apply longest_alias_wins_incl in Hx. apply in_app_iff in Hx.
        apply in_app_iff. simpl. destruct Hx as [Hx|[<-|[]]]; auto.
      * apply in_app_iff. simpl. auto.
Qed.

Lemma found_mentions_In self text m :
  In m (CartNormalizer.found_mentions self text)
  <-> exists alias item,
        In (alias, item) (CartNormalizer.alias_map self)
        /\ In (m_start m, m_end m) (PyRe.finditer_word alias text)
        /\ m_alias m = alias /\ m_item m = item.
Proof.
  unfold CartNormalizer.found_mentions. rewrite in_flat_map. split.
  - intros ([alias item] & Hkv & Hm). apply in_map_iff in Hm.
    destruct Hm as ([s e] & <- & Hspan). simpl in *. eauto 6.
  - intros (alias & item & Hkv & Hspan & Ha & Hi).
    exists (alias, item). split; [exact Hkv|]. apply in_map_iff.
    exists (m_start m, m_end m). split; [|exact Hspan].
    simpl. destruct m. simpl in *. now subst.
Qed.

(** C1. The candidates are the whole-word matches of the aliases of the
    index, in ascending order of start.  The pass over them applies the
    policy longest-alias-wins to each in turn: a candidate that
    intersects no accepted mention is accepted, one that intersects an
    accepted mention (there is at most one) replaces it when its alias is
    strictly longer and is discarded otherwise.  The mentions returned are
    candidates and pairwise apart.  For "a pumpkin spice latte" on the
    large menu the candidates "pumpkin spice", "pumpkin spice latte" and
    "latte" overlap, and the cart holds the one line of the Pumpkin Spice
    Latte. *)
Theorem mention_finder_longest_alias_wins :
  (forall (self : CartNormalizer.t) (text : string),
      let candidates :=
        CartNormalizer.sort_mentions (CartNormalizer.found_mentions self text) in
      let mentions := CartNormalizer.filter_mentions candidates in
      (forall m, In m candidates <->
                 exists alias item,
                   In (alias, item) (CartNormalizer.alias_map self)
                   /\ In (m_start m, m_end m) (PyRe.finditer_word alias text)
                   /\ m_alias m = alias /\ m_item m = item)
      /\ StronglySorted by_start candidates
      /\ mentions = fold_left longest_alias_wins candidates []
      /\ (forall k c a b,
             nth_error candidates k = Some c ->
             In a (accepted_before k candidates) ->
             In b (accepted_before k candidates) ->
             intersects c a = true -> intersects c b = true -> a = b)
      /\ ForallOrdPairs apart mentions
      /\ incl mentions candidates)
  /\ (map span_alias_sku
          (CartNormalizer.sort_mentions
             (CartNormalizer.found_mentions large_normalizer
                "a pumpkin spice latte"))
      = [(2, 15, "pumpkin spice", "DON001");
         (2, 21, "pumpkin spice latte", "COF002");
         (16, 21, "latte", "COF005")]
      /\ CartNormalizer.parse_order large_normalizer "a pumpkin spice latte"
         = inr (Cart.mk [CartItem.mk "COF002" "Pumpkin Spice Latte" 1
                                     (Some "medium") [] (lit 509 100)]
                        (lit 509 100))).
Proof.
  split; [|split; vm_compute; reflexivity].
  intros self text candidates mentions.
  destruct (sort_mentions_sorted (CartNormalizer.found_mentions self text))
    as [Hsorted Hperm].
  fold candidates in Hsorted, Hperm.
  destruct (filter_mentions_from candidates [] Hsorted (FOP_nil _))
    as (Heq & Hapart & Hincl); [intros ? ? []|].
  split.
  { intros m. rewrite <- found_mentions_In. split; intros Hm.
    - now apply (Permutation_in _ Hperm).
    - now apply (Permutation_in _ (Permutation_sym Hperm)). }
  split; [exact Hsorted|].
  split; [exact Heq|].
  split.
  { intros k c a b Hk Ha Hb Hca Hcb.
    pose proof (firstn_skipn k candidates) as Hsplit.
    assert (Hc : In c (skipn k candidates)).
    { clear - Hk. revert k Hk. induction candidates as [|y l IH];
        intros [|k] Hk; simpl in *; try discriminate.
      - inversion Hk. now left.
      - auto. }
    rewrite <- Hsplit in Hsorted. apply sorted_app_inv in Hsorted.
    destruct Hsorted as [Hpre Hcross].
    destruct (filter_mentions_from (firstn k candidates) [] Hpre (FOP_nil _))
      as (_ & Hap & Hin); [intros ? ? []|].
    apply (one_hit_at_most (accepted_before k candidates) c);
      try assumption.
    intros x Hx. apply Hcross; [|exact Hc]. apply Hin in Hx. exact Hx. }
  unfold mentions, CartNormalizer.filter_mentions. rewrite Heq.
  split; [exact Hapart | exact Hincl].
Qed.

(** ** [exact_match] and the order of the items *)

(** C9. A cart with two lines of the same item, of quantities 1 and 2,
    does not match the cart with the same lines in reversed order: the
    sort key leaves the quantity out and the sort is stable, so both lists
    keep their order and the first pair differs in quantity. *)
Theorem exact_match_reversed_unmerged_cart :
  CartEvaluator.exact_match
    (Cart.mk two_lines_of_one_item (lit 387 100))
    (Cart.mk (rev two_lines_of_one_item) (lit 387 100))
  = inr false.
Proof. vm_compute. reflexivity. Qed.

(** ** Sorting with a strict order *)

Section StrictSort.
Context {A K : Type}.
Variable key : A -> K.
Variable lt : A -> A -> bool.
Hypothesis lt_irrefl : forall a, lt a a = false.
Hypothesis lt_trans :
  forall a b c, lt a b = true -> lt b c = true -> lt a c = true.
Hypothesis lt_total :
  forall a b, key a = key b \/ lt a b = true \/ lt b a = true.

Let before (a b : A) : Prop := lt a b = true.

Lemma strict_insert_In z x l : In z (PySort.insert lt x l) <-> z = x \/ In z l.
Proof.
  induction l as [|y l IH]; simpl; [intuition congruence|].
  destruct (lt x y); simpl; [intuition congruence|].
  rewrite IH. intuition congruence.
Qed.

Lemma strict_insert_perm x l : Permutation (PySort.insert lt x l) (x :: l).
Proof.
  induction l as [|y l IH]; simpl; [apply Permutation_refl|].
  destruct (lt x y); [apply Permutation_refl|].
  apply (Permutation_trans (perm_skip y IH)), perm_swap.
Qed.

Lemma strict_insert_sorted x l :
  ~ In (key x) (map key l) ->
  StronglySorted before l ->
  StronglySorted before (PySort.insert lt x l).
Proof.
  induction l as [|y l IH]; simpl; intros Hkey Hl.
  - constructor; constructor.
  - inversion Hl as [|? ? Hl' Hy]; subst.
    destruct (lt x y) eqn:Hxy.
    + constructor; [exact Hl|]. constructor; [exact Hxy|].
      rewrite Forall_forall in *. intros z Hz.
      exact (lt_trans _ _ _ Hxy (Hy z Hz)).
    + constructor; [apply IH; [tauto | exact Hl']|].
      rewrite Forall_forall in *. intros z Hz.
      apply strict_insert_In in Hz. destruct Hz as [->|Hz]; [|auto].
      destruct (lt_total x y) as [Heq|[Hlt|Hgt]];
        [exfalso; apply Hkey; left; congruence | congruence | exact Hgt].
Qed.

Lemma strict_sorted_from l : forall acc,
  NoDup (map key (acc ++ l)) ->
  StronglySorted before acc ->
  StronglySorted before (fold_left (fun acc x => PySort.insert lt x acc) l acc)
  /\ Permutation (fold_left (fun acc x => PySort.insert lt x acc) l acc)
                 (acc ++ l).
Proof.
  induction l as [|x l IH]; simpl; intros acc Hnd Hacc.
  - rewrite app_nil_r. split; [exact Hacc | apply Permutation_refl].
  - assert (Hperm : Permutation (PySort.insert lt x acc ++ l) (acc ++ x :: l)).
    { apply (Permutation_trans
               (Permutation_app_tail l (strict_insert_perm x acc))).
      apply Permutation_middle. }
    destruct (IH (PySort.insert lt x acc)) as [Hs Hp].
    + apply (Permutation_NoDup (l := map key (acc ++ x :: l)));
        [|exact Hnd].
      apply Permutation_map, Permutation_sym, Hperm.
    + apply strict_insert_sorted; [|exact Hacc].
      rewrite map_app in Hnd. simpl in Hnd.
      apply NoDup_remove_2 in Hnd. intros Hin. apply Hnd.
      apply in_app_iff. now left.
    + split; [exact Hs | exact (Permutation_trans Hp Hperm)].
Qed.

(** A list has one arrangement in strictly ascending order. *)
Lemma strict_sorted_unique s1 : forall s2,
  StronglySorted before s1 -> StronglySorted before s2 ->
  Permutation s1 s2 -> s1 = s2.
Proof.
  induction s1 as [|a s1 IH]; intros s2 H1 H2 Hp.
  - apply Permutation_nil in Hp. now subst.
  - destruct s2 as [|b s2].
    + apply Permutation_sym, Permutation_nil in Hp. discriminate.
    + inversion H1 as [|? ? H1' Ha]; inversion H2 as [|? ? H2' Hb]; subst.
      rewrite Forall_forall in Ha, Hb.
      assert (Hab : a = b).
      { assert (Hina : In a (b :: s2))
          by (apply (Permutation_in _ Hp); now left).
        assert (Hinb : In b (a :: s1))
          by (apply (Permutation_in _ (Permutation_sym Hp)); now left).
        destruct Hina as [->|Hina]; [reflexivity|].
        destruct Hinb as [->|Hinb]; [reflexivity|].
        specialize (Ha b Hinb). specialize (Hb a Hina). unfold before in *.
        pose proof (lt_trans _ _ _ Ha Hb) as Haa.
        rewrite lt_irrefl in Haa. discriminate. }
      subst b. f_equal. apply IH; [assumption | assumption |].
      now apply Permutation_cons_inv in Hp.
Qed.

(** Lists with pairwise distinct keys are sorted alike in any order. *)
Lemma strict_sorted_perm l1 l2 :
  NoDup (map key l1) -> Permutation l1 l2 ->
  PySort.sorted lt l1 = PySort.sorted lt l2.
Proof.
  intros Hnd Hp. unfold PySort.sorted.
  destruct (strict_sorted_from l1 []) as [Hs1 Hp1];
    [exact Hnd | constructor |].
  destruct (strict_sorted_from l2 []) as [Hs2 Hp2];
    [|constructor|].
  - simpl. apply (Permutation_NoDup (l := map key l1)); [|exact Hnd].
    now apply Permutation_map.
  - apply strict_sorted_unique; [exact Hs1 | exact Hs2 |].
    simpl in Hp1, Hp2.
    exact (Permutation_trans Hp1 (Permutation_trans Hp (Permutation_sym Hp2))).
Qed.

End StrictSort.

(** ** The order of strings and of sort keys *)

Lemma ascii_compare_refl c : Ascii.compare c c = Eq.
Proof. apply N.compare_refl. Qed.

Lemma ascii_compare_lt_trans a b c :
  Ascii.compare a b = Lt -> Ascii.compare b c = Lt -> Ascii.compare a c = Lt.
Proof.
  unfold Ascii.compare. rewrite !N.compare_lt_iff. apply N.lt_trans.
Qed.

Lemma string_compare_refl s : String.compare s s = Eq.
Proof.
  induction s as [|c s IH]; simpl; [reflexivity|].
  now rewrite ascii_compare_refl.
Qed.

Lemma string_compare_lt_trans a : forall b c,
  String.compare a b = Lt -> String.compare b c = Lt ->
  String.compare a c = Lt.
Proof.
  induction a as [|x a IH]; intros [|y b] [|z c]; simpl;
    try discriminate; try reflexivity.
  destruct (Ascii.compare x y) eqn:Hxy; try discriminate;
    destruct (Ascii.compare y z) eqn:Hyz; try discriminate; intros Hab Hbc.
  - apply Ascii.compare_eq_iff in Hxy, Hyz. subst.
    rewrite ascii_compare_refl. now apply (IH b c).
  - apply Ascii.compare_eq_iff in Hxy. subst. now rewrite Hyz.
  - apply Ascii.compare_eq_iff in Hyz. subst. now rewrite Hxy.
  - now rewrite (ascii_compare_lt_trans _ _ _ Hxy Hyz).
Qed.

Lemma string_ltb_irrefl s : PyStr.ltb s s = false.
Proof. unfold PyStr.ltb, String.ltb. now rewrite string_compare_refl. Qed.

Lemma string_ltb_lt a b : PyStr.ltb a b = true <-> String.compare a b = Lt.
Proof.
  unfold PyStr.ltb, String.ltb.
  destruct (String.compare a b); split; congruence.
Qed.

Lemma string_ltb_trans a b c :
  PyStr.ltb a b = true -> PyStr.ltb b c = true -> PyStr.ltb a c = true.
Proof. rewrite !string_ltb_lt. apply string_compare_lt_trans. Qed.

Lemma string_ltb_total a b :
  a = b \/ PyStr.ltb a b = true \/ PyStr.ltb b a = true.
Proof.
  rewrite !string_ltb_lt, (String.compare_antisym b a).
  destruct (String.compare a b) eqn:Hab; simpl; auto.
  left. now apply String.compare_eq_iff.
Qed.

Lemma tuple_ltb_irrefl l : CartEvaluator.tuple_ltb l l = false.
Proof.
  induction l as [|x l IH]; simpl; [reflexivity|].
  now rewrite String.eqb_refl.
Qed.

Lemma tuple_ltb_trans a : forall b c,
  CartEvaluator.tuple_ltb a b = true -> CartEvaluator.tuple_ltb b c = true ->
  CartEvaluator.tuple_ltb a c = true.
Proof.
  induction a as [|x a IH]; intros [|y b] [|z c]; simpl;
    try discriminate; try reflexivity.
  destruct (String.eqb_spec x y) as [->|Hxy];
    destruct (String.eqb_spec y z) as [->|Hyz]; intros Hab Hbc.
  - now apply (IH b c).
  - exact Hbc.
  - destruct (String.eqb_spec x z) as [->|_]; [contradiction | exact Hab].
  - destruct (String.eqb_spec x z) as [->|_].
    + pose proof (string_ltb_trans _ _ _ Hab Hbc) as H.
      now rewrite string_ltb_irrefl in H.
    + exact (string_ltb_trans _ _ _ Hab Hbc).
Qed.

Lemma tuple_ltb_total a : forall b,
  a = b \/ CartEvaluator.tuple_ltb a b = true
  \/ CartEvaluator.tuple_ltb b a = true.
Proof.
  induction a as [|x a IH]; intros [|y b]; simpl; auto.
  destruct (String.eqb_spec x y) as [->|Hxy].
  - rewrite String.eqb_refl.
    destruct (IH b) as [->|[H|H]]; auto.
  - destruct (String.eqb_spec y x) as [->|_]; [contradiction|].
    destruct (string_ltb_total x y) as [H|[H|H]]; [contradiction | auto | auto].
Qed.

Lemma sort_key_ltb_irrefl a : sort_key_ltb a a = false.
Proof.
  unfold sort_key_ltb. rewrite String.eqb_refl. simpl.
  destruct (CartItem.size a) as [x|].
  - rewrite String.eqb_refl. apply tuple_ltb_irrefl.
  - apply tuple_ltb_irrefl.
Qed.

Lemma sort_key_ltb_trans a b c :
  sort_key_ltb a b = true -> sort_key_ltb b c = true ->
  sort_key_ltb a c = true.
Proof.
  unfold sort_key_ltb.
  destruct (String.eqb_spec (CartItem.sku a) (CartItem.sku b)) as [Hab|Hab];
    destruct (String.eqb_spec (CartItem.sku b) (CartItem.sku c)) as [Hbc|Hbc];
    simpl.
  - rewrite Hab, Hbc, String.eqb_refl. simpl.
    destruct (CartItem.size a) as [x|], (CartItem.size b) as [y|],
      (CartItem.size c) as [z|]; try discriminate; try reflexivity;
      try apply tuple_ltb_trans.
    destruct (String.eqb_spec x y) as [->|Hxy];
      destruct (String.eqb_spec y z) as [->|Hyz]; intros H1 H2.
    + now apply (tuple_ltb_trans _ _ _ H1 H2).
    + exact H2.
    + destruct (String.eqb_spec x z) as [->|_]; [contradiction | exact H1].
    + destruct (String.eqb_spec x z) as [->|_].
      * pose proof (string_ltb_trans _ _ _ H1 H2) as H.
        now rewrite string_ltb_irrefl in H.
      * exact (string_ltb_trans _ _ _ H1 H2).
  - rewrite Hab. destruct (String.eqb_spec (CartItem.sku b) (CartItem.sku c));
      [contradiction|]. simpl. auto.
  - rewrite <- Hbc. destruct (String.eqb_spec (CartItem.sku a) (CartItem.sku b));
      [contradiction|]. simpl. auto.
  - intros H1 H2.
    destruct (String.eqb_spec (CartItem.sku a) (CartItem.sku c)) as [Hac|_];
      simpl.
    + rewrite Hac in H1. pose proof (string_ltb_trans _ _ _ H1 H2) as H.
      rewrite <- Hac in H at 1. 
      pose proof (string_ltb_trans _ _ _ H2 H1) as H'.
      now rewrite string_ltb_irrefl in H'.
    + exact (string_ltb_trans _ _ _ H1 H2).
Qed.

Lemma sort_key_ltb_total a b :
  sort_key a = sort_key b \/ sort_key_ltb a b = true \/ sort_key_ltb b a = true.
Proof.
  unfold sort_key, sort_key_ltb.
  destruct (String.eqb_spec (CartItem.sku a) (CartItem.sku b)) as [Hab|Hab].
  - rewrite Hab, String.eqb_refl. simpl.
    destruct (CartItem.size a) as [x|], (CartItem.size b) as [y|]; auto.
    + destruct (String.eqb_spec x y) as [->|Hxy].
      * rewrite String.eqb_refl.
        destruct (tuple_ltb_total (CartItem.modifiers a) (CartItem.modifiers b))
          as [->|[H|H]]; auto.
      * destruct (String.eqb_spec y x) as [->|_]; [contradiction|].
        destruct (string_ltb_total x y) as [H|[H|H]]; [contradiction| |]; auto.
    + destruct (tuple_ltb_total (CartItem.modifiers a) (CartItem.modifiers b))
        as [->|[H|H]]; auto.
  - destruct (String.eqb_spec (CartItem.sku b) (CartItem.sku a)) as [Hba|_];
      [congruence|]. simpl.
    destruct (string_ltb_total (CartItem.sku a) (CartItem.sku b))
      as [H|[H|H]]; [contradiction| |]; auto.
Qed.

(** On comparable lines the comparison of the sort does not raise. *)
Lemma sort_key_lt_comparable a b :
  comparable a b ->
  CartEvaluator.sort_key_lt a b = inr (sort_key_ltb a b).
Proof.
  unfold comparable, CartEvaluator.sort_key_lt, sort_key_ltb.
  destruct (String.eqb_spec (CartItem.sku a) (CartItem.sku b)) as [Hab|Hab];
    simpl; [|reflexivity].
  intros H. specialize (H Hab).
  destruct (CartItem.size a) as [x|], (CartItem.size b) as [y|].
  - now destruct (String.eqb x y).
  - exfalso. destruct H as [_ H]. specialize (H eq_refl). discriminate.
  - exfalso. destruct H as [H _]. specialize (H eq_refl). discriminate.
  - reflexivity.
Qed.

Lemma insertM_comparable x l :
  (forall y, In y l -> comparable x y) ->
  PySort.insertM CartEvaluator.sort_key_lt x l
  = inr (PySort.insert sort_key_ltb x l).
Proof.
  induction l as [|y l IH]; simpl; intros H; [reflexivity|].
  rewrite (sort_key_lt_comparable x y) by (apply H; now left). simpl.
  destruct (sort_key_ltb x y); [reflexivity|].
  rewrite IH by (intros z Hz; apply H; now right). reflexivity.
Qed.

Lemma sortedM_from_comparable l : forall acc,
  (forall a b, In a (acc ++ l) -> In b (acc ++ l) -> comparable a b) ->
  PySort.sortedM_from CartEvaluator.sort_key_lt acc l
  = inr (fold_left (fun acc x => PySort.insert sort_key_ltb x acc) l acc).
Proof.
  induction l as [|x l IH]; simpl; intros acc H; [reflexivity|].
  rewrite insertM_comparable.
  - simpl. apply IH.
    assert (Hin : forall a, In a (PySort.insert sort_key_ltb x acc ++ l) ->
                            In a (acc ++ x :: l)).
    { intros a Ha. apply in_app_iff in Ha. apply in_app_iff. simpl.
      destruct Ha as [Ha|Ha]; [|auto].
      apply strict_insert_In in Ha. destruct Ha as [->|Ha]; auto. }
    intros a b Ha Hb. apply H; apply Hin; assumption.
  - intros y Hy. apply H; apply in_app_iff; simpl; auto.
Qed.

Lemma sortedM_comparable l :
  (forall a b, In a l -> In b l -> comparable a b) ->
  PySort.sortedM CartEvaluator.sort_key_lt l
  = inr (PySort.sorted sort_key_ltb l).
Proof. intros H. apply (sortedM_from_comparable l []). exact H. Qed.

Lemma same_set_refl l : CartItem.same_set l l = true.
Proof.
  unfold CartItem.same_set.
  assert (H : forallb (fun x => PyStr.mem x l) l = true).
  { apply forallb_forall. intros x Hx. unfold PyStr.mem.
    apply existsb_exists. exists x. split; [exact Hx | apply String.eqb_refl]. }
  now rewrite H.
Qed.

Lemma differ_same a : CartEvaluator.differ a a = false.
Proof.
  unfold CartEvaluator.differ.
  rewrite String.eqb_refl, Z.eqb_refl, same_set_refl.
  assert (H : option_eqb (CartItem.size a) (CartItem.size a) = true)
    by now apply option_eqb_eq.
  now rewrite H.
Qed.

Lemma no_difference_with_itself l :
  existsb (fun ae => CartEvaluator.differ (fst ae) (snd ae)) (combine l l)
  = false.
Proof.
  induction l as [|a l IH]; simpl; [reflexivity|].
  now rewrite differ_same, IH.
Qed.

(** X4. Where the sort keys of a cart are pairwise distinct, and no SKU has
    lines with and without a size, [exact_match] accepts every
    rearrangement of the cart, the reversed one among them. *)
Theorem exact_match_rearranged_distinct_keys :
  forall (items items' : list CartItem.t) (total total' : F64.float),
    NoDup (map sort_key items) ->
    (forall a b, In a items -> In b items -> comparable a b) ->
    Permutation items items' ->
    CartEvaluator.exact_match (Cart.mk items total) (Cart.mk items' total')
    = inr true.
Proof.
  intros items items' total total' Hnd Hcmp Hperm.
  unfold CartEvaluator.exact_match. simpl.
  rewrite (Permutation_length Hperm), Nat.eqb_refl. simpl.
  rewrite (sortedM_comparable items Hcmp).
  rewrite (sortedM_comparable items').
  - simpl.
    rewrite (strict_sorted_perm sort_key sort_key_ltb sort_key_ltb_irrefl
               sort_key_ltb_trans sort_key_ltb_total items items' Hnd Hperm).
    now rewrite no_difference_with_itself.
  - intros a b Ha Hb.
    apply Hcmp; apply (Permutation_in _ (Permutation_sym Hperm)); assumption.
Qed.

Lemma exact_match_rearranged_distinct_keys_witness :
  CartEvaluator.exact_match
    (Cart.mk (Cart.merged_items (Cart.items unmerged_order)) price_4_18)
    (Cart.mk (rev (Cart.merged_items (Cart.items unmerged_order))) price_4_18)
  = inr true.
Proof.
  apply exact_match_rearranged_distinct_keys.
  - vm_compute. repeat constructor; simpl; intuition discriminate.
  - intros a b Ha Hb Hsku. vm_compute in Ha, Hb.
    destruct Ha as [<-|[<-|[]]], Hb as [<-|[<-|[]]]; simpl in *;
      try discriminate; split; intros; try discriminate; reflexivity.
  - apply Permutation_rev.
Defined.

(** ** Removing and updating lines of a cart *)

Lemma in_range_spec cart index :
  Cart.in_range cart index = true
  <-> (0 <= index < Z.of_nat (List.length (Cart.items cart)))%Z.
Proof.
  unfold Cart.in_range. rewrite andb_true_iff, Z.leb_le, Z.ltb_lt. tauto.
Qed.

(** X1. An index below 0 or not below the number of lines is ignored by
    [remove_item] and by [update_item]: the cart comes back as it was
    (a negative index does not count from the end). *)
Theorem cart_index_out_of_range :
  forall (cart : Cart.t) (index : Z) (item : CartItem.t),
    (index < 0 \/ Z.of_nat (List.length (Cart.items cart)) <= index)%Z ->
    Cart.remove_item cart index = inr cart
    /\ Cart.update_item cart index item = inr cart.
Proof.
  intros cart index item H.
  assert (Hr : Cart.in_range cart index = false).
  { destruct (Cart.in_range cart index) eqn:E; [|reflexivity].
    apply in_range_spec in E. lia. }
  unfold Cart.remove_item, Cart.update_item. rewrite Hr. split; reflexivity.
Qed.

Lemma cart_index_out_of_range_witness :
  Cart.remove_item one_donut (-1) = inr one_donut
  /\ Cart.update_item one_donut 1 medium_coffee = inr one_donut.
Proof.
  split.
  - apply (cart_index_out_of_range one_donut (-1) medium_coffee). left. lia.
  - apply (cart_index_out_of_range one_donut 1 medium_coffee). right.
    simpl. lia.
Defined.

Lemma firstn_skipn_last {A} (l : list A) (x : A) :
  firstn (List.length l) (l ++ [x]) ++ skipn (S (List.length l)) (l ++ [x]) = l.
Proof.
  induction l as [|y l IH]; simpl; [reflexivity|].
  f_equal. exact IH.
Qed.

(** X2. Removing the line that [add_item] has just appended gives back
    the lines of the cart; the total becomes (total + p) - p for the line
    total p, which need not be the former total: for a cart with one
    doughnut at 1.09, adding and removing a coffee at 2.09 leaves
    1.0899999999999999. *)
Theorem add_then_remove_item :
  (forall (cart added : Cart.t) (item : CartItem.t),
      Cart.add_item cart item = inr added ->
      exists p,
        Cart.line_total item = inr p
        /\ Cart.remove_item added (Z.of_nat (List.length (Cart.items cart)))
           = inr (Cart.mk (Cart.items cart)
                          (F64.sub (F64.add (Cart.total cart) p) p)))
  /\ (added <- Cart.add_item one_donut medium_coffee ;;
      Cart.remove_item added 1)
     = inr (Cart.mk (Cart.items one_donut)
                    (S754_finite false 4908923593833840 (-52)))
  /\ S754_finite false 4908923593833840 (-52) <> Cart.total one_donut.
Proof.
  split; [|split; [vm_compute; reflexivity | vm_compute; discriminate]].
  intros cart added item. unfold Cart.add_item.
  destruct (Cart.line_total item) as [e|p] eqn:Hp; simpl; [discriminate|].
  intros H. inversion H; subst added; clear H.
  exists p. split; [reflexivity|].
  unfold Cart.remove_item, Cart.in_range. simpl.
  rewrite length_app. simpl.
  assert (Hr : ((0 <=? Z.of_nat (List.length (Cart.items cart)))%Z
                && (Z.of_nat (List.length (Cart.items cart))
                    <? Z.of_nat (List.length (Cart.items cart) + 1))%Z) = true).
  { apply andb_true_iff. rewrite Z.leb_le, Z.ltb_lt. lia. }
  rewrite Hr, Nat2Z.id.
  rewrite nth_error_app2, Nat.sub_diag by lia. simpl.
  rewrite Hp. simpl.
  change (match Cart.items cart ++ [item] with
          | [] => []
          | _ :: l => skipn (List.length (Cart.items cart)) l
          end)
    with (skipn (S (List.length (Cart.items cart))) (Cart.items cart ++ [item])).
  now rewrite firstn_skipn_last.
Qed.

Lemma add_then_remove_item_witness :
  exists p,
    Cart.line_total medium_coffee = inr p
    /\ Cart.remove_item (Cart.mk (Cart.items one_donut ++ [medium_coffee])
                                 (F64.add (Cart.total one_donut) price_2_09)) 1
       = inr (Cart.mk (Cart.items one_donut)
                      (F64.sub (F64.add (Cart.total one_donut) p) p)).
Proof.
  apply (proj1 add_then_remove_item one_donut
           (Cart.mk (Cart.items one_donut ++ [medium_coffee]) (F64.add (Cart.total one_donut) price_2_09))
           medium_coffee).
  vm_compute. reflexivity.
Defined.

(** X3. With an index in range, [update_item] puts the new item at that
    index and leaves every other line, and the number of lines, as they
    were. *)
Theorem update_item_replaces_one_line :
  forall (cart updated : Cart.t) (i : nat) (item : CartItem.t),
    i < List.length (Cart.items cart) ->
    Cart.update_item cart (Z.of_nat i) item = inr updated ->
    List.length (Cart.items updated) = List.length (Cart.items cart)
    /\ nth_error (Cart.items updated) i = Some item
    /\ forall j, j <> i ->
         nth_error (Cart.items updated) j = nth_error (Cart.items cart) j.
Proof.
  intros cart updated i item Hi. unfold Cart.update_item.
  assert (Hr : Cart.in_range cart (Z.of_nat i) = true)
    by (apply in_range_spec; lia).
  rewrite Hr, Nat2Z.id.
  destruct (nth_error (Cart.items cart) i) as [old|] eqn:Hold;
    [|apply nth_error_None in Hold; lia].
  remember (skipn (S i) (Cart.items cart)) as rest eqn:Hrest.
  assert (Hrestlen : List.length rest = List.length (Cart.items cart) - S i)
    by (subst rest; apply length_skipn).
  destruct (Cart.line_total old) as [e|p_old]; simpl; [discriminate|].
  destruct (Cart.line_total item) as [e|p]; simpl; [discriminate|].
  intros H. inversion H; subst updated; clear H. cbn [Cart.items].
  assert (Hlen : List.length (firstn i (Cart.items cart)) = i)
    by (rewrite length_firstn; lia).
  split; [|split].
  - rewrite length_app, Hlen. cbn [List.length]. lia.
  - rewrite nth_error_app2, Hlen, Nat.sub_diag by lia. reflexivity.
  - intros j Hj. destruct (Nat.lt_ge_cases j i) as [Hlt|Hge].
    + rewrite nth_error_app1 by lia.
      now rewrite nth_error_firstn, (proj2 (Nat.ltb_lt j i) Hlt).
    + rewrite nth_error_app2 by lia. rewrite Hlen.
      destruct (j - i) as [|k] eqn:Hk; [lia|]. cbn [nth_error].
      subst rest. rewrite nth_error_skipn. f_equal. lia.
Qed.

Lemma update_item_replaces_one_line_witness :
  nth_error
    (Cart.items (Cart.mk [medium_coffee] price_2_09)) 0
  = Some medium_coffee.
Proof.
  assert (H : Cart.update_item one_donut (Z.of_nat 0) medium_coffee
              = inr (Cart.mk [medium_coffee] price_2_09)).
  { vm_compute. reflexivity. }
  exact (proj1 (proj2 (update_item_replaces_one_line one_donut _ 0
                         medium_coffee ltac:(simpl; lia) H))).
Defined.

(** ** The rows and the summary of a run *)

Lemma run_scenario_row results scenario rows :
  Evaluate.run_scenario results scenario = inr rows ->
  exists row, rows = results ++ [row] /\ row_of scenario row.
Proof.
  unfold Evaluate.run_scenario.
  destruct (CartNormalizer.parse_order _ _) as [e|cart] eqn:Hparse; simpl;
    [discriminate|].
  destruct (CartEvaluator.exact_match _ _) as [e|exact] eqn:Hexact; simpl;
    [discriminate|].
  destruct (CartEvaluator.calculate_f1 _ _) as [e|f1] eqn:Hf1; simpl;
    [discriminate|].
  destruct (CartEvaluator.calculate_item_accuracy _ _) as [e|acc] eqn:Hacc;
    simpl; [discriminate|].
  intros H. inversion H; subst rows; clear H.
  unfold Evaluate.add_result. eexists. split; [reflexivity|].
  exists cart. rewrite Hparse. simpl. repeat split; assumption.
Qed.

Lemma run_scenarios_rows scenarios : forall results rows,
  Evaluate.run_scenarios results scenarios = inr rows ->
  exists new, rows = results ++ new /\ Forall2 row_of scenarios new.
Proof.
  induction scenarios as [|scenario scenarios IH]; simpl; intros results rows H.
  - inversion H. exists []. now rewrite app_nil_r.
  - destruct (Evaluate.run_scenario results scenario) as [e|results'] eqn:Hrun;
      simpl in H; [discriminate|].
    destruct (run_scenario_row _ _ _ Hrun) as (row & -> & Hrow).
    destruct (IH _ _ H) as (new & -> & Hnew).
    exists (row :: new). rewrite <- app_assoc. simpl. auto.
Qed.

Lemma run_evaluation_rows scenarios rows :
  Evaluate.run_evaluation scenarios = inr rows -> Forall2 row_of scenarios rows.
Proof.
  intros H.
  destruct (run_scenarios_rows _ _ _ H) as (new & -> & Hnew). exact Hnew.
Qed.

(** X5. When [run_evaluation] gets through its loop, the report holds one
    row for each scenario, in the order of the scenarios: the row carries
    the identifier, the description, the menu name and the transcript of
    its scenario, the expected cart and the parsed cart as [to_dict] gives
    them, and the three scores of the parsed cart against the expected
    one. *)
Theorem run_evaluation_one_row_per_scenario :
  forall (scenarios : list Evaluate.TestScenario)
         (rows : list Evaluate.result_row),
    Evaluate.run_evaluation scenarios = inr rows ->
    Forall2 row_of scenarios rows.
Proof.
  exact run_evaluation_rows.
Qed.

Lemma run_evaluation_one_row_per_scenario_witness :
  Forall2 row_of [scenario_a_coffee; scenario_a_latte]
    (Evaluate.add_result
       (Evaluate.add_result [] scenario_a_coffee
          (Evaluate.expected_cart scenario_a_coffee)
          (Evaluate.mk_metrics true F64.one F64.one))
       scenario_a_latte
       (Evaluate.expected_cart scenario_a_latte)
       (Evaluate.mk_metrics true F64.one F64.one)).
Proof.
  apply (run_evaluation_one_row_per_scenario
           [scenario_a_coffee; scenario_a_latte]).
  vm_compute. reflexivity.
Defined.

Lemma rows_menus scenarios rows :
  Forall2 row_of scenarios rows ->
  map Evaluate.r_menu rows = map Evaluate.menu scenarios.
Proof.
  induction 1 as [|scenario row scenarios rows Hrow _ IH]; simpl;
    [reflexivity|].
  destruct Hrow as (cart & _ & _ & _ & Hmenu & _). now rewrite Hmenu, IH.
Qed.

Lemma rows_of_menu_nil name rows :
  ~ In name (map Evaluate.r_menu rows) -> Evaluate.rows_of_menu name rows = [].
Proof.
  unfold Evaluate.rows_of_menu.
  induction rows as [|r rows IH]; simpl; intros Hnot; [reflexivity|].
  destruct (String.eqb_spec (Evaluate.r_menu r) name) as [Heq|Hne].
  - exfalso. apply Hnot. now left.
  - apply IH. intros Hin. apply Hnot. now right.
Qed.

Lemma rows_of_menu_In name rows r :
  In r (Evaluate.rows_of_menu name rows) -> Evaluate.r_menu r = name.
Proof.
  unfold Evaluate.rows_of_menu. intros H. apply filter_In in H.
  now apply String.eqb_eq.
Qed.

Lemma calculate_summary_totals rows s :
  Evaluate.calculate_summary rows = inr s ->
  Evaluate.total_scenarios s = Z.of_nat (List.length rows)
  /\ Evaluate.exact_matches s = Evaluate.count_exact rows
  /\ Evaluate.ms_total (Evaluate.small_menu s)
     = Z.of_nat (List.length (Evaluate.rows_of_menu "small" rows))
  /\ Evaluate.ms_exact_matches (Evaluate.small_menu s)
     = Evaluate.count_exact (Evaluate.rows_of_menu "small" rows)
  /\ Evaluate.ms_total (Evaluate.large_menu s)
     = Z.of_nat (List.length (Evaluate.rows_of_menu "large" rows))
  /\ Evaluate.ms_exact_matches (Evaluate.large_menu s)
     = Evaluate.count_exact (Evaluate.rows_of_menu "large" rows).
Proof.
  unfold Evaluate.calculate_summary, Evaluate.summarize_menu.
  destruct (Evaluate.rate _ _) as [e|r]; simpl; [discriminate|].
  destruct (Evaluate.average (map _ rows)) as [e|a1]; simpl; [discriminate|].
  destruct (Evaluate.average (map _ rows)) as [e|a2]; simpl; [discriminate|].
  destruct (Evaluate.average (map _ (Evaluate.rows_of_menu "small" rows)))
    as [e|a3]; simpl; [discriminate|].
  destruct (Evaluate.average (map _ (Evaluate.rows_of_menu "large" rows)))
    as [e|a4]; simpl; [discriminate|].
  intros H. inversion H; subst s; clear H. simpl. repeat split.
Qed.

Lemma int_truediv_by_zero a : F64.int_truediv a 0 = inl ZeroDivisionError.
Proof. destruct a; reflexivity. Qed.

Lemma mul_int_100 x : exists y, F64.mul_int x 100 = inr y.
Proof.
  unfold F64.mul_int.
  destruct (F64.of_int 100) as [e|f] eqn:Hf; [vm_compute in Hf; discriminate|].
  simpl. eauto.
Qed.

Lemma print_summary_small_empty s :
  Evaluate.ms_total (Evaluate.small_menu s) = 0%Z ->
  Evaluate.print_summary s = inl ZeroDivisionError.
Proof.
  intros H0. unfold Evaluate.print_summary, Evaluate.percentage.
  destruct (mul_int_100 (Evaluate.exact_match_rate s)) as (y & ->). simpl.
  rewrite H0, int_truediv_by_zero. reflexivity.
Qed.

Lemma print_summary_returns s :
  Evaluate.print_summary s = inr tt ->
  Evaluate.ms_total (Evaluate.small_menu s) <> 0%Z
  /\ Evaluate.ms_total (Evaluate.large_menu s) <> 0%Z.
Proof.
  intros H. split; intros H0.
  - rewrite (print_summary_small_empty _ H0) in H. discriminate.
  - revert H. unfold Evaluate.print_summary, Evaluate.percentage.
    destruct (F64.mul_int _ _) as [e|y]; simpl; [discriminate|].
    destruct (F64.int_truediv _ (Evaluate.ms_total (Evaluate.small_menu s)))
      as [e|q]; simpl; [discriminate|].
    rewrite H0, int_truediv_by_zero. simpl. discriminate.
Qed.

Lemma rows_of_menu_nonempty name scenarios rows :
  Forall2 row_of scenarios rows ->
  Z.of_nat (List.length (Evaluate.rows_of_menu name rows)) <> 0%Z ->
  exists scenario, In scenario scenarios /\ Evaluate.menu scenario = name.
Proof.
  intros Hrows Hlen.
  destruct (Evaluate.rows_of_menu name rows) as [|r rest] eqn:Hsel;
    [now elim Hlen|].
  assert (Hr : In r (Evaluate.rows_of_menu name rows))
    by (rewrite Hsel; now left).
  pose proof (rows_of_menu_In _ _ _ Hr) as Hname.
  apply filter_In in Hr. destruct Hr as [Hr _].
  assert (Hin : In name (map Evaluate.menu scenarios)).
  { rewrite <- (rows_menus _ _ Hrows), <- Hname. now apply in_map. }
  apply in_map_iff in Hin. destruct Hin as (scenario & Hm & Hin). eauto.
Qed.

(** X6. [print_summary] divides the exact matches of each menu by the
    number of its scenarios without looking at that number first.  A run
    therefore gets through its summary only when its scenarios name both
    the menu "small" and the menu "large"; a run without a scenario of
    the menu "small", such as one restricted to the large menu, ends in
    [ZeroDivisionError] once the loop and [calculate_summary] are
    through. *)
Theorem print_summary_needs_both_menus :
  (forall (scenarios : list Evaluate.TestScenario)
          (rows : list Evaluate.result_row) (s : Evaluate.summary),
      Evaluate.run_and_summarize scenarios = inr (rows, s) ->
      (exists scenario, In scenario scenarios
                        /\ Evaluate.menu scenario = "small")
      /\ (exists scenario, In scenario scenarios
                           /\ Evaluate.menu scenario = "large"))
  /\ (forall (scenarios : list Evaluate.TestScenario)
             (rows : list Evaluate.result_row) (s : Evaluate.summary),
         Evaluate.run_evaluation scenarios = inr rows ->
         Evaluate.calculate_summary rows = inr s ->
         (forall scenario, In scenario scenarios ->
                           Evaluate.menu scenario <> "small") ->
         Evaluate.run_and_summarize scenarios = inl ZeroDivisionError).
Proof.
  split; intros scenarios rows s.
  - unfold Evaluate.run_and_summarize.
    destruct (Evaluate.run_evaluation scenarios) as [e|rows'] eqn:Hrun; simpl;
      [discriminate|].
    destruct (Evaluate.calculate_summary rows') as [e|s'] eqn:Hsum; simpl;
      [discriminate|].
    destruct (Evaluate.print_summary s') as [e|[]] eqn:Hprint; simpl;
      [discriminate|].
    intros H. inversion H; subst rows' s'; clear H.
    pose proof (run_evaluation_rows _ _ Hrun) as Hrows.
    destruct (calculate_summary_totals _ _ Hsum)
      as (_ & _ & Hsmall & _ & Hlarge & _).
    destruct (print_summary_returns _ Hprint) as [Hs Hl].
    rewrite Hsmall in Hs. rewrite Hlarge in Hl.
    split; eapply rows_of_menu_nonempty; eassumption.
  - intros Hrun Hsum Hnone. unfold Evaluate.run_and_summarize.
    rewrite Hrun. simpl. rewrite Hsum. simpl.
    rewrite print_summary_small_empty; [reflexivity|].
    destruct (calculate_summary_totals _ _ Hsum) as (_ & _ & -> & _).
    rewrite rows_of_menu_nil; [reflexivity|].
    rewrite (rows_menus _ _ (run_evaluation_rows _ _ Hrun)).
    intros Hin. apply in_map_iff in Hin.
    destruct Hin as (scenario & Hm & Hin). exact (Hnone _ Hin Hm).
Qed.

Lemma print_summary_needs_both_menus_witness :
  ((exists scenario, In scenario [scenario_a_coffee; scenario_a_latte]
                     /\ Evaluate.menu scenario = "small")
   /\ (exists scenario, In scenario [scenario_a_coffee; scenario_a_latte]
                        /\ Evaluate.menu scenario = "large"))
  /\ Evaluate.run_and_summarize [scenario_a_latte] = inl ZeroDivisionError.
Proof.
  split.
  - eapply (proj1 print_summary_needs_both_menus
              [scenario_a_coffee; scenario_a_latte]).
    vm_compute. reflexivity.
  - eapply (proj2 print_summary_needs_both_menus [scenario_a_latte]).
    + vm_compute. reflexivity.
    + vm_compute. reflexivity.
    + intros scenario [<-|[]]. vm_compute. discriminate.
Defined.

Lemma filter_partition_length {A} (f : A -> bool) (l : list A) :
  List.length (filter f l) + List.length (filter (fun x => negb (f x)) l)
  = List.length l.
Proof.
  induction l as [|x l IH]; simpl; [reflexivity|].
  destruct (f x); simpl; lia.
Qed.

Lemma filter_length_le_sub {A} (f g : A -> bool) (l : list A) :
  List.length (filter f (filter g l)) <= List.length (filter f l).
Proof.
  induction l as [|x l IH]; simpl; [lia|].
  destruct (g x), (f x) eqn:Hf; simpl; rewrite ?Hf; simpl; lia.
Qed.

Lemma menu_partition_length rows :
  List.length (Evaluate.rows_of_menu "small" rows)
  + List.length (Evaluate.rows_of_menu "large" rows)
  + List.length (other_menu_rows rows)
  = List.length rows.
Proof.
  unfold Evaluate.rows_of_menu, other_menu_rows.
  induction rows as [|r rows IH]; simpl; [reflexivity|].
  destruct (String.eqb_spec (Evaluate.r_menu r) "small") as [Hs|Hs];
    destruct (String.eqb_spec (Evaluate.r_menu r) "large") as [Hl|Hl];
    simpl; try lia.
  congruence.
Qed.

Lemma count_exact_menus rows :
  (Evaluate.count_exact (Evaluate.rows_of_menu "small" rows)
   + Evaluate.count_exact (Evaluate.rows_of_menu "large" rows)
   <= Evaluate.count_exact rows)%Z.
Proof.
  unfold Evaluate.count_exact, Evaluate.rows_of_menu.
  rewrite <- Nat2Z.inj_add. apply Nat2Z.inj_le.
  induction rows as [|r rows IH]; simpl; [lia|].
  destruct (String.eqb_spec (Evaluate.r_menu r) "small") as [Hs|Hs];
    destruct (String.eqb_spec (Evaluate.r_menu r) "large") as [Hl|Hl];
    try congruence; simpl;
    destruct (Evaluate.exact_match (Evaluate.r_metrics r)); simpl; lia.
Qed.

(** X7. The counts of a summary.  [total_scenarios] is the number of rows,
    and the rows that [print_failures] lists are the rows that
    [exact_matches] does not count.  The two per-menu blocks count the rows
    whose menu name is exactly "small" or "large": together with the rows
    of any other name they make up the total, and their exact matches do
    not exceed the exact matches of the run.  [get_menu] on the other hand
    ignores the case of the name and falls back to the small menu, so a
    scenario of the menu "Small" is parsed with the small menu, matches,
    and is counted in neither block. *)
Theorem summary_counts :
  (forall (rows : list Evaluate.result_row) (s : Evaluate.summary),
      Evaluate.calculate_summary rows = inr s ->
      Evaluate.total_scenarios s = Z.of_nat (List.length rows)
      /\ (Evaluate.exact_matches s
          + Z.of_nat (List.length (Evaluate.failures rows))
          = Evaluate.total_scenarios s)%Z
      /\ (Evaluate.ms_total (Evaluate.small_menu s)
          + Evaluate.ms_total (Evaluate.large_menu s)
          + Z.of_nat (List.length (other_menu_rows rows))
          = Evaluate.total_scenarios s)%Z
      /\ (Evaluate.ms_exact_matches (Evaluate.small_menu s)
          + Evaluate.ms_exact_matches (Evaluate.large_menu s)
          <= Evaluate.exact_matches s)%Z)
  /\ get_menu "Small" = SMALL_MENU
  /\ exists rows s,
       Evaluate.run_evaluation [scenario_capital_small] = inr rows
       /\ Evaluate.calculate_summary rows = inr s
       /\ Evaluate.total_scenarios s = 1%Z
       /\ Evaluate.exact_matches s = 1%Z
       /\ Evaluate.ms_total (Evaluate.small_menu s) = 0%Z
       /\ Evaluate.ms_total (Evaluate.large_menu s) = 0%Z.
Proof.
  split; [|split; [reflexivity|]].
  - intros rows s Hsum.
    destruct (calculate_summary_totals _ _ Hsum)
      as (-> & -> & -> & -> & -> & ->).
    split; [reflexivity|]. split; [|split].
    + unfold Evaluate.count_exact, Evaluate.failures.
      rewrite <- Nat2Z.inj_add. f_equal. apply filter_partition_length.
    + rewrite <- !Nat2Z.inj_add. f_equal. apply menu_partition_length.
    + apply count_exact_menus.
  - eexists. eexists. split; [vm_compute; reflexivity|].
    split; [vm_compute; reflexivity|]. repeat split.
Qed.

Lemma summary_counts_witness :
  exists s,
    Evaluate.calculate_summary one_passed_row = inr s
    /\ (Evaluate.exact_matches s
        + Z.of_nat (List.length (Evaluate.failures one_passed_row))
        = Evaluate.total_scenarios s)%Z.
Proof.
  destruct (Evaluate.calculate_summary one_passed_row) as [e|s] eqn:H;
    [vm_compute in H; discriminate|].
  exists s. split; [reflexivity|].
  exact (proj1 (proj2 (proj1 summary_counts _ _ H))).
Defined.

(** ** A cart against itself *)

Lemma sort_key_lt_raises a b e :
  CartEvaluator.sort_key_lt a b = inl e -> e = TypeError.
Proof.
  unfold CartEvaluator.sort_key_lt.
  destruct (negb _); [discriminate|].
  destruct (CartItem.size a), (CartItem.size b);
    try destruct (String.eqb _ _); simpl; intros H;
    try discriminate; now inversion H.
Qed.

Lemma insertM_raises x l e :
  PySort.insertM CartEvaluator.sort_key_lt x l = inl e -> e = TypeError.
Proof.
  induction l as [|y l IH]; simpl; [discriminate|].
  destruct (CartEvaluator.sort_key_lt x y) as [e'|[|]] eqn:Hlt; simpl.
  - intros H. inversion H; subst. exact (sort_key_lt_raises _ _ _ Hlt).
  - discriminate.
  - destruct (PySort.insertM CartEvaluator.sort_key_lt x l) as [e'|r]; simpl;
      [|discriminate].
    intros H. inversion H; subst. now apply IH.
Qed.

Lemma sortedM_from_raises l : forall acc e,
  PySort.sortedM_from CartEvaluator.sort_key_lt acc l = inl e -> e = TypeError.
Proof.
  induction l as [|x l IH]; simpl; intros acc e; [discriminate|].
  destruct (PySort.insertM CartEvaluator.sort_key_lt x acc) as [e'|acc'] eqn:Hi;
    simpl.
  - intros H. inversion H; subst. exact (insertM_raises _ _ _ Hi).
  - apply IH.
Qed.

(** X8. [exact_match] never tells a cart from itself: the answer is [True],
    unless sorting the lines raises [TypeError].  It is [True] whenever no
    SKU has lines with and without a size; a cart with a sized and an
    unsized line of one SKU makes the comparison of the sort keys raise. *)
Theorem exact_match_with_itself :
  (forall cart : Cart.t,
      CartEvaluator.exact_match cart cart = inr true
      \/ CartEvaluator.exact_match cart cart = inl TypeError)
  /\ (forall cart : Cart.t,
         (forall a b, In a (Cart.items cart) -> In b (Cart.items cart) ->
                      comparable a b) ->
         CartEvaluator.exact_match cart cart = inr true)
  /\ CartEvaluator.exact_match sized_and_unsized sized_and_unsized
     = inl TypeError.
Proof.
  split; [|split; [|vm_compute; reflexivity]].
  - intros cart. unfold CartEvaluator.exact_match, PySort.sortedM.
    rewrite Nat.eqb_refl. simpl.
    destruct (PySort.sortedM_from CartEvaluator.sort_key_lt [] (Cart.items cart))
      as [e|l] eqn:Hsort; simpl.
    + right. now rewrite (sortedM_from_raises _ _ _ Hsort).
    + left. now rewrite no_difference_with_itself.
  - intros cart Hcmp. unfold CartEvaluator.exact_match.
    rewrite Nat.eqb_refl. simpl.
    rewrite (sortedM_comparable _ Hcmp). simpl.
    now rewrite no_difference_with_itself.
Qed.

Lemma exact_match_with_itself_witness :
  CartEvaluator.exact_match unmerged_order unmerged_order = inr true.
Proof.
  apply (proj1 (proj2 exact_match_with_itself)).
  intros a b Ha Hb Hsku. vm_compute in Ha, Hb.
  destruct Ha as [<-|[<-|[<-|[<-|[]]]]], Hb as [<-|[<-|[<-|[<-|[]]]]];
    simpl in *; try discriminate; split; intros; try discriminate; reflexivity.
Defined.

(** ** What the F1 score looks at *)

Lemma inter_within a b :
  (forall k, In k a -> In k b) -> KeySet.inter a b = a.
Proof.
  intros H. unfold KeySet.inter. apply forallb_filter_id.
  apply forallb_forall. intros k Hk. apply keyset_mem_In. auto.
Qed.

Lemma diff_within a b :
  (forall k, In k a -> In k b) -> KeySet.diff a b = [].
Proof.
  intros H. unfold KeySet.diff.
  induction a as [|k a IH]; simpl; [reflexivity|].
  assert (Hk : KeySet.mem k b = true) by (apply keyset_mem_In, H; now left).
  rewrite Hk. simpl. apply IH. intros k' Hk'. apply H. now right.
Qed.

Lemma keys_within_entries a e :
  keys_within a e ->
  forall k, In k (CartEvaluator.entries a) -> In k (CartEvaluator.entries e).
Proof.
  intros H k Hk. apply entries_In in Hk. destruct Hk as (x & Hx & Hq & ->).
  destruct (H x Hx Hq) as (y & Hy & Hqy & Hkey).
  apply entries_In. exists y. auto.
Qed.

(** X9. The F1 score compares the sets of keys (SKU, size, sorted
    modifiers) of the lines of positive quantity, and nothing else: when
    each cart has, for every such line of the other, a line of positive
    quantity with the same key, the score is 1.0.  Quantities do not
    count, so one coffee scores 1.0 against five of them, which
    [exact_match] rejects. *)
Theorem f1_ignores_quantities :
  (forall actual expected : Cart.t,
      keys_within actual expected -> keys_within expected actual ->
      CartEvaluator.calculate_f1 actual expected = inr F64.one)
  /\ CartEvaluator.calculate_f1 one_coffee five_coffees = inr F64.one
  /\ CartEvaluator.exact_match one_coffee five_coffees = inr false.
Proof.
  split; [|split; vm_compute; reflexivity].
  intros actual expected Hae Hea.
  pose proof (keys_within_entries _ _ Hae) as Hin.
  pose proof (keys_within_entries _ _ Hea) as Hin'.
  unfold CartEvaluator.calculate_f1.
  destruct (CartEvaluator.entries expected) as [|k s] eqn:He.
  - destruct (CartEvaluator.entries actual) as [|k' s']; [reflexivity|].
    destruct (Hin k'). now left.
  - rewrite (inter_within _ _ Hin), (diff_within _ _ Hin),
      (diff_within _ _ Hin').
    change (KeySet.len []) with 0%Z. rewrite Z.add_0_r.
    assert (Hlen : (0 < KeySet.len (CartEvaluator.entries actual))%Z).
    { destruct (CartEvaluator.entries actual) as [|k' s'].
      - destruct (Hin' k). now left.
      - unfold KeySet.len. simpl List.length. lia. }
    destruct (Z.ltb_spec 0 (KeySet.len (CartEvaluator.entries actual)))
      as [_|]; [|lia].
    rewrite (int_truediv_self _ Hlen). vm_compute. reflexivity.
Qed.

Lemma f1_ignores_quantities_witness :
  CartEvaluator.calculate_f1 five_coffees one_coffee = inr F64.one.
Proof.
  apply (proj1 f1_ignores_quantities).
  - intros x [<-|[]] _. exists medium_coffee.
    split; [now left|]. split; [reflexivity|]. reflexivity.
  - intros x [<-|[]] _. exists (CartItem.with_quantity medium_coffee 5).
    split; [now left|]. split; [reflexivity|]. reflexivity.
Defined.

(** ** What the item accuracy looks at *)

Section SortStrings.

Lemma sinsert_perm x l : Permutation (PySort.insert PyStr.ltb x l) (x :: l).
Proof.
  induction l as [|y l IH]; simpl; [apply Permutation_refl|].
  destruct (PyStr.ltb x y); [apply Permutation_refl|].
  apply Permutation_trans with (y :: x :: l);
    [now apply perm_skip | apply perm_swap].
Qed.





End SortStrings.




(** ** Dictionaries with string keys *)

Section StringDict.
Context {V : Type}.
Implicit Types (d : PyDict.dict string V) (k : string) (v : V).

Lemma sget_sset k k' v d :
  sget k (sset k' v d) = if String.eqb k' k then Some v else sget k d.
Proof.
  unfold sget, sset. induction d as [|[k0 v0] d IH]; simpl.
  - reflexivity.
  - destruct (String.eqb_spec k0 k') as [->|Hne]; simpl.
    + destruct (String.eqb k' k); reflexivity.
    + rewrite IH. destruct (String.eqb_spec k0 k) as [->|Hne'].
      * destruct (String.eqb_spec k' k) as [->|]; [congruence | reflexivity].
      * reflexivity.
Qed.

Lemma sset_keys k v d :
  map fst (sset k v d)
  = if PyStr.mem k (map fst d) then map fst d else map fst d ++ [k].
Proof.
  unfold sset, PyStr.mem. induction d as [|[k0 v0] d IH]; simpl.
  - reflexivity.
  - rewrite (String.eqb_sym k k0).
    destruct (String.eqb k0 k); simpl; [reflexivity|].
    rewrite IH. destruct (existsb (String.eqb k) (map fst d)); reflexivity.
Qed.

Lemma str_mem_In k (l : list string) : PyStr.mem k l = true <-> In k l.
Proof.
  unfold PyStr.mem. rewrite existsb_exists. split.
  - intros (x & Hx & Heq). apply String.eqb_eq in Heq. now subst.
  - intros H. exists k. split; [exact H | apply String.eqb_refl].
Qed.

Lemma sset_nodup k v d : NoDup (map fst d) -> NoDup (map fst (sset k v d)).
Proof.
  intros Hnd. rewrite sset_keys.
  destruct (PyStr.mem k (map fst d)) eqn:Hmem; [exact Hnd|].
  apply NoDup_app; [exact Hnd | repeat constructor; intros [] |].
  intros x Hx [<-|[]]. apply str_mem_In in Hx. congruence.
Qed.

Lemma sget_In k v d : sget k d = Some v -> In (k, v) d.
Proof.
  unfold sget. induction d as [|[k0 v0] d IH]; simpl; [discriminate|].
  destruct (String.eqb_spec k0 k) as [->|Hne].
  - intros H. inversion H. now left.
  - auto.
Qed.

Lemma In_sget k v d : NoDup (map fst d) -> In (k, v) d -> sget k d = Some v.
Proof.
  unfold sget. induction d as [|[k0 v0] d IH]; simpl; intros Hnd; [intros []|].
  inversion Hnd as [|? ? Hk0 Hnd']; subst.
  destruct (String.eqb_spec k0 k) as [->|Hne].
  - intros [H|H]; [now inversion H|].
    exfalso. apply Hk0. change k with (fst (k, v)). now apply in_map.
  - intros [H|H]; [inversion H; congruence | auto].
Qed.

(** The dictionary after a run of assignments [d[k] = v]: a key holds the
    value of the last assignment to it. *)
Lemma assignments_get (l : list (string * V)) : forall k d,
  sget k (fold_left (fun d kv => sset (fst kv) (snd kv) d) l d)
  = match find (fun kv => String.eqb (fst kv) k) (rev l) with
    | Some kv => Some (snd kv)
    | None => sget k d
    end.
Proof.
  induction l as [|kv l IH] using rev_ind; intros k d; [reflexivity|].
  rewrite fold_left_app, rev_app_distr. simpl.
  rewrite sget_sset. destruct (String.eqb (fst kv) k); [reflexivity|].
  apply IH.
Qed.

Lemma assignments_nodup (l : list (string * V)) : forall d,
  NoDup (map fst d) ->
  NoDup (map fst (fold_left (fun d kv => sset (fst kv) (snd kv) d) l d)).
Proof.
  induction l as [|kv l IH]; simpl; intros d Hd; [exact Hd|].
  apply IH. now apply sset_nodup.
Qed.
End StringDict.

(** ** Looking items up by SKU *)

Lemma same_sku_same_item (items : list MenuItem.t) a b :
  NoDup (map MenuItem.sku items) -> In a items -> In b items ->
  MenuItem.sku a = MenuItem.sku b -> a = b.
Proof.
  induction items as [|x items IH]; simpl; intros Hnd Ha Hb Hsku; [destruct Ha|].
  inversion Hnd as [|? ? Hx Hnd']; subst.
  destruct Ha as [->|Ha], Hb as [->|Hb].
  - reflexivity.
  - exfalso. apply Hx. rewrite Hsku. now apply in_map.
  - exfalso. apply Hx. rewrite <- Hsku. now apply in_map.
  - now apply IH.
Qed.

Lemma small_menu_skus : NoDup (map MenuItem.sku (Menu.items SMALL_MENU)).
Proof. vm_compute. repeat constructor; simpl; intuition discriminate. Qed.

Lemma large_menu_skus : NoDup (map MenuItem.sku (Menu.items LARGE_MENU)).
Proof. vm_compute. repeat constructor; simpl; intuition discriminate. Qed.

(** X11. [find_item_by_sku] returns an item of the menu with the SKU it was
    asked for, and [None] exactly when the menu has no such item.  Where
    the SKUs of a menu are pairwise distinct, as they are in the small and
    in the large menu, every item of the menu is found again by its own
    SKU. *)
Theorem find_item_by_sku_spec :
  (forall (menu : Menu.t) (sku : string) (item : MenuItem.t),
      find_item_by_sku menu sku = Some item ->
      In item (get_all_items menu) /\ MenuItem.sku item = sku)
  /\ (forall (menu : Menu.t) (sku : string),
         find_item_by_sku menu sku = None
         <-> forall item, In item (get_all_items menu) ->
                          MenuItem.sku item <> sku)
  /\ (forall (menu : Menu.t) (item : MenuItem.t),
         NoDup (map MenuItem.sku (get_all_items menu)) ->
         In item (get_all_items menu) ->
         find_item_by_sku menu (MenuItem.sku item) = Some item)
  /\ NoDup (map MenuItem.sku (get_all_items SMALL_MENU))
  /\ NoDup (map MenuItem.sku (get_all_items LARGE_MENU)).
Proof.
  unfold find_item_by_sku, get_all_items.
  split; [|split; [|split; [|split; [exact small_menu_skus
                                    | exact large_menu_skus]]]].
  - intros menu sku item H. apply find_some in H.
    destruct H as [Hin Heq]. apply String.eqb_eq in Heq. auto.
  - intros menu sku. split.
    + intros H item Hin Heq.
      pose proof (find_none _ _ H item Hin) as Hf. simpl in Hf.
      rewrite Heq, String.eqb_refl in Hf. discriminate.
    + intros H.
      destruct (find _ (Menu.items menu)) as [item|] eqn:Hf; [|reflexivity].
      apply find_some in Hf. destruct Hf as [Hin Heq].
      apply String.eqb_eq in Heq. now elim (H item Hin).
  - intros menu item Hnd Hin.
    destruct (find _ (Menu.items menu)) as [found|] eqn:Hf.
    + apply find_some in Hf. destruct Hf as [Hin' Heq].
      apply String.eqb_eq in Heq. f_equal.
      now apply (same_sku_same_item (Menu.items menu)).
    + pose proof (find_none _ _ Hf item Hin) as Hn. simpl in Hn.
      rewrite String.eqb_refl in Hn. discriminate.
Qed.

Lemma find_item_by_sku_spec_witness :
  In tea (get_all_items tea_menu) /\ MenuItem.sku tea = "TEA001".
Proof.
  apply (proj1 find_item_by_sku_spec tea_menu "TEA001" tea).
  vm_compute. reflexivity.
Defined.

(** ** The index of aliases *)

Lemma index_item_assignments amap item :
  CartNormalizer.index_item amap item
  = fold_left (fun d kv => sset (fst kv) (snd kv) d)
              (map (fun label => (label, item)) (labels item)) amap.
Proof.
  unfold CartNormalizer.index_item, labels. simpl.
  generalize (sset (PyStr.lower (MenuItem.name item)) item amap).
  induction (MenuItem.aliases item) as [|alias aliases IH]; simpl; intros d;
    [reflexivity | apply IH].
Qed.

Lemma alias_map_assignments items : forall amap,
  fold_left CartNormalizer.index_item items amap
  = fold_left (fun d kv => sset (fst kv) (snd kv) d)
              (label_assignments items) amap.
Proof.
  induction items as [|item items IH]; simpl; intros amap; [reflexivity|].
  rewrite fold_left_app, IH, index_item_assignments. reflexivity.
Qed.

Lemma label_assignments_In items k item :
  In (k, item) (label_assignments items)
  <-> In item items /\ In k (labels item).
Proof.
  unfold label_assignments. rewrite in_flat_map. split.
  - intros (x & Hx & Hin). apply in_map_iff in Hin.
    destruct Hin as (label & Heq & Hl). inversion Heq; subst. auto.
  - intros [Hi Hk]. exists item. split; [exact Hi|].
    apply in_map_iff. eauto.
Qed.

Lemma alias_map_get menu k :
  sget k (CartNormalizer.alias_map (CartNormalizer.new menu))
  = match find (fun kv => String.eqb (fst kv) k)
               (rev (label_assignments (Menu.items menu))) with
    | Some kv => Some (snd kv)
    | None => None
    end.
Proof.
  unfold CartNormalizer.new, CartNormalizer._build_indexes. simpl.
  rewrite alias_map_assignments, assignments_get. reflexivity.
Qed.

Lemma alias_map_nodup menu :
  NoDup (map fst (CartNormalizer.alias_map (CartNormalizer.new menu))).
Proof.
  unfold CartNormalizer.new, CartNormalizer._build_indexes. simpl.
  rewrite alias_map_assignments. apply assignments_nodup. constructor.
Qed.

Lemma alias_map_sound menu k item :
  sget k (CartNormalizer.alias_map (CartNormalizer.new menu)) = Some item ->
  In item (Menu.items menu) /\ In k (labels item).
Proof.
  rewrite alias_map_get.
  destruct (find _ _) as [[k' item']|] eqn:Hf; [|discriminate].
  intros H. inversion H; subst. apply find_some in Hf.
  destruct Hf as [Hin Heq]. apply String.eqb_eq in Heq. simpl in *. subst k'.
  apply label_assignments_In. now apply in_rev.
Qed.

Lemma alias_map_entry menu k item :
  In (k, item) (CartNormalizer.alias_map (CartNormalizer.new menu)) ->
  In item (Menu.items menu) /\ In k (labels item).
Proof.
  intros H. apply alias_map_sound.
  apply In_sget; [apply alias_map_nodup | exact H].
Qed.

Lemma find_label_none (l : list (string * MenuItem.t)) k :
  ~ In k (map fst l) -> find (fun kv => String.eqb (fst kv) k) l = None.
Proof.
  induction l as [|[k0 v0] l IH]; simpl; intros H; [reflexivity|].
  destruct (String.eqb_spec k0 k) as [->|Hne]; [exfalso; auto | auto].
Qed.

Lemma find_label_item item (ls : list string) k :
  In k ls ->
  exists kv : string * MenuItem.t,
    find (fun kv => String.eqb (fst kv) k)
         (rev (map (fun label => (label, item)) ls)) = Some kv
    /\ snd kv = item.
Proof.
  intros Hin.
  destruct (find _ _) as [kv|] eqn:Hf.
  - exists kv. split; [reflexivity|]. apply find_some in Hf.
    destruct Hf as [Hkv _]. apply in_rev, in_map_iff in Hkv.
    destruct Hkv as (label & <- & _). reflexivity.
  - exfalso.
    assert (Hk : In (k, item) (rev (map (fun label => (label, item)) ls)))
      by (rewrite <- in_rev; apply in_map_iff; eauto).
    pose proof (find_none _ _ Hf _ Hk) as Hn. simpl in Hn.
    rewrite String.eqb_refl in Hn. discriminate.
Qed.

Lemma alias_map_last_wins menu before item after k :
  Menu.items menu = before ++ item :: after ->
  In k (labels item) ->
  (forall later, In later after -> ~ In k (labels later)) ->
  sget k (CartNormalizer.alias_map (CartNormalizer.new menu)) = Some item.
Proof.
  intros Hsplit Hk Hlater. rewrite alias_map_get, Hsplit.
  unfold label_assignments. rewrite flat_map_app. cbn [flat_map].
  rewrite !rev_app_distr.
  rewrite <- app_assoc.
  assert (Hnone : find (fun kv : string * MenuItem.t => String.eqb (fst kv) k)
                    (rev (flat_map (fun item0 =>
                            map (fun label => (label, item0)) (labels item0))
                                   after)) = None).
  { apply find_label_none. intros Hin. apply in_map_iff in Hin.
    destruct Hin as ([k' later] & Heq & Hin). simpl in Heq. subst k'.
    apply in_rev in Hin. apply (label_assignments_In after) in Hin.
    destruct Hin as [Hl Hkl]. exact (Hlater _ Hl Hkl). }
  destruct (find_label_item item (labels item) k Hk) as (kv & Hfind & Hsnd).
  assert (Happ : forall (l1 l2 : list (string * MenuItem.t)) f,
             find f (l1 ++ l2)
             = match find f l1 with Some x => Some x | None => find f l2 end).
  { intros l1 l2 f. induction l1 as [|x l1 IH]; simpl; [reflexivity|].
    destruct (f x); [reflexivity | exact IH]. }
  rewrite Happ, Hnone, Happ, Hfind. now rewrite Hsnd.
Qed.

Lemma alias_map_complete menu item k :
  In item (Menu.items menu) -> In k (labels item) ->
  exists item',
    sget k (CartNormalizer.alias_map (CartNormalizer.new menu)) = Some item'.
Proof.
  intros Hi Hk. rewrite alias_map_get.
  destruct (find _ _) as [kv|] eqn:Hf; [eauto|]. exfalso.
  assert (Hin : In (k, item) (rev (label_assignments (Menu.items menu))))
    by (rewrite <- in_rev; apply label_assignments_In; auto).
  pose proof (find_none _ _ Hf _ Hin) as Hn. simpl in Hn.
  rewrite String.eqb_refl in Hn. discriminate.
Qed.

Lemma shipped_index_complete menu :
  NoDup (map MenuItem.sku (Menu.items menu)) ->
  forallb (fun item =>
             forallb (fun k =>
                        match sget k (CartNormalizer.alias_map
                                        (CartNormalizer.new menu)) with
                        | Some found =>
                            String.eqb (MenuItem.sku found) (MenuItem.sku item)
                        | None => false
                        end)
                     (labels item))
          (Menu.items menu) = true ->
  forall item k, In item (Menu.items menu) -> In k (labels item) ->
    sget k (CartNormalizer.alias_map (CartNormalizer.new menu)) = Some item.
Proof.
  intros Hnd Hall item k Hi Hk.
  rewrite forallb_forall in Hall. specialize (Hall item Hi).
  rewrite forallb_forall in Hall. specialize (Hall k Hk).
  destruct (sget k _) as [found|] eqn:Hget; [|discriminate].
  apply String.eqb_eq in Hall. f_equal.
  apply (same_sku_same_item (Menu.items menu)); try assumption.
  apply (alias_map_sound menu k found Hget).
Qed.

(** X12. The index of aliases that [_build_indexes] builds.  Its keys are
    the names and aliases of the items of the menu, in lower case, each
    once; a key leads to an item of the menu that carries it, namely the
    last such item of the menu, so that an alias shared by two items
    belongs to the later one.  In the small and in the large menu no alias
    is lost that way: every name and every alias of every item leads to
    that item. *)
Theorem alias_index_spec :
  (forall menu : Menu.t,
      let index := CartNormalizer.alias_map (CartNormalizer.new menu) in
      NoDup (map fst index)
      /\ (forall k item, sget k index = Some item ->
                         In item (Menu.items menu) /\ In k (labels item))
      /\ (forall item k, In item (Menu.items menu) -> In k (labels item) ->
                         exists item', sget k index = Some item')
      /\ (forall before item after k,
             Menu.items menu = before ++ item :: after ->
             In k (labels item) ->
             (forall later, In later after -> ~ In k (labels later)) ->
             sget k index = Some item))
  /\ (forall item k, In item (Menu.items SMALL_MENU) -> In k (labels item) ->
                     sget k (CartNormalizer.alias_map small_normalizer)
                     = Some item)
  /\ (forall item k, In item (Menu.items LARGE_MENU) -> In k (labels item) ->
                     sget k (CartNormalizer.alias_map large_normalizer)
                     = Some item).
Proof.
  split; [|split].
  - intros menu index. unfold index.
    split; [apply alias_map_nodup|].
    split; [apply alias_map_sound|].
    split; [apply alias_map_complete | apply alias_map_last_wins].
  - apply (shipped_index_complete SMALL_MENU small_menu_skus).
    vm_compute. reflexivity.
  - apply (shipped_index_complete LARGE_MENU large_menu_skus).
    vm_compute. reflexivity.
Qed.

Lemma alias_index_spec_witness :
  In tea (Menu.items tea_menu) /\ In "tea" (labels tea).
Proof.
  apply (proj1 (proj2 (proj1 alias_index_spec tea_menu)) "tea" tea).
  vm_compute. reflexivity.
Defined.

(** ** Normalized texts *)

Ltac each_char c :=
  destruct c as [[] [] [] [] [] [] [] []]; vm_compute; try reflexivity;
  try discriminate; auto.

Lemma keep_char_kept c :
  PyStr.is_space c = false ->
  (PyStr.is_word (CartNormalizer.keep_char c)
   || Ascii.eqb (CartNormalizer.keep_char c) "-"
   || Ascii.eqb (CartNormalizer.keep_char c) "'") = true
  \/ CartNormalizer.keep_char c = " "%char.
Proof. each_char c. Qed.




Lemma string_forall_app p a b :
  string_forall p (a ++ b) = string_forall p a && string_forall p b.
Proof.
  induction a as [|c a IH]; simpl; [reflexivity|].
  now rewrite IH, andb_assoc.
Qed.















(** ** Mentions are occurrences *)

Lemma string_app_assoc (a b c : string) :
  ((a ++ b) ++ c)%string = (a ++ b ++ c)%string.
Proof. induction a as [|x a IH]; simpl; [reflexivity | now rewrite IH]. Qed.

Lemma string_length_app (a b : string) :
  String.length (a ++ b) = String.length a + String.length b.
Proof. induction a as [|x a IH]; simpl; [reflexivity | now rewrite IH]. Qed.

Lemma last_from_app prev a b :
  last_from prev (a ++ b) = last_from (last_from prev a) b.
Proof.
  revert prev. induction a as [|x a IH]; simpl; intros prev;
    [reflexivity | apply IH].
Qed.

Lemma strip_literal_same_case pat : forall rest after,
  PyRe.strip_literal PyRe.same_case pat rest = Some after ->
  rest = (pat ++ after)%string.
Proof.
  induction pat as [|p pat IH]; simpl; intros rest after H.
  - now inversion H.
  - destruct rest as [|c rest]; [discriminate|].
    unfold PyRe.same_case in H at 1.
    destruct (Ascii.eqb_spec p c) as [->|]; [|discriminate].
    now rewrite (IH _ _ H).
Qed.

Lemma last_consumed_literal pat : forall prev after,
  PyRe.last_consumed prev (String.length pat) (pat ++ after)
  = last_from prev pat.
Proof.
  induction pat as [|p pat IH]; simpl; intros prev after.
  - now destruct after.
  - apply IH.
Qed.

Lemma word_match_here_occurs pat pre rest :
  PyRe.word_match_here PyRe.same_case pat (last_from None pre) rest = true ->
  occurs_at pat (pre ++ rest) (String.length pre).
Proof.
  unfold PyRe.word_match_here.
  destruct (PyRe.strip_literal PyRe.same_case pat rest) as [after|] eqn:Hs;
    [|discriminate].
  apply strip_literal_same_case in Hs. subst rest.
  rewrite last_consumed_literal. intros H. apply andb_true_iff in H.
  destruct H as [H1 H2]. exists pre, after. auto.
Qed.

Lemma finditer_from_occurs pat rest : forall pre skip s e,
  In (s, e) (PyRe.finditer_from PyRe.same_case pat (last_from None pre) rest
               (String.length pre) skip) ->
  e = s + String.length pat /\ occurs_at pat (pre ++ rest) s.
Proof.
  induction rest as [|c rest IH]; intros pre skip s e.
  - cbn [PyRe.finditer_from].
    destruct skip as [|k]; [|intros []].
    destruct (PyRe.word_match_here PyRe.same_case pat (last_from None pre) "")
      eqn:Hhere; [|intros []].
    intros [H|[]]. inversion H; subst.
    split; [reflexivity | now apply word_match_here_occurs].
  - cbn [PyRe.finditer_from]. intros H. apply in_app_iff in H.
    destruct H as [H|H].
    + destruct skip as [|k]; [|destruct H].
      destruct (PyRe.word_match_here PyRe.same_case pat (last_from None pre)
                  (String c rest)) eqn:Hhere; [|destruct H].
      destruct H as [H|[]]. inversion H; subst.
      split; [reflexivity | now apply word_match_here_occurs].
    + assert (Hprev : Some c = last_from None (pre ++ String c ""))
        by (now rewrite last_from_app).
      assert (Hlen : S (String.length pre) = String.length (pre ++ String c ""))
        by (rewrite string_length_app; simpl; lia).
      rewrite Hprev, Hlen in H. apply IH in H.
      now rewrite string_app_assoc in H.
Qed.

Lemma finditer_word_occurs alias text s e :
  In (s, e) (PyRe.finditer_word alias text) ->
  e = s + String.length alias /\ occurs_at alias text s.
Proof.
  unfold PyRe.finditer_word. intros H.
  exact (finditer_from_occurs alias text "" 0 s e H).
Qed.

Lemma accepted_mentions_found self text m :
  In m (CartNormalizer.filter_mentions
          (CartNormalizer.sort_mentions
             (CartNormalizer.found_mentions self text))) ->
  In m (CartNormalizer.found_mentions self text).
Proof.
  destruct (sort_mentions_sorted (CartNormalizer.found_mentions self text))
    as [Hsorted Hperm].
  destruct (filter_mentions_from _ [] Hsorted (FOP_nil _))
    as (Heq & _ & Hincl); [intros ? ? []|].
  unfold CartNormalizer.filter_mentions. rewrite Heq. intros Hm.
  apply Hincl in Hm. simpl in Hm. exact (Permutation_in _ Hperm Hm).
Qed.

Lemma accepted_mention_occurs self text m :
  In m (CartNormalizer.filter_mentions
          (CartNormalizer.sort_mentions
             (CartNormalizer.found_mentions self text))) ->
  In (m_alias m, m_item m) (CartNormalizer.alias_map self)
  /\ m_end m = m_start m + String.length (m_alias m)
  /\ occurs_at (m_alias m) text (m_start m).
Proof.
  intros Hm. apply accepted_mentions_found, found_mentions_In in Hm.
  destruct Hm as (alias & item & Hkv & Hspan & <- & <-).
  destruct (finditer_word_occurs _ _ _ _ Hspan). auto.
Qed.

(** X14. Every mention that [_find_all_items] keeps is a genuine one: its
    alias is a key of the index and leads to its item, the alias stands in
    the text at the start of the mention, as a whole word (with a word
    boundary on either side), and the mention ends where the alias ends.
    With the index of a menu the item is an item of that menu and the
    alias one of its names. *)
Theorem mentions_are_whole_word_occurrences :
  (forall (self : CartNormalizer.t) (text : string) (m : mention),
      In m (CartNormalizer.filter_mentions
              (CartNormalizer.sort_mentions
                 (CartNormalizer.found_mentions self text))) ->
      In (m_alias m, m_item m) (CartNormalizer.alias_map self)
      /\ m_end m = m_start m + String.length (m_alias m)
      /\ occurs_at (m_alias m) text (m_start m))
  /\ (forall (menu : Menu.t) (text : string) (m : mention),
         In m (CartNormalizer.filter_mentions
                 (CartNormalizer.sort_mentions
                    (CartNormalizer.found_mentions (CartNormalizer.new menu)
                                                   text))) ->
         In (m_item m) (Menu.items menu)
         /\ In (m_alias m) (labels (m_item m))).
Proof.
  split.
  - exact accepted_mention_occurs.
  - intros menu text m Hm.
    destruct (accepted_mention_occurs _ _ _ Hm) as (Hkv & _).
    exact (alias_map_entry menu _ _ Hkv).
Qed.

Lemma mentions_are_whole_word_occurrences_witness :
  (In ("tea", tea) (CartNormalizer.alias_map (CartNormalizer.new tea_menu))
   /\ 9 = 6 + String.length "tea"
   /\ occurs_at "tea" "plain tea" 6)
  /\ In tea (Menu.items tea_menu) /\ In "tea" (labels tea).
Proof.
  split.
  - apply (proj1 mentions_are_whole_word_occurrences
             (CartNormalizer.new tea_menu) "plain tea"
             (mk_mention 6 9 "tea" tea)).
    vm_compute. left. reflexivity.
  - apply (proj2 mentions_are_whole_word_occurrences
             tea_menu "plain tea" (mk_mention 6 9 "tea" tea)).
    vm_compute. left. reflexivity.
Defined.

(** ** The context of a mention *)

Lemma substring_whole (s : string) : substring 0 (String.length s) s = s.
Proof. induction s as [|c s IH]; simpl; [reflexivity | now rewrite IH]. Qed.

Lemma context_of_short_text text m :
  m_start m <= 50 -> String.length text <= m_end m + 100 ->
  PyStr.slice text (m_start m - 50)
              (Nat.min (String.length text) (m_end m + 100)) = text.
Proof.
  intros Hs He. unfold PyStr.slice.
  replace (m_start m - 50) with 0 by lia.
  replace (Nat.min (String.length text) (m_end m + 100))
    with (String.length text) by lia.
  rewrite Nat.sub_0_r. apply substring_whole.
Qed.

Lemma occurs_at_within alias text start :
  occurs_at alias text start ->
  start + String.length alias <= String.length text.
Proof.
  intros (pre & post & -> & <- & _). rewrite !string_length_app. lia.
Qed.

(** X15. The context of a mention runs from 50 characters before it to
    100 characters after it.  For a mention that starts within the first
    50 characters of a text that ends within 100 characters after it, the
    context is the whole text: quantity, size and modifiers are read off
    the whole transcript, the quantity in front of the first occurrence of
    the alias.  So in a transcript of at most 50 characters two mentions
    of one alias give the same line.  "two coffee and three coffee" makes
    four coffees, and in "a small coffee and a large latte" both drinks
    are small. *)
Theorem short_transcript_is_one_context :
  (forall (self : CartNormalizer.t) (text : string) (m : mention),
      m_start m <= 50 -> String.length text <= m_end m + 100 ->
      CartNormalizer.make_item self text m
      = (quantity <- CartNormalizer._extract_quantity text (m_alias m) ;;
         ret (CartItem.mk
                (MenuItem.sku (m_item m)) (MenuItem.name (m_item m)) quantity
                (CartNormalizer._extract_size self text (m_item m))
                (CartNormalizer._extract_modifiers self text (m_item m))
                (CartNormalizer._calculate_price (m_item m)
                   (CartNormalizer._extract_size self text (m_item m))
                   (CartNormalizer._extract_modifiers self text (m_item m))))))
  /\ (forall (self : CartNormalizer.t) (text : string) (m1 m2 : mention),
         String.length text <= 50 ->
         In m1 (CartNormalizer.filter_mentions
                  (CartNormalizer.sort_mentions
                     (CartNormalizer.found_mentions self text))) ->
         In m2 (CartNormalizer.filter_mentions
                  (CartNormalizer.sort_mentions
                     (CartNormalizer.found_mentions self text))) ->
         m_alias m1 = m_alias m2 -> m_item m1 = m_item m2 ->
         CartNormalizer.make_item self text m1
         = CartNormalizer.make_item self text m2)
  /\ CartNormalizer.parse_order small_normalizer "two coffee and three coffee"
     = inr (Cart.mk [CartItem.mk "COF001" "Regular Brewed Coffee" 4
                                 (Some "medium") [] price_2_09]
                    (lit 836 100))
  /\ CartNormalizer.parse_order large_normalizer
       "a small coffee and a large latte"
     = inr (Cart.mk [CartItem.mk "COF003" "Regular Brewed Coffee" 1
                                 (Some "small") [] (lit 179 100);
                     CartItem.mk "COF005" "Latte" 1
                                 (Some "small") [] (lit 349 100)]
                    (F64.add (lit 179 100) (lit 349 100))).
Proof.
  assert (Hone : forall self text m,
             m_start m <= 50 -> String.length text <= m_end m + 100 ->
             CartNormalizer.make_item self text m
             = (quantity <- CartNormalizer._extract_quantity text (m_alias m) ;;
                ret (CartItem.mk
                       (MenuItem.sku (m_item m)) (MenuItem.name (m_item m))
                       quantity
                       (CartNormalizer._extract_size self text (m_item m))
                       (CartNormalizer._extract_modifiers self text (m_item m))
                       (CartNormalizer._calculate_price (m_item m)
                          (CartNormalizer._extract_size self text (m_item m))
                          (CartNormalizer._extract_modifiers self text
                             (m_item m)))))).
  { intros self text m Hs He. unfold CartNormalizer.make_item.
    now rewrite (context_of_short_text text m Hs He). }
  split; [exact Hone|].
  split; [|split; vm_compute; reflexivity].
  intros self text m1 m2 Hlen H1 H2 Halias Hitem.
  assert (Hin : forall m,
             In m (CartNormalizer.filter_mentions
                     (CartNormalizer.sort_mentions
                        (CartNormalizer.found_mentions self text))) ->
             m_start m <= 50 /\ String.length text <= m_end m + 100).
  { intros m Hm. destruct (accepted_mention_occurs _ _ _ Hm) as (_ & _ & Hocc).
    apply occurs_at_within in Hocc. lia. }
  destruct (Hin _ H1) as [Hs1 He1]. destruct (Hin _ H2) as [Hs2 He2].
  rewrite (Hone _ _ _ Hs1 He1), (Hone _ _ _ Hs2 He2), Halias, Hitem.
  reflexivity.
Qed.

Lemma short_transcript_is_one_context_witness :
  CartNormalizer.make_item (CartNormalizer.new tea_menu) "plain tea"
    (mk_mention 6 9 "tea" tea)
  = inr (CartItem.mk "TEA001" "Tea" 1 (Some "") [] (lit 10 10)).
Proof.
  rewrite (proj1 short_transcript_is_one_context
             (CartNormalizer.new tea_menu) "plain tea"
             (mk_mention 6 9 "tea" tea)).
  - vm_compute. reflexivity.
  - simpl. lia.
  - simpl. lia.
Defined.

(** ** Modifiers *)

Section CollectOnce.
Context {A : Type}.
Variables (wanted : A -> bool) (value : A -> string).

(** A loop that appends [value a] for every [a] that is wanted and whose
    value has not been appended yet. *)
Let collect (acc : list string) (a : A) : list string :=
  if wanted a && negb (PyStr.mem (value a) acc) then acc ++ [value a] else acc.

Lemma collect_spec l : forall acc,
  NoDup acc ->
  NoDup (fold_left collect l acc)
  /\ forall x, In x (fold_left collect l acc)
               <-> In x acc \/ exists a, In a l /\ wanted a = true
                                         /\ value a = x.
Proof.
  induction l as [|a l IH]; simpl; intros acc Hnd.
  - split; [exact Hnd|]. intros x. split; [auto|].
    intros [H|(a & [] & _)]. exact H.
  - assert (Hstep : NoDup (collect acc a)
                    /\ forall x, In x (collect acc a)
                                 <-> In x acc \/ (wanted a = true /\ value a = x)).
    { unfold collect. destruct (wanted a) eqn:Hw; simpl.
      - destruct (PyStr.mem (value a) acc) eqn:Hmem; simpl.
        + split; [exact Hnd|]. intros x. split; [auto|].
          intros [H|[_ <-]]; [exact H | now apply str_mem_In].
        + split.
          * apply NoDup_app; [exact Hnd | repeat constructor; intros [] |].
            intros x Hx [<-|[]]. apply str_mem_In in Hx. congruence.
          * intros x. rewrite in_app_iff. simpl. split.
            -- intros [H|[<-|[]]]; auto.
            -- intros [H|[_ <-]]; auto.
      - split; [exact Hnd|]. intros x. split; [auto|].
        intros [H|[H _]]; [exact H | discriminate]. }
    destruct Hstep as [Hnd' Hin']. destruct (IH _ Hnd') as [Hnd'' Hin''].
    split; [exact Hnd''|]. intros x. rewrite Hin'', Hin'. split.
    + intros [[H|[Hw Hv]]|(b & Hb & Hw & Hv)]; eauto 7.
    + intros [H|(b & [<-|Hb] & Hw & Hv)]; eauto 7.
Qed.
End CollectOnce.

(** X16. The modifiers of a line: no name twice, and a name is among them
    exactly when a synonym of it (of any item of the menu) stands somewhere
    in the context, or when it is a modifier of the item and stands there
    itself in lower case.  The test is one of substrings of the whole
    context, not of words near the mention: a doughnut without modifiers
    gets "cream" from "with cream", and in "a coffee and a pumpkin donut
    with sprinkles" the coffee gets the sprinkles too. *)
Theorem extract_modifiers_spec :
  (forall (self : CartNormalizer.t) (context : string) (item : MenuItem.t),
      NoDup (CartNormalizer._extract_modifiers self context item)
      /\ forall x,
           In x (CartNormalizer._extract_modifiers self context item)
           <-> (exists synonym,
                   In (synonym, x) (CartNormalizer.modifier_map self)
                   /\ PyStr.contains context synonym = true)
               \/ (In x (MenuItem.modifiers item)
                   /\ PyStr.contains context (PyStr.lower x) = true))
  /\ CartNormalizer.parse_order small_normalizer "pumpkin donut with cream"
     = inr (Cart.mk [CartItem.mk "DON001" "Pumpkin Spice Iced Doughnut" 1
                                 None ["cream"] (lit 129 100)]
                    (lit 129 100))
  /\ CartNormalizer.parse_order small_normalizer
       "a coffee and a pumpkin donut with sprinkles"
     = inr (Cart.mk [CartItem.mk "COF001" "Regular Brewed Coffee" 1
                                 (Some "medium") ["sprinkles"] price_2_09;
                     CartItem.mk "DON001" "Pumpkin Spice Iced Doughnut" 1
                                 None ["sprinkles"] (lit 129 100)]
                    (F64.add price_2_09 (lit 129 100))).
Proof.
  split; [|split; vm_compute; reflexivity].
  intros self context item. unfold CartNormalizer._extract_modifiers.
  pose proof (collect_spec (fun kv : string * string =>
                              PyStr.contains context (fst kv))
                           snd (CartNormalizer.modifier_map self) []
                           (NoDup_nil _)) as [Hnd1 Hin1].
  pose proof (collect_spec (fun modifier : string =>
                              PyStr.contains context (PyStr.lower modifier))
                           (fun modifier => modifier)
                           (MenuItem.modifiers item) _ Hnd1) as [Hnd2 Hin2].
  cbv zeta in Hnd1, Hin1, Hnd2, Hin2.
  split; [exact Hnd2|]. intros x. rewrite Hin2, Hin1. split.
  - intros [[[]|([synonym x'] & Hkv & Hc & Hv)]|(y & Hy & Hc & Hv)];
      simpl in *; subst; eauto.
  - intros [(synonym & Hkv & Hc)|[Hx Hc]].
    + left. right. exists (synonym, x). auto.
    + right. exists x. auto.
Qed.

(** ** From the transcript to the cart *)

Lemma number_words_range word n :
  sget word CartNormalizer.number_words = Some n -> (1 <= n <= 10)%Z.
Proof.
  intros H. apply sget_In in H. vm_compute in H.
  repeat (destruct H as [H|H]; [inversion H; lia|]). destruct H.
Qed.

Lemma int_acc_nonneg s : forall acc, (0 <= acc)%Z -> (0 <= PyStr.int_acc s acc)%Z.
Proof.
  induction s as [|c s IH]; cbn [PyStr.int_acc]; intros acc Hacc;
    [exact Hacc|].
  apply IH. lia.
Qed.

Lemma first_quantity_result words :
  (forall q, CartNormalizer.first_quantity words = inr q -> (0 <= q)%Z)
  /\ (forall e, CartNormalizer.first_quantity words = inl e -> e = ValueError).
Proof.
  induction words as [|word words [IHq IHe]];
    cbn [CartNormalizer.first_quantity].
  - split; [intros q H; inversion H; lia | intros e H; discriminate].
  - destruct (sget word CartNormalizer.number_words) as [n|] eqn:Hn.
    + split; [|intros e H; discriminate].
      intros q H. inversion H; subst.
      pose proof (number_words_range _ _ Hn). lia.
    + destruct (PyStr.isdigit word); [|split; assumption].
      unfold PyStr.int. destruct (PyStr.all_decimal word).
      * split; [|intros e H; discriminate].
        intros q H. inversion H. apply int_acc_nonneg. lia.
      * split; [intros q H; discriminate | intros e H; now inversion H].
Qed.


Lemma extract_quantity_result context alias :
  (forall q, CartNormalizer._extract_quantity context alias = inr q ->
             (0 <= q)%Z)
  /\ (forall e, CartNormalizer._extract_quantity context alias = inl e ->
                e = ValueError).
Proof.
  unfold CartNormalizer._extract_quantity.
  destruct (PyStr.find context alias) as [alias_pos|].
  - apply first_quantity_result.
  - split; [intros q H; inversion H; lia | intros e H; discriminate].
Qed.

Lemma extract_modifiers_nodup self context item :
  NoDup (CartNormalizer._extract_modifiers self context item).
Proof.
  unfold CartNormalizer._extract_modifiers.
  pose proof (collect_spec (fun kv : string * string =>
                              PyStr.contains context (fst kv))
                           snd (CartNormalizer.modifier_map self) []
                           (NoDup_nil _)) as [Hnd1 _].
  pose proof (collect_spec (fun modifier : string =>
                              PyStr.contains context (PyStr.lower modifier))
                           (fun modifier => modifier)
                           (MenuItem.modifiers item) _ Hnd1) as [Hnd2 _].
  exact Hnd2.
Qed.

Lemma extract_size_none self context item :
  CartNormalizer._extract_size self context item = None
  <-> MenuItem.size_variations item = [].
Proof.
  unfold CartNormalizer._extract_size.
  destruct (MenuItem.size_variations item) as [|kv rest];
    [split; reflexivity|].
  destruct (CartNormalizer.first_size _ _);
    [|destruct (sget _ _)]; split; discriminate.
Qed.

Lemma make_item_line self text m line :
  CartNormalizer.make_item self text m = inr line ->
  CartItem.sku line = MenuItem.sku (m_item m)
  /\ CartItem.name line = MenuItem.name (m_item m)
  /\ (CartItem.size line = None <-> MenuItem.size_variations (m_item m) = [])
  /\ CartItem.price line
     = CartNormalizer._calculate_price (m_item m) (CartItem.size line)
         (CartItem.modifiers line)
  /\ NoDup (CartItem.modifiers line)
  /\ (0 <= CartItem.quantity line)%Z.
Proof.
  unfold CartNormalizer.make_item.
  destruct (CartNormalizer._extract_quantity _ _) as [e|q] eqn:Hq; simpl;
    [discriminate|].
  intros H. inversion H; subst line; clear H. cbn [CartItem.sku CartItem.name
    CartItem.size CartItem.price CartItem.modifiers CartItem.quantity].
  repeat split; try apply extract_size_none.
  - apply extract_modifiers_nodup.
  - exact (proj1 (extract_quantity_result _ _) _ Hq).
Qed.


Lemma make_items_lines self text l : forall lines,
  CartNormalizer.make_items self text l = inr lines ->
  Forall2 (fun m line => CartNormalizer.make_item self text m = inr line)
          l lines.
Proof.
  induction l as [|m l IH]; cbn [CartNormalizer.make_items]; intros lines H.
  - inversion H. constructor.
  - destruct (CartNormalizer.make_item self text m) as [e|line] eqn:Hm;
      simpl in H; [discriminate|].
    destruct (CartNormalizer.make_items self text l) as [e|rest]; simpl in H;
      [discriminate|].
    inversion H; subst. constructor; auto.
Qed.


Lemma line_total_raises item e :
  Cart.line_total item = inl e -> e = OverflowError.
Proof.
  unfold Cart.line_total, F64.mul_int, F64.of_int, F64.checked.
  destruct (binary_normalize _ _ _ _ _); simpl; intros H;
    try discriminate; now inversion H.
Qed.

Lemma add_items_result l : forall cart,
  (forall cart', CartNormalizer.add_items cart l = inr cart' ->
                 Cart.items cart' = Cart.items cart ++ l)
  /\ (forall e, CartNormalizer.add_items cart l = inl e -> e = OverflowError).
Proof.
  induction l as [|item l IH]; intros cart; cbn [CartNormalizer.add_items].
  - split; [|discriminate]. intros cart' H. inversion H.
    now rewrite app_nil_r.
  - unfold Cart.add_item.
    destruct (Cart.line_total item) as [e|p] eqn:Hp; simpl.
    + split; [discriminate|]. intros e' H. inversion H; subst.
      exact (line_total_raises _ _ Hp).
    + destruct (IH (Cart.mk (Cart.items cart ++ [item])
                            (F64.add (Cart.total cart) p))) as [IHi IHe].
      split; [|exact IHe].
      intros cart' H. rewrite (IHi _ H). simpl.
      now rewrite <- app_assoc.
Qed.

Lemma line_totals_raises l e :
  Cart.line_totals l = inl e -> e = OverflowError.
Proof.
  induction l as [|item l IH]; cbn [Cart.line_totals]; [discriminate|].
  destruct (Cart.line_total item) as [e'|p] eqn:Hp; simpl.
  - intros H. inversion H; subst. exact (line_total_raises _ _ Hp).
  - destruct (Cart.line_totals l) as [e'|ps]; simpl; [|discriminate].
    intros H. inversion H; subst. now apply IH.
Qed.

Lemma merge_duplicates_result cart :
  (forall merged, Cart.merge_duplicates cart = inr merged ->
                  Cart.items merged = Cart.merged_items (Cart.items cart))
  /\ (forall e, Cart.merge_duplicates cart = inl e -> e = OverflowError).
Proof.
  unfold Cart.merge_duplicates.
  destruct (Cart.line_totals _) as [e|ps] eqn:Hps; simpl.
  - split; [discriminate|]. intros e' H. inversion H; subst.
    exact (line_totals_raises _ _ Hps).
  - split; [|discriminate]. intros merged H. now inversion H.
Qed.

Lemma quantity_of_nonneg k l :
  Forall (fun line => (0 <= CartItem.quantity line)%Z) l ->
  (0 <= quantity_of k l)%Z.
Proof.
  unfold quantity_of. induction 1 as [|line l Hq _ IH]; simpl; [lia|].
  destruct (has_key k line); simpl; lia.
Qed.

Lemma kept_mention_line menu text m line :
  In m (kept_mentions (CartNormalizer.new menu) text) ->
  CartNormalizer.make_item (CartNormalizer.new menu) text m = inr line ->
  line_of_menu menu text line.
Proof.
  intros Hm Hline.
  destruct (accepted_mention_occurs _ _ _ Hm) as (Hkv & _ & Hocc).
  destruct (alias_map_entry menu _ _ Hkv) as [Hitem Halias].
  destruct (make_item_line _ _ _ _ Hline) as (H1 & H2 & H3 & H4 & H5 & H6).
  exists (m_item m), (m_alias m), (m_start m). repeat split; auto;
    apply H3.
Qed.

Lemma kept_mentions_lines menu text l lines :
  Forall2 (fun m line =>
             CartNormalizer.make_item (CartNormalizer.new menu) text m
             = inr line) l lines ->
  incl l (kept_mentions (CartNormalizer.new menu) text) ->
  Forall (line_of_menu menu text) lines.
Proof.
  induction 1 as [|m line l lines Hline _ IH]; intros Hall; constructor.
  - apply (kept_mention_line menu text m); [apply Hall; now left | exact Hline].
  - apply IH. intros m' Hm'. apply Hall. now right.
Qed.

Lemma found_lines menu text lines :
  CartNormalizer._find_all_items (CartNormalizer.new menu) text = inr lines ->
  Forall (line_of_menu menu text) lines.
Proof.
  unfold CartNormalizer._find_all_items. intros H.
  apply make_items_lines in H.
  exact (kept_mentions_lines menu text _ _ H (incl_refl _)).
Qed.

Lemma merged_line_of_menu menu text l m :
  Forall (line_of_menu menu text) l ->
  In m (Cart.merged_items l) ->
  line_of_menu menu text m.
Proof.
  intros Hall Hm.
  destruct (merged_items_entry _ _ Hm) as (first & Hfind & Heq).
  apply find_some in Hfind. destruct Hfind as [Hin _].
  rewrite Forall_forall in Hall.
  destruct (Hall _ Hin)
    as (item & alias & start & H1 & H2 & H3 & H4 & H5 & H6 & H7 & H8 & H9).
  exists item, alias, start. rewrite Heq.
  cbn [CartItem.with_quantity CartItem.sku CartItem.name CartItem.size
       CartItem.price CartItem.modifiers CartItem.quantity].
  repeat split; auto; try apply H6.
  apply quantity_of_nonneg. apply Forall_forall. intros line Hline.
  destruct (Hall _ Hline) as (? & ? & ? & ? & ? & ? & ? & ? & ? & ? & ? & Hq).
  exact Hq.
Qed.

(** X17. The lines of a parsed cart.  When [parse_order] returns a cart,
    no two of its lines have the same key (SKU, size, sorted modifiers),
    and every line stems from the menu and the transcript: some name or
    alias of an item of the menu stands as a whole word in the normalized
    text; the line has the SKU and the name of that item, a size exactly
    when the item has size variations, the price that [_calculate_price]
    gives for its size, modifiers without repetition and a quantity that
    is not negative (it may be 0). *)
Theorem parse_order_lines :
  forall (menu : Menu.t) (text : string) (cart : Cart.t),
    CartNormalizer.parse_order (CartNormalizer.new menu) text = inr cart ->
    NoDup (map CartItem.key (Cart.items cart))
    /\ Forall (line_of_menu menu
                 (CartNormalizer.normalize_text
                    (CartNormalizer._handle_corrections text)))
              (Cart.items cart).
Proof.
  intros menu text cart. unfold CartNormalizer.parse_order.
  destruct (CartNormalizer._find_all_items _ _) as [e|lines] eqn:Hfound;
    simpl; [discriminate|].
  destruct (CartNormalizer.add_items Cart.empty lines) as [e|added] eqn:Hadd;
    simpl; [discriminate|].
  intros Hmerge.
  pose proof (proj1 (add_items_result lines Cart.empty) _ Hadd) as Hitems.
  simpl in Hitems.
  rewrite (proj1 (merge_duplicates_result added) _ Hmerge), Hitems.
  split; [apply merged_items_nodup|].
  apply Forall_forall. intros m Hm.
  apply (merged_line_of_menu menu _ lines); [|exact Hm].
  now apply found_lines.
Qed.

Lemma parse_order_lines_witness :
  NoDup (map CartItem.key (Cart.items zero_coffees))
  /\ Forall (line_of_menu (get_menu "small")
               (CartNormalizer.normalize_text
                  (CartNormalizer._handle_corrections "0 coffee")))
            (Cart.items zero_coffees).
Proof.
  apply (parse_order_lines (get_menu "small") "0 coffee" zero_coffees).
  vm_compute. reflexivity.
Defined.



(** ** The F1 score is symmetric *)

Lemma float_add_comm x y : F64.add x y = F64.add y x.
Proof.
  unfold F64.add, SFadd.
  destruct x as [[|]|[|]| |sx mx ex], y as [[|]|[|]| |sy my ey];
    try reflexivity.
  now rewrite Z.add_comm, Z.min_comm.
Qed.

Lemma float_mul_comm x y : F64.mul x y = F64.mul y x.
Proof.
  unfold F64.mul, SFmul.
  destruct x as [sx|sx| |sx mx ex], y as [sy|sy| |sy my ey];
    try reflexivity; try (now rewrite xorb_comm).
  now rewrite xorb_comm, Pos.mul_comm, Z.add_comm.
Qed.

Lemma keyset_add_nodup k s : NoDup s -> NoDup (KeySet.add k s).
Proof.
  intros Hnd. unfold KeySet.add.
  destruct (KeySet.mem k s) eqn:Hmem; [exact Hnd|].
  apply NoDup_app; [exact Hnd | repeat constructor; intros [] |].
  intros x Hx [<-|[]]. apply keyset_mem_In in Hx. congruence.
Qed.

Lemma entries_nodup cart : NoDup (CartEvaluator.entries cart).
Proof.
  unfold CartEvaluator.entries.
  assert (H : forall l s, NoDup s ->
            NoDup (fold_left (fun s item =>
                                if (0 <? CartItem.quantity item)%Z
                                then KeySet.add (CartItem.key item) s else s)
                             l s)).
  { induction l as [|item l IH]; simpl; intros s Hs; [exact Hs|].
    apply IH. destruct (0 <? CartItem.quantity item)%Z;
      [now apply keyset_add_nodup | exact Hs]. }
  apply H. constructor.
Qed.

Lemma inter_In a b k : In k (KeySet.inter a b) <-> In k a /\ In k b.
Proof.
  unfold KeySet.inter. rewrite filter_In, keyset_mem_In. tauto.
Qed.

Lemma inter_len_comm a b :
  NoDup a -> NoDup b ->
  KeySet.len (KeySet.inter a b) = KeySet.len (KeySet.inter b a).
Proof.
  intros Ha Hb. unfold KeySet.len. f_equal. apply Permutation_length.
  apply NoDup_Permutation.
  - unfold KeySet.inter. now apply NoDup_filter.
  - unfold KeySet.inter. now apply NoDup_filter.
  - intros k. rewrite !inter_In. tauto.
Qed.

Lemma inter_diff_len a b :
  (KeySet.len (KeySet.inter a b) + KeySet.len (KeySet.diff a b))%Z
  = KeySet.len a.
Proof.
  unfold KeySet.len, KeySet.inter, KeySet.diff.
  rewrite <- Nat2Z.inj_add. f_equal. apply filter_partition_length.
Qed.

Lemma int_truediv_raises a b e :
  (0 < b)%Z -> F64.int_truediv a b = inl e -> e = OverflowError.
Proof.
  intros Hb. unfold F64.int_truediv, F64.checked.
  destruct a as [|p|p], b as [|q|q]; try lia; try discriminate;
    destruct (F64.ratio _ p q); intros H; try discriminate; now inversion H.
Qed.

(** The last step of [calculate_f1]. *)
Lemma harmonic_mean_comm p r :
  (if F64.ltb F64.zero (F64.add p r)
   then F64.div (F64.mul F64.two (F64.mul p r)) (F64.add p r)
   else F64.zero)
  = (if F64.ltb F64.zero (F64.add r p)
     then F64.div (F64.mul F64.two (F64.mul r p)) (F64.add r p)
     else F64.zero).
Proof. now rewrite (float_add_comm p r), (float_mul_comm p r). Qed.

Lemma bind_swap (P R : py F64.float) (f : F64.float -> F64.float -> F64.float) :
  (forall e, P = inl e -> e = OverflowError) ->
  (forall e, R = inl e -> e = OverflowError) ->
  (forall p r, f p r = f r p) ->
  (p <- P ;; r <- R ;; ret (f p r)) = (p <- R ;; r <- P ;; ret (f p r)).
Proof.
  intros HP HR Hf. destruct P as [e1|p], R as [e2|r]; simpl.
  - now rewrite (HP e1 eq_refl), (HR e2 eq_refl).
  - reflexivity.
  - reflexivity.
  - now rewrite Hf.
Qed.

(** X19. The F1 score does not depend on which of the two carts is called
    the expected one: precision and recall change places, and their
    harmonic mean is computed with a commutative addition and a
    commutative multiplication of floats. *)
Theorem calculate_f1_symmetric :
  forall actual expected : Cart.t,
    CartEvaluator.calculate_f1 actual expected
    = CartEvaluator.calculate_f1 expected actual.
Proof.
  intros actual expected. unfold CartEvaluator.calculate_f1.
  pose proof (inter_len_comm _ _ (entries_nodup expected)
                (entries_nodup actual)) as Ht.
  pose proof (inter_diff_len (CartEvaluator.entries actual)
                             (CartEvaluator.entries expected)) as Hpa.
  pose proof (inter_diff_len (CartEvaluator.entries expected)
                             (CartEvaluator.entries actual)) as Hpe.
  assert (Hnonneg : forall s : KeySet.t, (0 <= KeySet.len s)%Z)
    by (intros s; apply Nat2Z.is_nonneg).
  pose proof (Hnonneg (KeySet.inter (CartEvaluator.entries actual)
                                    (CartEvaluator.entries expected))) as H0t.
  pose proof (Hnonneg (KeySet.diff (CartEvaluator.entries actual)
                                   (CartEvaluator.entries expected))) as H0p.
  pose proof (Hnonneg (KeySet.diff (CartEvaluator.entries expected)
                                   (CartEvaluator.entries actual))) as H0n.
  rewrite Ht in Hpe |- *.
  revert Hpa Hpe H0t H0p H0n. clear Ht.
  generalize (KeySet.len (KeySet.inter (CartEvaluator.entries actual)
                                       (CartEvaluator.entries expected))).
  generalize (KeySet.len (KeySet.diff (CartEvaluator.entries actual)
                                      (CartEvaluator.entries expected))).
  generalize (KeySet.len (KeySet.diff (CartEvaluator.entries expected)
                                      (CartEvaluator.entries actual))).
  generalize (CartEvaluator.entries actual) as A.
  generalize (CartEvaluator.entries expected) as E.
  intros E A fn fp t Hpa Hpe H0t H0p H0n.
  assert (Hlen : forall k (s : KeySet.t), (0 < KeySet.len (k :: s))%Z)
    by (intros k s; unfold KeySet.len; simpl List.length; lia).
  assert (Hnil : KeySet.len [] = 0%Z) by reflexivity.
  destruct E as [|ke se], A as [|ka sa].
  - reflexivity.
  - (* nothing expected *)
    rewrite Hnil in Hpe. pose proof (Hlen ka sa) as HlA.
    assert (t = 0%Z) by lia. assert (fn = 0%Z) by lia. subst t fn.
    change (0 + 0)%Z with 0%Z. change (0 <? 0)%Z with false.
    destruct (Z.ltb_spec 0 (0 + fp)); [|lia].
    rewrite (int_truediv_zero (0 + fp)) by lia. reflexivity.
  - (* nothing found *)
    rewrite Hnil in Hpa. pose proof (Hlen ke se) as HlE.
    assert (t = 0%Z) by lia. assert (fp = 0%Z) by lia. subst t fp.
    change (0 + 0)%Z with 0%Z. change (0 <? 0)%Z with false.
    destruct (Z.ltb_spec 0 (0 + fn)); [|lia].
    rewrite (int_truediv_zero (0 + fn)) by lia. reflexivity.
  - pose proof (Hlen ka sa) as HlA. pose proof (Hlen ke se) as HlE.
    destruct (Z.ltb_spec 0 (t + fp)); [|lia].
    destruct (Z.ltb_spec 0 (t + fn)); [|lia].
    apply (bind_swap (F64.int_truediv t (t + fp)) (F64.int_truediv t (t + fn))
             (fun p r => if F64.ltb F64.zero (F64.add p r)
                         then F64.div (F64.mul F64.two (F64.mul p r))
                                      (F64.add p r)
                         else F64.zero)).
    + intros e. now apply int_truediv_raises.
    + intros e. now apply int_truediv_raises.
    + intros p r. apply harmonic_mean_comm.
Qed.

(** ** The lines come in the order of the text *)

Lemma sorted_snoc l m :
  StronglySorted by_start l -> (forall x, In x l -> by_start x m) ->
  StronglySorted by_start (l ++ [m]).
Proof.
  induction 1 as [|y l Hl IH Hy]; simpl; intros Hm.
  - constructor; constructor.
  - constructor; [apply IH; intros x Hx; apply Hm; now right|].
    apply Forall_app. split; [exact Hy|].
    constructor; [apply Hm; now left | constructor].
Qed.

Lemma remove_first_sorted p l :
  StronglySorted by_start l -> StronglySorted by_start (remove_first p l).
Proof.
  induction 1 as [|y l Hl IH Hy]; simpl; [constructor|].
  destruct (mention_eqb y p); [exact Hl|].
  constructor; [exact IH|].
  rewrite Forall_forall in Hy |- *. intros x Hx.
  apply Hy. exact (remove_first_incl p l x Hx).
Qed.

Lemma longest_alias_wins_sorted accepted m :
  StronglySorted by_start accepted ->
  (forall x, In x accepted -> by_start x m) ->
  StronglySorted by_start (longest_alias_wins accepted m).
Proof.
  intros Hs Hm. unfold longest_alias_wins.
  destruct (find (intersects m) accepted) as [hit|];
    [destruct (_ <? _)|]; try exact Hs.
  - apply sorted_snoc; [now apply remove_first_sorted|].
    intros x Hx. apply Hm. exact (remove_first_incl hit accepted x Hx).
  - now apply sorted_snoc.
Qed.

Lemma policy_sorted candidates : forall accepted,
  StronglySorted by_start candidates ->
  StronglySorted by_start accepted ->
  (forall x c, In x accepted -> In c candidates -> by_start x c) ->
  StronglySorted by_start (fold_left longest_alias_wins candidates accepted).
Proof.
  induction candidates as [|c candidates IH]; simpl;
    intros accepted Hc Ha Hac; [exact Ha|].
  inversion Hc as [|? ? Hrest Hfirst]; subst.
  apply IH; [exact Hrest | |].
  - apply longest_alias_wins_sorted; [exact Ha|].
    intros x Hx. apply Hac; [exact Hx | now left].
  - intros x c' Hx Hc'. apply longest_alias_wins_incl in Hx.
    apply in_app_iff in Hx. destruct Hx as [Hx|[<-|[]]].
    + apply Hac; [exact Hx | now right].
    + rewrite Forall_forall in Hfirst. now apply Hfirst.
Qed.

Lemma kept_mentions_sorted self text :
  StronglySorted by_start (kept_mentions self text).
Proof.
  unfold kept_mentions, CartNormalizer.filter_mentions.
  destruct (sort_mentions_sorted (CartNormalizer.found_mentions self text))
    as [Hsorted _].
  destruct (filter_mentions_from _ [] Hsorted (FOP_nil _)) as (-> & _);
    [intros ? ? []|].
  apply policy_sorted; [exact Hsorted | constructor | intros ? ? []].
Qed.

(** X20. The lines that [_find_all_items] returns correspond one to one to
    the mentions it keeps, and come in the order of the text: the kept
    mentions are in ascending order of their start, and the line of each
    is the one built from its context. *)
Theorem lines_in_text_order :
  forall (self : CartNormalizer.t) (text : string) (lines : list CartItem.t),
    CartNormalizer._find_all_items self text = inr lines ->
    StronglySorted by_start (kept_mentions self text)
    /\ Forall2 (fun m line => CartNormalizer.make_item self text m = inr line)
               (kept_mentions self text) lines.
Proof.
  intros self text lines H. split; [apply kept_mentions_sorted|].
  now apply make_items_lines.
Qed.

Lemma lines_in_text_order_witness :
  StronglySorted by_start
    (kept_mentions small_normalizer
       "a coffee and a pumpkin donut with sprinkles")
  /\ Forall2 (fun m line =>
                CartNormalizer.make_item small_normalizer
                  "a coffee and a pumpkin donut with sprinkles" m = inr line)
             (kept_mentions small_normalizer
                "a coffee and a pumpkin donut with sprinkles")
             [CartItem.mk "COF001" "Regular Brewed Coffee" 1
                          (Some "medium") ["sprinkles"] price_2_09;
              CartItem.mk "DON001" "Pumpkin Spice Iced Doughnut" 1
                          None ["sprinkles"] (lit 129 100)].
Proof.
  apply lines_in_text_order. vm_compute. reflexivity.
Defined.

(** ** Equal items and items with equal keys *)

Lemma sorted_strings_permutation l :
  Permutation (PySort.sorted PyStr.ltb l) l.
Proof.
  unfold PySort.sorted.
  assert (H : forall acc,
             Permutation
               (fold_left (fun acc x => PySort.insert PyStr.ltb x acc) l acc)
               (acc ++ l)).
  { induction l as [|x l IH]; simpl; intros acc.
    - rewrite app_nil_r. apply Permutation_refl.
    - apply (Permutation_trans (IH _)).
      apply Permutation_trans with ((x :: acc) ++ l).
      + apply Permutation_app_tail, sinsert_perm.
      + simpl. apply Permutation_middle. }
  exact (H []).
Qed.

Lemma same_set_spec a b :
  CartItem.same_set a b = true <-> forall x, In x a <-> In x b.
Proof.
  unfold CartItem.same_set. rewrite andb_true_iff, !forallb_forall. split.
  - intros [Hab Hba] x. split; intros Hx.
    + apply str_mem_In. now apply Hab.
    + apply str_mem_In. now apply Hba.
  - intros H. split; intros x Hx; apply str_mem_In; now apply H.
Qed.

Lemma item_eqb_spec a b :
  CartItem.eqb a b = true
  <-> CartItem.sku a = CartItem.sku b /\ CartItem.size a = CartItem.size b
      /\ forall x, In x (CartItem.modifiers a) <-> In x (CartItem.modifiers b).
Proof.
  unfold CartItem.eqb.
  rewrite !andb_true_iff, String.eqb_eq, option_eqb_eq, same_set_spec. tauto.
Qed.

(** X21. [CartItem.__eq__] and [CartItem.__hash__].  Equality of items is
    an equivalence: it compares SKU, size and the set of modifiers, not
    quantity, name or price.  Two items with the same key (SKU, size,
    sorted modifiers), the value that [__hash__] hashes and that
    [merge_duplicates] groups by, are equal.  The converse fails: a line
    with modifiers [sprinkles] and one with [sprinkles, sprinkles] are
    equal and have different keys, so equal items need not hash alike. *)
Theorem item_equality_and_key :
  (forall a, CartItem.eqb a a = true)
  /\ (forall a b, CartItem.eqb a b = CartItem.eqb b a)
  /\ (forall a b c, CartItem.eqb a b = true -> CartItem.eqb b c = true ->
                    CartItem.eqb a c = true)
  /\ (forall a b, CartItem.key a = CartItem.key b -> CartItem.eqb a b = true)
  /\ (CartItem.eqb sprinkles_once sprinkles_twice = true
      /\ CartItem.key sprinkles_once <> CartItem.key sprinkles_twice).
Proof.
  split; [|split; [|split; [|split]]].
  - intros a. apply item_eqb_spec. repeat split; auto.
  - intros a b. destruct (CartItem.eqb b a) eqn:Hba.
    + apply item_eqb_spec in Hba. destruct Hba as (H1 & H2 & H3).
      apply item_eqb_spec. repeat split; auto; apply H3.
    + destruct (CartItem.eqb a b) eqn:Hab; [|reflexivity].
      apply item_eqb_spec in Hab. destruct Hab as (H1 & H2 & H3).
      rewrite <- Hba. symmetry. apply item_eqb_spec.
      repeat split; auto; apply H3.
  - intros a b c Hab Hbc.
    apply item_eqb_spec in Hab. destruct Hab as (H1 & H2 & H3).
    apply item_eqb_spec in Hbc. destruct Hbc as (H4 & H5 & H6).
    apply item_eqb_spec. split; [congruence|]. split; [congruence|].
    intros x. rewrite H3. apply H6.
  - intros a b Hkey. unfold CartItem.key in Hkey. inversion Hkey as [[Hs Hz Hm]].
    apply item_eqb_spec. split; [exact Hs|]. split; [exact Hz|].
    intros x.
    pose proof (sorted_strings_permutation (CartItem.modifiers a)) as Pa.
    pose proof (sorted_strings_permutation (CartItem.modifiers b)) as Pb.
    rewrite Hm in Pa. split; intros Hx.
    + apply (Permutation_in _ Pb).
      exact (Permutation_in _ (Permutation_sym Pa) Hx).
    + apply (Permutation_in _ Pa).
      exact (Permutation_in _ (Permutation_sym Pb) Hx).
  - split; [vm_compute; reflexivity | vm_compute; discriminate].
Qed.

Lemma item_equality_and_key_witness :
  CartItem.eqb medium_coffee (CartItem.with_quantity medium_coffee 5) = true.
Proof.
  apply (proj1 (proj2 (proj2 (proj2 item_equality_and_key)))).
  reflexivity.
Defined.

(** ** The items of an agent reply *)

Lemma add_match_items menu item_name items m items' :
  SmartCartParser.add_match menu item_name items m = inr items' ->
  items' = items
  \/ exists item, items' = items ++ [item] /\ parsed_from_menu menu item
                  /\ (forall q, m = SmartCartParser.Str q ->
                                SmartCartParser.quantity item = 1%Z
                                /\ SmartCartParser.size item = "regular").
Proof.
  unfold SmartCartParser.add_match.
  destruct (SmartCartParser.quantity_and_size m) as [quantity_str size] eqn:Hqs.
  destruct (SmartCartParser.to_quantity quantity_str) as [e|quantity] eqn:Hq;
    simpl; [discriminate|].
  destruct (Z.leb_spec quantity 0) as [Hle|Hgt].
  - intros H. inversion H. now left.
  - assert (Hgt' : (1 <= quantity)%Z) by lia. revert Hgt'.
    intros Hgt'.
    destruct (SmartCartParser.find_menu_item menu item_name)
      as [menu_item|] eqn:Hfind.
    + assert (Hsize : In (if PyStr.mem size ["small"; "medium"; "large"]
                          then size else "regular")
                         ["small"; "medium"; "large"; "regular"]).
      { destruct (PyStr.mem size ["small"; "medium"; "large"]) eqn:Hmem.
        - apply str_mem_In in Hmem.
          destruct Hmem as [<-|[<-|[<-|[]]]]; simpl; auto.
        - simpl. auto. }
      intros H. inversion H; subst items'; clear H. right.
      eexists. split; [reflexivity|]. split.
      * split; [exact Hgt'|]. split; [exact Hsize|].
        split; [reflexivity|]. exists menu_item.
        apply find_some in Hfind. tauto.
      * intros q ->. simpl in Hqs. inversion Hqs; subst.
        cbn [SmartCartParser.quantity SmartCartParser.size].
        split; [|reflexivity].
        vm_compute in Hq. now inversion Hq.
    + intros H. inversion H. now left.
Qed.

Lemma add_matches_items menu item_name ms : forall items items',
  Forall (parsed_from_menu menu) items ->
  SmartCartParser.add_matches menu item_name items ms = inr items' ->
  Forall (parsed_from_menu menu) items'.
Proof.
  induction ms as [|m ms IH]; cbn [SmartCartParser.add_matches];
    intros items items' Hall H.
  - now inversion H; subst.
  - destruct (SmartCartParser.add_match menu item_name items m)
      as [e|items1] eqn:Hm; simpl in H; [discriminate|].
    apply (IH items1 items'); [|exact H].
    destruct (add_match_items _ _ _ _ _ Hm) as [->|(item & -> & Hitem & _)];
      [exact Hall|].
    apply Forall_app. split; [exact Hall | now constructor].
Qed.

Lemma add_patterns_items findall_pairs findall_single menu text patterns :
  forall items items',
  Forall (parsed_from_menu menu) items ->
  SmartCartParser.add_patterns findall_pairs findall_single menu text items
    patterns = inr items' ->
  Forall (parsed_from_menu menu) items'.
Proof.
  induction patterns as [|p patterns IH]; cbn [SmartCartParser.add_patterns];
    intros items items' Hall H.
  - now inversion H; subst.
  - destruct (SmartCartParser.add_pattern _ _ menu text items p)
      as [e|items1] eqn:Hp; simpl in H; [discriminate|].
    apply (IH items1 items'); [|exact H].
    unfold SmartCartParser.add_pattern in Hp.
    exact (add_matches_items _ _ _ _ _ Hall Hp).
Qed.

Lemma extract_items_from_menu findall_pairs findall_single menu text items :
  SmartCartParser._extract_items_from_text findall_pairs findall_single
    menu text = inr items ->
  Forall (parsed_from_menu menu) items.
Proof.
  unfold SmartCartParser._extract_items_from_text.
  apply add_patterns_items. constructor.
Qed.

Lemma final_state_items_from_menu findall_pairs findall_single menu text
      phrases items :
  SmartCartParser.final_state_items findall_pairs findall_single
    menu text phrases = inr items ->
  Forall (parsed_from_menu menu) items.
Proof.
  induction phrases as [|phrase phrases IH];
    cbn [SmartCartParser.final_state_items].
  - intros H. inversion H. constructor.
  - destruct (PyStr.find text phrase); [apply extract_items_from_menu | exact IH].
Qed.

Lemma parse_agent_text_items findall_pairs findall_single menu text items
      removal :
  SmartCartParser.parse_agent_text findall_pairs findall_single menu text
  = inr (items, removal) ->
  Forall (parsed_from_menu menu) items
  /\ removal = existsb (PyStr.contains (PyStr.lower text))
                       SmartCartParser.removal_phrases.
Proof.
  unfold SmartCartParser.parse_agent_text.
  destruct (existsb _ SmartCartParser.final_state_phrases).
  - destruct (SmartCartParser.final_state_items _ _ _ _ _) as [e|items0] eqn:H;
      simpl; [discriminate|].
    intros H'. inversion H'; subst. split; [|reflexivity].
    exact (final_state_items_from_menu _ _ _ _ _ _ H).
  - destruct (SmartCartParser._extract_items_from_text _ _ _ _)
      as [e|items0] eqn:H; simpl; [discriminate|].
    intros H'. inversion H'; subst. split; [|reflexivity].
    exact (extract_items_from_menu _ _ _ _ _ H).
Qed.

Lemma single_group_matches menu item_name ms : forall items items',
  Forall (fun m => exists q, m = SmartCartParser.Str q) ms ->
  SmartCartParser.add_matches menu item_name items ms = inr items' ->
  exists added,
    items' = items ++ added
    /\ Forall (fun item => SmartCartParser.quantity item = 1%Z
                           /\ SmartCartParser.size item = "regular") added.
Proof.
  induction ms as [|m ms IH]; cbn [SmartCartParser.add_matches];
    intros items items' Hstr H.
  - inversion H; subst. exists []. now rewrite app_nil_r.
  - inversion Hstr as [|? ? [q Hq] Hrest]; subst.
    destruct (SmartCartParser.add_match menu item_name items
                (SmartCartParser.Str q)) as [e|items1] eqn:Hm;
      simpl in H; [discriminate|].
    destruct (IH _ _ Hrest H) as (added & -> & Hadded).
    destruct (add_match_items _ _ _ _ _ Hm) as [->|(item & -> & _ & Hone)].
    + eauto.
    + exists (item :: added). rewrite <- app_assoc. split; [reflexivity|].
      constructor; [exact (Hone q eq_refl) | exact Hadded].
Qed.
(** X22. The items that [SmartCartParser] reads off a reply, whatever
    the matches of its regular expressions are.  Every item returned by
    [_extract_items_from_text] and by [parse_agent_text] has a quantity
    of at least 1 (a quantity of 0 or less is skipped), one of the sizes
    small, medium, large and regular, no modifiers, and the name and the
    price of an item of the menu.  The three doughnut patterns have one
    capturing group, so that [re.findall] returns strings and no tuples
    for them: the items of such a pattern all get the quantity 1 and the
    size regular, whatever quantity the reply gives. *)
Theorem smart_parser_items :
  forall (findall_pairs : string -> string -> list (string * string))
         (findall_single : string -> string -> list string)
         (menu : Menu.t) (text : string),
    (forall items,
        SmartCartParser._extract_items_from_text findall_pairs findall_single
          menu text = inr items ->
        Forall (parsed_from_menu menu) items)
    /\ (forall items removal,
           SmartCartParser.parse_agent_text findall_pairs findall_single
             menu text = inr (items, removal) ->
           Forall (parsed_from_menu menu) items)
    /\ (forall pattern items items',
           SmartCartParser.two_groups pattern = false ->
           SmartCartParser.add_pattern findall_pairs findall_single
             menu text items pattern = inr items' ->
           exists added,
             items' = items ++ added
             /\ Forall (fun item => SmartCartParser.quantity item = 1%Z
                                    /\ SmartCartParser.size item = "regular")
                       added)
    /\ map SmartCartParser.item_name
           (filter (fun pattern => negb (SmartCartParser.two_groups pattern))
                   SmartCartParser.item_patterns)
       = ["Pumpkin Spice Iced Doughnut"; "Chocolate Iced Doughnut";
          "Raspberry Filled Doughnut"].
Proof.
  intros findall_pairs findall_single menu text.
  split; [|split; [|split; [|reflexivity]]].
  - intros items. apply extract_items_from_menu.
  - intros items removal H.
    exact (proj1 (parse_agent_text_items _ _ _ _ _ _ H)).
  - intros pattern items items' Hone.
    unfold SmartCartParser.add_pattern, SmartCartParser.findall.
    rewrite Hone. intros H.
    eapply single_group_matches; [|exact H].
    apply Forall_forall. intros m Hm. apply in_map_iff in Hm.
    destruct Hm as (q & <- & _). eauto.
Qed.

Lemma smart_parser_items_witness :
  Forall (parsed_from_menu SMALL_MENU)
    [SmartCartParser.mk_parsed "Regular Brewed Coffee" 2 (lit 179 100)
       "large" [];
     SmartCartParser.mk_parsed "Chocolate Iced Doughnut" 1 (lit 109 100)
       "regular" []].
Proof.
  apply (proj1 (proj2 (smart_parser_items sample_pairs sample_single
                         SMALL_MENU sample_reply)) _ true).
  vm_compute. reflexivity.
Defined.

(** ** An agent reply that states the final order *)

Lemma append_items_raises items :
  items <> [] ->
  UltravoxVoiceSession.append_items Cart.empty items
  = (Cart.empty, Some TypeError).
Proof. destruct items as [|item items]; [intros H; now elim H | reflexivity]. Qed.

Lemma contains_removal_phrase text phrase :
  In phrase SmartCartParser.removal_phrases ->
  PyStr.contains text phrase = true ->
  existsb (PyStr.contains text) SmartCartParser.removal_phrases = true.
Proof. intros Hin Hc. apply existsb_exists. eauto. Qed.

(** X23. When the agent states the final order, the cart of the session
    is lost.  For a reply that contains "now you just have" (a phrase
    that also marks a removal), [_update_cart_from_agent_confirmation]
    replaces the cart by a new one and then builds the items with
    [CartItem(name=..., ...)], without the SKU that the constructor
    requires: the first item raises [TypeError], which the method
    catches.  The cart of the session is empty afterwards whatever items
    the reply lists; and when it lists at least one, no update is sent to
    the client. *)
Theorem agent_final_order_empties_cart :
  forall (findall_pairs : string -> string -> list (string * string))
         (findall_single : string -> string -> list string)
         (menu : Menu.t) (cart : Cart.t) (text : string)
         (items : list SmartCartParser.parsed_item) (removal : bool),
    SmartCartParser.parse_agent_text findall_pairs findall_single menu text
    = inr (items, removal) ->
    PyStr.contains (PyStr.lower text) "now you just have" = true ->
    let after :=
      UltravoxVoiceSession._update_cart_from_agent_confirmation
        findall_pairs findall_single menu cart text in
    UltravoxVoiceSession.cart_after after = Cart.empty
    /\ (items <> [] -> UltravoxVoiceSession.emitted after = []).
Proof.
  intros findall_pairs findall_single menu cart text items removal Hparse Hnow.
  unfold UltravoxVoiceSession._update_cart_from_agent_confirmation.
  rewrite Hparse.
  destruct (parse_agent_text_items _ _ _ _ _ _ Hparse) as [_ ->].
  rewrite (contains_removal_phrase (PyStr.lower text) "now you just have")
    by (simpl; auto 10 || exact Hnow).
  rewrite Hnow. cbn [andb orb].
  destruct items as [|item items].
  - split; [reflexivity | intros H; now elim H].
  - split; [reflexivity | intros _; reflexivity].
Qed.

Lemma agent_final_order_empties_cart_witness :
  UltravoxVoiceSession.cart_after
    (UltravoxVoiceSession._update_cart_from_agent_confirmation
       sample_pairs sample_single SMALL_MENU one_donut sample_reply)
  = Cart.empty.
Proof.
  refine (proj1 (agent_final_order_empties_cart sample_pairs sample_single
                   SMALL_MENU one_donut sample_reply _ true _ _)).
  - vm_compute. reflexivity.
  - vm_compute. reflexivity.
Defined.

(** ** Adding an order to the cart of a session *)

Lemma total_quantity_app a b :
  total_quantity (a ++ b) = (total_quantity a + total_quantity b)%Z.
Proof.
  unfold total_quantity. induction a as [|x a IH]; simpl; [reflexivity|].
  rewrite IH. lia.
Qed.

Lemma add_to_existing_spec items new_item items' :
  UltravoxVoiceSession.add_to_existing items new_item = Some items' ->
  exists before existing after,
    items = before ++ existing :: after
    /\ items' = before
                ++ CartItem.with_quantity existing
                     (CartItem.quantity existing + CartItem.quantity new_item)
                   :: after
    /\ UltravoxVoiceSession.same_line existing new_item = true
    /\ (forall x, In x before -> UltravoxVoiceSession.same_line x new_item = false).
Proof.
  revert items'. induction items as [|x items IH]; simpl; intros items' H;
    [discriminate|].
  destruct (UltravoxVoiceSession.same_line x new_item) eqn:Hx.
  - inversion H; subst. exists [], x, items. simpl. repeat split; auto.
    intros ? [].
  - destruct (UltravoxVoiceSession.add_to_existing items new_item) as [rest'|];
      [|discriminate].
    inversion H; subst.
    destruct (IH rest' eq_refl) as (before & existing & after & -> & -> & He & Hb).
    exists (x :: before), existing, after. simpl. repeat split; auto.
    intros y [<-|Hy]; auto.
Qed.

Lemma add_to_existing_none items new_item :
  UltravoxVoiceSession.add_to_existing items new_item = None ->
  forall x, In x items -> UltravoxVoiceSession.same_line x new_item = false.
Proof.
  induction items as [|y items IH]; simpl; intros H x Hx; [destruct Hx|].
  destruct (UltravoxVoiceSession.same_line y new_item) eqn:Hy; [discriminate|].
  destruct (UltravoxVoiceSession.add_to_existing items new_item); [discriminate|].
  destruct Hx as [<-|Hx]; auto.
Qed.

Lemma merge_new_item_quantity items new_item :
  total_quantity (UltravoxVoiceSession.merge_new_item items new_item)
  = (total_quantity items + CartItem.quantity new_item)%Z.
Proof.
  unfold UltravoxVoiceSession.merge_new_item.
  destruct (UltravoxVoiceSession.add_to_existing items new_item) as [items'|] eqn:H.
  - destruct (add_to_existing_spec _ _ _ H)
      as (before & existing & after & -> & -> & _).
    rewrite !total_quantity_app. unfold total_quantity. simpl. lia.
  - rewrite total_quantity_app. unfold total_quantity. simpl. lia.
Qed.

Lemma merge_new_item_lines items new_item i x :
  nth_error items i = Some x ->
  exists q, nth_error (UltravoxVoiceSession.merge_new_item items new_item) i
            = Some (CartItem.with_quantity x q)
            /\ (q = CartItem.quantity x
                \/ q = (CartItem.quantity x + CartItem.quantity new_item)%Z).
Proof.
  intros Hx. unfold UltravoxVoiceSession.merge_new_item.
  assert (Hsame : CartItem.with_quantity x (CartItem.quantity x) = x)
    by (now destruct x).
  destruct (UltravoxVoiceSession.add_to_existing items new_item) as [items'|] eqn:H.
  - destruct (add_to_existing_spec _ _ _ H)
      as (before & existing & after & -> & -> & _).
    destruct (Nat.lt_trichotomy i (List.length before)) as [Hlt|[Heq|Hgt]].
    + rewrite nth_error_app1 in Hx |- * by exact Hlt.
      exists (CartItem.quantity x). rewrite Hsame. auto.
    + subst i. rewrite nth_error_app2 in Hx |- * by lia.
      rewrite Nat.sub_diag in Hx |- *. simpl in Hx |- *.
      inversion Hx; subst. eauto.
    + rewrite nth_error_app2 in Hx |- * by lia.
      destruct (i - List.length before) as [|k] eqn:Hk; [lia|].
      simpl in Hx |- *. exists (CartItem.quantity x). rewrite Hsame. auto.
  - exists (CartItem.quantity x). rewrite Hsame.
    rewrite nth_error_app1; [auto|].
    apply nth_error_Some. congruence.
Qed.

Lemma merge_new_items_quantity new_items : forall items,
  total_quantity (UltravoxVoiceSession.merge_new_items items new_items)
  = (total_quantity items + total_quantity new_items)%Z.
Proof.
  unfold UltravoxVoiceSession.merge_new_items.
  induction new_items as [|new_item new_items IH]; simpl; intros items.
  - unfold total_quantity at 3. simpl. lia.
  - rewrite IH, merge_new_item_quantity.
    unfold total_quantity at 4. simpl. fold (total_quantity new_items). lia.
Qed.

Lemma merge_new_items_lines new_items : forall items i x,
  nth_error items i = Some x ->
  exists q, nth_error (UltravoxVoiceSession.merge_new_items items new_items) i
            = Some (CartItem.with_quantity x q).
Proof.
  unfold UltravoxVoiceSession.merge_new_items.
  induction new_items as [|new_item new_items IH]; simpl; intros items i x Hx.
  - exists (CartItem.quantity x). now destruct x.
  - destruct (merge_new_item_lines items new_item i x Hx) as (q & Hq & _).
    destruct (IH _ _ _ Hq) as (q' & Hq'). exists q'. exact Hq'.
Qed.

Lemma merge_new_items_length new_items : forall items,
  List.length items
  <= List.length (UltravoxVoiceSession.merge_new_items items new_items)
  <= List.length items + List.length new_items.
Proof.
  unfold UltravoxVoiceSession.merge_new_items.
  induction new_items as [|new_item new_items IH]; simpl; intros items; [lia|].
  specialize (IH (UltravoxVoiceSession.merge_new_item items new_item)).
  assert (Hone : List.length items
                 <= List.length (UltravoxVoiceSession.merge_new_item items new_item)
                 <= S (List.length items)).
  { unfold UltravoxVoiceSession.merge_new_item.
    destruct (UltravoxVoiceSession.add_to_existing items new_item) as [items'|] eqn:H.
    - destruct (add_to_existing_spec _ _ _ H)
        as (before & existing & after & -> & -> & _).
      rewrite !length_app. simpl. lia.
    - rewrite length_app. simpl. lia. }
  lia.
Qed.

(** X24. Adding a parsed order to the cart of a session loses and
    invents no article.  After the loop that merges the new lines into
    the cart, the quantities of the cart add up to what they were plus
    the quantities of the new lines; every line that was in the cart is
    still at its place, with a quantity that may have grown and the other
    fields as they were; and no more lines are appended than the order
    has.  When [_update_cart_from_transcript] gets to send the cart, its
    total is the [sum] of the products of price and quantity of its
    lines. *)
Theorem session_add_conserves_quantities :
  (forall items new_items : list CartItem.t,
      total_quantity (UltravoxVoiceSession.merge_new_items items new_items)
      = (total_quantity items + total_quantity new_items)%Z
      /\ (forall i x, nth_error items i = Some x ->
            exists q,
              nth_error (UltravoxVoiceSession.merge_new_items items new_items) i
              = Some (CartItem.with_quantity x q))
      /\ List.length items
         <= List.length (UltravoxVoiceSession.merge_new_items items new_items)
         <= List.length items + List.length new_items)
  /\ (forall (cart_normalizer : CartNormalizer.t) (cart order : Cart.t)
             (text : string) (sent : Cart.json),
         CartNormalizer.parse_order cart_normalizer text = inr order ->
         In sent (UltravoxVoiceSession.emitted
                    (UltravoxVoiceSession.add_from_transcript cart_normalizer cart
                       text)) ->
         let after :=
           UltravoxVoiceSession.cart_after
             (UltravoxVoiceSession.add_from_transcript cart_normalizer cart text) in
         sent = Cart.to_dict after
         /\ Cart.items after
            = UltravoxVoiceSession.merge_new_items (Cart.items cart) (Cart.items order)
         /\ exists ps, Cart.line_totals (Cart.items after) = inr ps
                       /\ Cart.total after = F64.sum ps).
Proof.
  split.
  - intros items new_items.
    split; [apply merge_new_items_quantity|].
    split; [apply merge_new_items_lines | apply merge_new_items_length].
  - intros cart_normalizer cart order text sent Hparse.
    unfold UltravoxVoiceSession.add_from_transcript. rewrite Hparse.
    unfold UltravoxVoiceSession.recalculate_and_emit,
      UltravoxVoiceSession.recalculated_total.
    cbn [Cart.items].
    destruct (Cart.line_totals _) as [e|ps] eqn:Hps; simpl.
    + intros [].
    + intros [<-|[]]. split; [reflexivity|]. split; [reflexivity|].
      exists ps. auto.
Qed.

Lemma session_add_conserves_quantities_witness :
  exists ps,
    Cart.line_totals
      (Cart.items
         (UltravoxVoiceSession.cart_after
            (UltravoxVoiceSession.add_from_transcript small_normalizer one_coffee
               "two coffee and three coffee"))) = inr ps
    /\ Cart.total
         (UltravoxVoiceSession.cart_after
            (UltravoxVoiceSession.add_from_transcript small_normalizer one_coffee
               "two coffee and three coffee")) = F64.sum ps.
Proof.
  refine (proj2 (proj2 (proj2 session_add_conserves_quantities
                          small_normalizer one_coffee _
                          "two coffee and three coffee" _ _ _))).
  - vm_compute. reflexivity.
  - vm_compute. left. reflexivity.
Defined.

(** ** The three scores of a row *)

Section SortM.
Context {A : Type}.
Variable lt : A -> A -> py bool.



End SortM.












(** ** Parsed carts and [exact_match] *)

Lemma exact_match_of_permutation items items' total total' :
  NoDup (map sort_key items) ->
  (forall a b, In a items -> In b items -> comparable a b) ->
  Permutation items items' ->
  CartEvaluator.exact_match (Cart.mk items total) (Cart.mk items' total')
  = inr true.
Proof.
  intros Hnd Hcmp Hperm.
  unfold CartEvaluator.exact_match. simpl.
  rewrite (Permutation_length Hperm), Nat.eqb_refl. simpl.
  rewrite (sortedM_comparable items Hcmp).
  rewrite (sortedM_comparable items').
  - simpl.
    rewrite (strict_sorted_perm sort_key sort_key_ltb sort_key_ltb_irrefl
               sort_key_ltb_trans sort_key_ltb_total items items' Hnd Hperm).
    now rewrite no_difference_with_itself.
  - intros a b Ha Hb.
    apply Hcmp; apply (Permutation_in _ (Permutation_sym Hperm)); assumption.
Qed.

Lemma distinct_keys_distinct_sort_keys (items : list CartItem.t) :
  NoDup (map CartItem.key items) -> NoDup (map sort_key items).
Proof.
  intros Hnd.
  assert (Hmap : map CartItem.key items
                 = map (fun k : string * option string * list string =>
                          (fst (fst k), snd (fst k),
                           PySort.sorted PyStr.ltb (snd k)))
                       (map sort_key items))
    by (rewrite map_map; reflexivity).
  rewrite Hmap in Hnd. exact (NoDup_map_inv _ _ Hnd).
Qed.

Lemma parsed_lines_comparable menu text (items : list CartItem.t) :
  NoDup (map MenuItem.sku (Menu.items menu)) ->
  Forall (line_of_menu menu text) items ->
  forall a b, In a items -> In b items -> comparable a b.
Proof.
  intros Hskus Hall a b Ha Hb Hsku. rewrite Forall_forall in Hall.
  destruct (Hall _ Ha) as (ia & _ & _ & Hia & _ & _ & Hsa & _ & Hza & _).
  destruct (Hall _ Hb) as (ib & _ & _ & Hib & _ & _ & Hsb & _ & Hzb & _).
  assert (ia = ib)
    by (apply (same_sku_same_item (Menu.items menu)); congruence).
  subst ib. rewrite Hza, Hzb. tauto.
Qed.

(** X26. A parsed cart and [exact_match].  On a menu whose SKUs are
    pairwise distinct, the cart that [parse_order] returns matches itself
    and every rearrangement of its lines: the comparison neither raises
    nor depends on the order, since no two lines of the cart share a key
    and a line has a size exactly when its item has size variations. *)
Theorem parsed_cart_matches_its_rearrangements :
  forall (menu : Menu.t) (text : string) (cart : Cart.t)
         (items' : list CartItem.t) (total' : F64.float),
    NoDup (map MenuItem.sku (Menu.items menu)) ->
    CartNormalizer.parse_order (CartNormalizer.new menu) text = inr cart ->
    Permutation (Cart.items cart) items' ->
    CartEvaluator.exact_match cart (Cart.mk items' total') = inr true.
Proof.
  intros menu text cart items' total' Hskus Hparse Hperm.
  revert Hparse. unfold CartNormalizer.parse_order.
  destruct (CartNormalizer._find_all_items _ _) as [e|lines] eqn:Hfound;
    simpl; [discriminate|].
  destruct (CartNormalizer.add_items Cart.empty lines) as [e|added] eqn:Hadd;
    simpl; [discriminate|].
  intros Hmerge.
  pose proof (proj1 (add_items_result lines Cart.empty) _ Hadd) as Hitems.
  simpl in Hitems.
  pose proof (proj1 (merge_duplicates_result added) _ Hmerge) as Hmerged.
  rewrite Hitems in Hmerged.
  assert (Hlines : Forall (line_of_menu menu
                             (CartNormalizer.normalize_text
                                (CartNormalizer._handle_corrections text)))
                          (Cart.items cart)).
  { rewrite Hmerged. apply Forall_forall. intros m Hm.
    apply (merged_line_of_menu menu _ lines); [|exact Hm].
    now apply found_lines. }
  destruct cart as [items total]. simpl in *.
  apply exact_match_of_permutation; [| |exact Hperm].
  - apply distinct_keys_distinct_sort_keys. rewrite Hmerged.
    apply merged_items_nodup.
  - exact (parsed_lines_comparable menu _ items Hskus Hlines).
Qed.

Lemma parsed_cart_matches_its_rearrangements_witness :
  CartEvaluator.exact_match
    (Cart.mk [CartItem.mk "COF001" "Regular Brewed Coffee" 1
                          (Some "medium") ["sprinkles"] price_2_09;
              CartItem.mk "DON001" "Pumpkin Spice Iced Doughnut" 1
                          None ["sprinkles"] (lit 129 100)]
             (F64.add price_2_09 (lit 129 100)))
    (Cart.mk [CartItem.mk "DON001" "Pumpkin Spice Iced Doughnut" 1
                          None ["sprinkles"] (lit 129 100);
              CartItem.mk "COF001" "Regular Brewed Coffee" 1
                          (Some "medium") ["sprinkles"] price_2_09]
             zero)
  = inr true.
Proof.
  apply (parsed_cart_matches_its_rearrangements SMALL_MENU
           "a coffee and a pumpkin donut with sprinkles").
  - vm_compute. repeat constructor; simpl; intuition discriminate.
  - vm_compute. reflexivity.
  - apply perm_swap.
Defined.

(** ** Merging and the scores *)














(** ** A named item reaches the cart *)

Lemma string_app_inv_length (a b c d : string) :
  (a ++ b)%string = (c ++ d)%string -> String.length a = String.length c ->
  a = c /\ b = d.
Proof.
  revert c. induction a as [|x a IH]; intros [|y c] H Hlen; simpl in *;
    try discriminate.
  - auto.
  - inversion H; subst. destruct (IH c H2) as [-> ->]; [lia | auto].
Qed.

Lemma strip_literal_self pat post :
  PyRe.strip_literal PyRe.same_case pat (pat ++ post) = Some post.
Proof.
  induction pat as [|p pat IH]; simpl; [reflexivity|].
  unfold PyRe.same_case at 1. now rewrite Ascii.eqb_refl.
Qed.

Lemma occurs_word_match_here pat pre rest :
  occurs_at pat (pre ++ rest) (String.length pre) ->
  PyRe.word_match_here PyRe.same_case pat (last_from None pre) rest = true.
Proof.
  intros (pre' & post & Heq & Hlen & Hb1 & Hb2).
  symmetry in Hlen.
  destruct (string_app_inv_length _ _ _ _ Heq Hlen) as [<- ->].
  unfold PyRe.word_match_here.
  rewrite strip_literal_self, last_consumed_literal, Hb1, Hb2. reflexivity.
Qed.

Lemma occurs_at_step pat pre c rest k :
  occurs_at pat (pre ++ String c rest) (String.length pre + S k) ->
  occurs_at pat ((pre ++ String c "") ++ rest)
            (String.length (pre ++ String c "") + k).
Proof.
  rewrite string_app_assoc, string_length_app. simpl.
  now replace (String.length pre + 1 + k) with (String.length pre + S k) by lia.
Qed.

Lemma finditer_from_finds pat rest : forall pre k,
  occurs_at pat (pre ++ rest) (String.length pre + k) ->
  PyRe.finditer_from PyRe.same_case pat (last_from None pre) rest
    (String.length pre) 0 <> [].
Proof.
  induction rest as [|c rest IH]; intros pre k Hocc.
  - cbn [PyRe.finditer_from].
    destruct k as [|k].
    + rewrite Nat.add_0_r in Hocc.
      rewrite (occurs_word_match_here _ _ _ Hocc). discriminate.
    + apply occurs_at_within in Hocc.
      rewrite string_length_app in Hocc. simpl in Hocc. lia.
  - cbn [PyRe.finditer_from].
    destruct (PyRe.word_match_here PyRe.same_case pat (last_from None pre)
                (String c rest)) eqn:Hhere; [discriminate|].
    destruct k as [|k].
    + rewrite Nat.add_0_r in Hocc.
      rewrite (occurs_word_match_here _ _ _ Hocc) in Hhere. discriminate.
    + simpl app. change (pred 0) with 0.
      assert (Hprev : Some c = last_from None (pre ++ String c ""))
        by (now rewrite last_from_app).
      assert (Hlen : S (String.length pre) = String.length (pre ++ String c ""))
        by (rewrite string_length_app; simpl; lia).
      rewrite Hprev, Hlen. apply (IH _ k). now apply occurs_at_step.
Qed.

Lemma finditer_word_finds alias text start :
  occurs_at alias text start -> PyRe.finditer_word alias text <> [].
Proof.
  intros Hocc. unfold PyRe.finditer_word.
  exact (finditer_from_finds alias text "" start Hocc).
Qed.

Lemma found_mentions_nonempty self text alias item start :
  In (alias, item) (CartNormalizer.alias_map self) ->
  occurs_at alias text start ->
  CartNormalizer.found_mentions self text <> [].
Proof.
  intros Hkv Hocc Hnil.
  pose proof (finditer_word_finds _ _ _ Hocc) as Hspans.
  destruct (PyRe.finditer_word alias text) as [|[s e] spans] eqn:Hf;
    [now elim Hspans|].
  assert (Hin : In (mk_mention s e alias item)
                   (CartNormalizer.found_mentions self text)).
  { apply found_mentions_In. exists alias, item. simpl.
    rewrite Hf. simpl. auto. }
  rewrite Hnil in Hin. destruct Hin.
Qed.

Lemma longest_alias_wins_nonempty accepted m :
  longest_alias_wins accepted m <> [].
Proof.
  unfold longest_alias_wins.
  destruct (find (intersects m) accepted) as [hit|] eqn:Hfind.
  - destruct (_ <? _).
    + intros H. apply app_eq_nil in H. destruct H. discriminate.
    + apply find_some in Hfind. destruct Hfind as [Hin _].
      intros H. rewrite H in Hin. destruct Hin.
  - intros H. apply app_eq_nil in H. destruct H. discriminate.
Qed.

Lemma policy_nonempty candidates : forall accepted,
  candidates <> [] \/ accepted <> [] ->
  fold_left longest_alias_wins candidates accepted <> [].
Proof.
  induction candidates as [|c candidates IH]; simpl; intros accepted H.
  - destruct H as [H|H]; [now elim H | exact H].
  - apply IH. right. apply longest_alias_wins_nonempty.
Qed.

Lemma kept_mentions_nonempty self text :
  CartNormalizer.found_mentions self text <> [] ->
  kept_mentions self text <> [].
Proof.
  intros Hfound. unfold kept_mentions, CartNormalizer.filter_mentions.
  destruct (sort_mentions_sorted (CartNormalizer.found_mentions self text))
    as [Hsorted Hperm].
  destruct (filter_mentions_from _ [] Hsorted (FOP_nil _)) as (-> & _);
    [intros ? ? []|].
  apply policy_nonempty. left. intros Hnil.
  rewrite Hnil in Hperm. apply Permutation_nil in Hperm. auto.
Qed.

Lemma merged_items_nonempty l : l <> [] -> Cart.merged_items l <> [].
Proof.
  intros Hl Hnil. pose proof (merged_items_keys l) as Hk.
  rewrite Hnil in Hk. destruct l as [|x l]; [now elim Hl|].
  simpl in Hk. discriminate.
Qed.

(** X28. A named item reaches the cart.  If a name or an alias of an
    item of the menu stands as a whole word in the normalized text of a
    transcript and [parse_order] returns a cart, the cart is not empty:
    the finder reports the occurrence, the removal of overlaps leaves at
    least one mention, and every kept mention becomes a line. *)
Theorem named_item_reaches_cart :
  forall (menu : Menu.t) (text : string) (cart : Cart.t)
         (item : MenuItem.t) (alias : string) (start : nat),
    In item (Menu.items menu) -> In alias (labels item) ->
    occurs_at alias
      (CartNormalizer.normalize_text (CartNormalizer._handle_corrections text))
      start ->
    CartNormalizer.parse_order (CartNormalizer.new menu) text = inr cart ->
    Cart.items cart <> [].
Proof.
  intros menu text cart item alias start Hitem Halias Hocc.
  unfold CartNormalizer.parse_order.
  destruct (CartNormalizer._find_all_items _ _) as [e|lines] eqn:Hfound;
    simpl; [discriminate|].
  destruct (CartNormalizer.add_items Cart.empty lines) as [e|added] eqn:Hadd;
    simpl; [discriminate|].
  intros Hmerge.
  pose proof (proj1 (add_items_result lines Cart.empty) _ Hadd) as Hitems.
  simpl in Hitems.
  rewrite (proj1 (merge_duplicates_result added) _ Hmerge), Hitems.
  apply merged_items_nonempty.
  apply make_items_lines in Hfound.
  destruct (alias_map_complete menu item alias Hitem Halias) as (item' & Hget).
  apply sget_In in Hget.
  pose proof (kept_mentions_nonempty _ _
                (found_mentions_nonempty _ _ _ _ _ Hget Hocc)) as Hkept.
  fold (kept_mentions (CartNormalizer.new menu)
          (CartNormalizer.normalize_text
             (CartNormalizer._handle_corrections text))) in Hfound.
  inversion Hfound as [Hnil|m line ms lines' _ _ Hm Hl]; [|discriminate].
  now elim Hkept.
Qed.

Lemma named_item_reaches_cart_witness :
  Cart.items
    (Cart.mk [CartItem.mk "TEA001" "Tea" 1 (Some "") [] (lit 10 10)]
             (lit 10 10)) <> [].
Proof.
  apply (named_item_reaches_cart tea_menu "plain tea" _ tea "tea" 6).
  - now left.
  - vm_compute. auto.
  - exists "plain ", "". vm_compute. auto.
  - vm_compute. reflexivity.
Defined.
